(** * The CodePathfinder agent workflow

    A shallow embedding of [backend/workflows/agent_workflow.py]: the
    [AgentWorkflowState] record, the four node functions, the graph the
    workflow builds with LangGraph's [StateGraph], and the two entry points
    [run_full_workflow] and [run_partial_workflow].  The preparation agent
    ([backend/agents/preparation/preparation_agent.py]) is embedded down to
    its calls to GitHub and to the generative model; the three other agents
    are taken by what one call of them returns or raises. *)

From Stdlib Require Import String Ascii List ZArith Bool Lia PrimFloat DecimalString.
From Stdlib Require Uint63.
From Stdlib Require Import Sorted Permutation.
Import ListNotations.

Local Open Scope string_scope.
Local Open Scope list_scope.

(** String concatenation, kept apart from the concatenation of lists. *)
Infix "+++" := String.append (right associativity, at level 60).

(** ** Data model ([backend/models/schemas.py]) *)

Inductive SkillLevel : Type := BEGINNER | INTERMEDIATE | ADVANCED.

(** A [datetime], by the reading of its clock, in seconds from a fixed
    origin.  The [tzinfo] it may carry is left out: the agents subtract two
    datetimes of one [tzinfo] only, which Python does by their readings. *)
Definition datetime : Type := Z.

Module UserProfile.
Record t : Type := Build {
  id : option Z;
  skill_level : SkillLevel;
  programming_languages : list string;
  interests : list string;
  time_commitment : string;
  github_username : option string;
  created_at : option datetime
}.
End UserProfile.

Module RepositoryMatch.
Record t : Type := Build {
  repo_name : string;
  repo_url : string;
  description : string;
  stars : Z;
  language : string;
  match_score : float;
  match_reasoning : string;
  difficulty_level : SkillLevel;
  community_friendliness_score : float;
  good_first_issues_count : Z;
  recent_activity : bool
}.
End RepositoryMatch.

Module Issue.
Record t : Type := Build {
  issue_number : Z;
  title : string;
  url : string;
  labels : list string;
  description : string;
  difficulty_rating : SkillLevel;
  estimated_complexity : string;
  approach_suggestions : string;
  created_at : datetime;
  comments_count : Z
}.
End Issue.

Module ContributionGuide.
Record t : Type := Build {
  repo_name : string;
  setup_instructions : string;
  project_structure : string;
  coding_conventions : string;
  testing_guide : string;
  contribution_workflow : string;
  helpful_resources : list string
}.
End ContributionGuide.

Module MentoringPlan.
Record t : Type := Build {
  issue_number : Z;
  repo_name : string;
  step_by_step_plan : list string;
  key_files_to_examine : list string;
  suggested_approach : string;
  git_commands : list string;
  testing_strategy : string;
  potential_challenges : list string
}.
End MentoringPlan.

(** ** The workflow state ([AgentWorkflowState])

    A [TypedDict] with eleven keys, all present.  [None] is Python's
    [None]. *)

Record AgentWorkflowState : Type := mkState {
  user_profile : option UserProfile.t;
  repositories : list RepositoryMatch.t;
  selected_repo_name : option string;
  selected_repo_url : option string;
  issues : list Issue.t;
  selected_issue_number : option Z;
  contribution_guide : option ContributionGuide.t;
  mentoring_plan : option MentoringPlan.t;
  messages : list string;
  current_step : string;
  error : option string
}.

(** [{**state, "key": v}] and [state["key"] = v], one function per key that
    the workflow writes. *)

Definition with_repositories (v : list RepositoryMatch.t) (s : AgentWorkflowState) :=
  mkState (user_profile s) v (selected_repo_name s) (selected_repo_url s)
          (issues s) (selected_issue_number s) (contribution_guide s)
          (mentoring_plan s) (messages s) (current_step s) (error s).

Definition with_selected_repo_name (v : option string) (s : AgentWorkflowState) :=
  mkState (user_profile s) (repositories s) v (selected_repo_url s)
          (issues s) (selected_issue_number s) (contribution_guide s)
          (mentoring_plan s) (messages s) (current_step s) (error s).

Definition with_selected_repo_url (v : option string) (s : AgentWorkflowState) :=
  mkState (user_profile s) (repositories s) (selected_repo_name s) v
          (issues s) (selected_issue_number s) (contribution_guide s)
          (mentoring_plan s) (messages s) (current_step s) (error s).

Definition with_issues (v : list Issue.t) (s : AgentWorkflowState) :=
  mkState (user_profile s) (repositories s) (selected_repo_name s)
          (selected_repo_url s) v (selected_issue_number s)
          (contribution_guide s) (mentoring_plan s) (messages s)
          (current_step s) (error s).

Definition with_selected_issue_number (v : option Z) (s : AgentWorkflowState) :=
  mkState (user_profile s) (repositories s) (selected_repo_name s)
          (selected_repo_url s) (issues s) v (contribution_guide s)
          (mentoring_plan s) (messages s) (current_step s) (error s).

Definition with_contribution_guide (v : option ContributionGuide.t) (s : AgentWorkflowState) :=
  mkState (user_profile s) (repositories s) (selected_repo_name s)
          (selected_repo_url s) (issues s) (selected_issue_number s) v
          (mentoring_plan s) (messages s) (current_step s) (error s).

Definition with_mentoring_plan (v : option MentoringPlan.t) (s : AgentWorkflowState) :=
  mkState (user_profile s) (repositories s) (selected_repo_name s)
          (selected_repo_url s) (issues s) (selected_issue_number s)
          (contribution_guide s) v (messages s) (current_step s) (error s).

Definition with_messages (v : list string) (s : AgentWorkflowState) :=
  mkState (user_profile s) (repositories s) (selected_repo_name s)
          (selected_repo_url s) (issues s) (selected_issue_number s)
          (contribution_guide s) (mentoring_plan s) v (current_step s) (error s).

Definition with_current_step (v : string) (s : AgentWorkflowState) :=
  mkState (user_profile s) (repositories s) (selected_repo_name s)
          (selected_repo_url s) (issues s) (selected_issue_number s)
          (contribution_guide s) (mentoring_plan s) (messages s) v (error s).

Definition with_error (v : option string) (s : AgentWorkflowState) :=
  mkState (user_profile s) (repositories s) (selected_repo_name s)
          (selected_repo_url s) (issues s) (selected_issue_number s)
          (contribution_guide s) (mentoring_plan s) (messages s)
          (current_step s) v.

(** Python truth values of the three kinds of value the nodes test. *)

Definition truthy_str (v : option string) : bool :=
  match v with
  | None => false
  | Some "" => false
  | Some _ => true
  end.

Definition truthy_int (v : option Z) : bool :=
  match v with
  | None => false
  | Some n => negb (Z.eqb n 0)
  end.

Definition truthy_list {A : Type} (l : list A) : bool :=
  match l with
  | [] => false
  | _ :: _ => true
  end.

(** [str(len(l))] inside an f-string. *)
Definition str_len {A : Type} (l : list A) : string :=
  NilZero.string_of_uint (Nat.to_uint (length l)).

(** ** Effects: exceptions and the calls that leave the process

    A computation ends by returning a value or by raising an exception, of
    which the workflow only ever reads [str(e)]; and it leaves the list of
    the calls it made, in the order it made them. *)

Inductive Outcome (A : Type) : Type :=
| Return (a : A)
| Raise (e : string).

Arguments Return {A} a.
Arguments Raise {A} e.

Inductive Event : Type :=
| NodeRun (name : string)
| ScoutCall (profile : option UserProfile.t)
| IssueMatcherCall (profile : option UserProfile.t) (repo : option string)
| MentorCall (profile : option UserProfile.t) (repo : option string) (issue : option Z)
| GitHubCall (api : string) (repo : option string)
| GenerateContent (prompt : string).

Definition M (A : Type) : Type := (Outcome A * list Event)%type.

Definition ret {A : Type} (a : A) : M A := (Return a, []).

Definition raise {A : Type} (e : string) : M A := (Raise e, []).

Definition emit (ev : Event) : M unit := (Return tt, [ev]).

Definition lift {A : Type} (o : Outcome A) : M A := (o, []).

Definition after {A : Type} (evs : list Event) (m : M A) : M A :=
  (fst m, evs ++ snd m).

Definition bind {A B : Type} (m : M A) (k : A -> M B) : M B :=
  match m with
  | (Return a, evs) => after evs (k a)
  | (Raise e, evs) => (Raise e, evs)
  end.

(** [try: m  except Exception as e: handler(str(e))] *)
Definition try_except {A : Type} (m : M A) (handler : string -> M A) : M A :=
  match m with
  | (Return a, evs) => (Return a, evs)
  | (Raise e, evs) => after evs (handler e)
  end.

Declare Scope workflow_scope.
Delimit Scope workflow_scope with workflow.

Notation "x <- m ;; k" := (bind m (fun x => k))
  (at level 61, m at next level, right associativity) : workflow_scope.
Notation "m ;;; k" := (bind m (fun _ => k))
  (at level 61, right associativity) : workflow_scope.

Local Open Scope workflow_scope.

Definition outcome {A : Type} (m : M A) : Outcome A := fst m.
Definition events {A : Type} (m : M A) : list Event := snd m.

(** ** The world outside the workflow

    What the three agents that the workflow only calls ([RepositoryScoutAgent],
    [IssueMatcherAgent], [MentoringAgent]) return or raise in one call, what
    the PyGithub client and the Gemini model answer to the preparation agent,
    and the text parts of that agent which no property below reads. *)

Definition RepoInfo : Type := list (string * string).

Module GuideJson.
Record t : Type := Build {
  setup_instructions : string;
  project_structure : string;
  coding_conventions : string;
  testing_guide : string;
  contribution_workflow : string;
  helpful_resources : list string
}.
End GuideJson.

Record Environment : Type := mkEnv {
  (** [await self.scout_agent.find_repositories(user_profile)] *)
  find_repositories : option UserProfile.t -> Outcome (list RepositoryMatch.t);
  (** [await self.issue_matcher.find_suitable_issues(user_profile, repo_name)] *)
  find_suitable_issues :
    option UserProfile.t -> option string -> Outcome (list Issue.t);
  (** [await self.mentoring_agent.create_mentoring_plan(user_profile, repo_name, issue_number)] *)
  create_mentoring_plan :
    option UserProfile.t -> option string -> option Z -> Outcome MentoringPlan.t;
  (** [self.client.get_repo(repo_name).get_readme()], decoded *)
  github_readme : option string -> Outcome string;
  (** [CONTRIBUTING.md] of the repository, or [.github/CONTRIBUTING.md] *)
  github_contributing : option string -> Outcome string;
  (** the fields [get_repository_info] reads off [self.client.get_repo(repo_name)] *)
  github_repository_info : option string -> Outcome RepoInfo;
  (** [self.model.generate_content(prompt, ...)], by the text of the response *)
  generate_content : string -> Outcome string;
  (** the f-string of [_generate_guide] *)
  guide_prompt :
    UserProfile.t -> option string -> option string -> option string ->
    RepoInfo -> string;
  (** from [response.text] to the six values handed to [ContributionGuide]:
      cutting out the JSON object, [json.loads], the six key lookups and the
      validation of the six values *)
  parse_guide : string -> Outcome GuideJson.t;
  (** [str(e)] of the [ValidationError] pydantic raises for [repo_name=None] *)
  repo_name_validation_error : string;
  (** the installed LangGraph on a graph without an entry point, such as
      [run_partial_workflow] builds for a start node it has no branch for:
      the message of the error [compile] raises, or [None] where the release
      compiles that graph and a run of it has no node to call *)
  entrypoint_error : option string
}.

(** ** The preparation agent *)

(** [text.lower()] on ASCII text: [A] to [Z] become [a] to [z], every other
    character stays.  Outside ASCII Python follows the Unicode tables, and
    there the lowered text can be longer than the text; what is proved of the
    positions [lower] finds is stated for ASCII text. *)
Definition lower_char (c : ascii) : ascii :=
  let n := nat_of_ascii c in
  if (65 <=? n)%nat && (n <=? 90)%nat then ascii_of_nat (n + 32) else c.

Fixpoint lower (s : string) : string :=
  match s with
  | EmptyString => EmptyString
  | String c rest => String (lower_char c) (lower rest)
  end.

(** [text.isascii()] *)
Fixpoint is_ascii (s : string) : bool :=
  match s with
  | EmptyString => true
  | String c rest => (nat_of_ascii c <? 128)%nat && is_ascii rest
  end.

(** The [for keyword in keywords: if keyword in text: ...] loop: where the
    first keyword that occurs starts. *)
Fixpoint first_keyword (keywords : list string) (text : string) : option nat :=
  match keywords with
  | [] => None
  | keyword :: rest =>
      match index 0 keyword text with
      | Some start => Some start
      | None => first_keyword rest text
      end
  end.

Definition extract_section (keywords : list string) (span : nat)
    (text : option string) : option string :=
  match text with
  | None => None
  | Some "" => None
  | Some body =>
      match first_keyword keywords (lower body) with
      | Some start =>
          let stop := Nat.min (start + span) (String.length body) in
          Some (substring start (stop - start) body)
      | None => None
      end
  end.

Definition _extract_setup_from_readme (readme : option string) : option string :=
  extract_section
    ["## installation"; "## setup"; "## getting started"; "## quick start"]
    500 readme.

Definition _extract_conventions (contributing_guide : option string) : option string :=
  extract_section ["## style"; "## coding"; "## convention"] 400 contributing_guide.

(** [x or default] on an optional string. *)
Definition str_or (x : option string) (default : string) : string :=
  match x with
  | Some s => if truthy_str x then s else default
  | None => default
  end.

(** [f"{x}"] on an optional string. *)
Definition format_opt (x : option string) : string :=
  match x with
  | Some s => s
  | None => "None"
  end.

Section Workflow.

Variable env : Environment.

(** [ContributionGuide(repo_name=..., ...)]: the model declares
    [repo_name: str], so [None] is refused. *)
Definition new_ContributionGuide (repo_name : option string)
    (fields : GuideJson.t) : M ContributionGuide.t :=
  match repo_name with
  | Some name =>
      ret (ContributionGuide.Build name
             (GuideJson.setup_instructions fields)
             (GuideJson.project_structure fields)
             (GuideJson.coding_conventions fields)
             (GuideJson.testing_guide fields)
             (GuideJson.contribution_workflow fields)
             (GuideJson.helpful_resources fields))
  | None => raise (repo_name_validation_error env)
  end.

(** [GitHubTools]: each method catches every exception of the client and
    answers its default. *)

Definition get_readme (repo_name : option string) : M (option string) :=
  emit (GitHubCall "get_readme" repo_name) ;;;
  ret (match github_readme env repo_name with
       | Return text => Some text
       | Raise _ => None
       end).

Definition get_contributing_guide (repo_name : option string) : M (option string) :=
  emit (GitHubCall "get_contributing_guide" repo_name) ;;;
  ret (match github_contributing env repo_name with
       | Return text => Some text
       | Raise _ => None
       end).

Definition get_repository_info (repo_name : option string) : M RepoInfo :=
  emit (GitHubCall "get_repository_info" repo_name) ;;;
  ret (match github_repository_info env repo_name with
       | Return info => info
       | Raise _ => []
       end).

Definition fallback_guide (repo_name : option string)
    (readme contributing_guide : option string) : GuideJson.t :=
  GuideJson.Build
    (str_or (_extract_setup_from_readme readme)
            "Clone the repository and follow README instructions")
    "Explore the repository to understand the structure"
    (str_or (_extract_conventions contributing_guide)
            "Follow the project's existing code style")
    "Check README or CONTRIBUTING.md for testing instructions"
    "Standard GitHub flow: fork, branch, commit, push, PR"
    [ "Repository: https://github.com/" +++ format_opt repo_name;
      "GitHub Flow Guide: https://guides.github.com/introduction/flow/" ].

(** [_generate_guide].  The prompt reads [user_profile.skill_level], which
    raises on [None]; the call of the model stands before the [try]. *)
Definition _generate_guide (user_profile : option UserProfile.t)
    (repo_name : option string) (readme contributing_guide : option string)
    (repo_info : RepoInfo) : M ContributionGuide.t :=
  match user_profile with
  | None => raise "'NoneType' object has no attribute 'skill_level'"
  | Some profile =>
      let prompt :=
        guide_prompt env profile repo_name readme contributing_guide repo_info in
      emit (GenerateContent prompt) ;;;
      response_text <- lift (generate_content env prompt) ;;
      try_except
        (guide_json <- lift (parse_guide env response_text) ;;
         new_ContributionGuide repo_name guide_json)
        (fun _ =>
           new_ContributionGuide repo_name
             (fallback_guide repo_name readme contributing_guide))
  end.

Definition prepare_onboarding_guide (user_profile : option UserProfile.t)
    (repo_name : option string) : M ContributionGuide.t :=
  readme <- get_readme repo_name ;;
  contributing_guide <- get_contributing_guide repo_name ;;
  repo_info <- get_repository_info repo_name ;;
  _generate_guide user_profile repo_name readme contributing_guide repo_info.

(** The three other agents, one call each. *)

Definition scout_agent (user_profile : option UserProfile.t)
    : M (list RepositoryMatch.t) :=
  emit (ScoutCall user_profile) ;;;
  lift (find_repositories env user_profile).

Definition issue_matcher (user_profile : option UserProfile.t)
    (repo_name : option string) : M (list Issue.t) :=
  emit (IssueMatcherCall user_profile repo_name) ;;;
  lift (find_suitable_issues env user_profile repo_name).

Definition mentoring_agent (user_profile : option UserProfile.t)
    (repo_name : option string) (issue_number : option Z) : M MentoringPlan.t :=
  emit (MentorCall user_profile repo_name issue_number) ;;;
  lift (create_mentoring_plan env user_profile repo_name issue_number).

(** ** The four nodes

    A node gets the state dict and returns a new dict.  Two nodes also
    assign into the dict they got, so the value of a node is the pair of
    its argument as the call leaves it and of the dict it returns.  The
    assignments stand inside the [try] and before the agent call: the
    [except] branch copies the dict with them done. *)

Definition NodeResult : Type := (AgentWorkflowState * AgentWorkflowState)%type.

Definition scout_repositories_node (state : AgentWorkflowState) : M NodeResult :=
  try_except
    (repositories <- scout_agent (user_profile state) ;;
     ret (state,
          with_current_step "repositories_found"
            (with_messages
               (messages state ++
                ["Found " +++ str_len repositories +++ " suitable repositories"])
               (with_repositories repositories state))))
    (fun e =>
       ret (state,
            with_messages (messages state ++ ["Error: " +++ e])
              (with_error (Some ("Error scouting repositories: " +++ e)) state))).

(** [if not state.get("selected_repo_name") and state.get("repositories"):] *)
Definition default_repository (state : AgentWorkflowState) : AgentWorkflowState :=
  if negb (truthy_str (selected_repo_name state)) && truthy_list (repositories state)
  then
    match repositories state with
    | first :: _ =>
        with_selected_repo_url (Some (RepositoryMatch.repo_url first))
          (with_selected_repo_name (Some (RepositoryMatch.repo_name first)) state)
    | [] => state
    end
  else state.

Definition prepare_onboarding_node (state : AgentWorkflowState) : M NodeResult :=
  let state := default_repository state in
  try_except
    (guide <- prepare_onboarding_guide (user_profile state) (selected_repo_name state) ;;
     ret (state,
          with_current_step "guide_prepared"
            (with_messages (messages state ++ ["Prepared onboarding guide"])
               (with_contribution_guide (Some guide) state))))
    (fun e =>
       ret (state,
            with_messages (messages state ++ ["Error: " +++ e])
              (with_error (Some ("Error preparing guide: " +++ e)) state))).

Definition match_issues_node (state : AgentWorkflowState) : M NodeResult :=
  try_except
    (issues <- issue_matcher (user_profile state) (selected_repo_name state) ;;
     ret (state,
          with_current_step "issues_matched"
            (with_messages
               (messages state ++
                ["Found " +++ str_len issues +++ " suitable issues"])
               (with_issues issues state))))
    (fun e =>
       ret (state,
            with_messages (messages state ++ ["Error: " +++ e])
              (with_error (Some ("Error matching issues: " +++ e)) state))).

(** [if not state.get("selected_issue_number") and state.get("issues"):] *)
Definition default_issue (state : AgentWorkflowState) : AgentWorkflowState :=
  if negb (truthy_int (selected_issue_number state)) && truthy_list (issues state)
  then
    match issues state with
    | first :: _ =>
        with_selected_issue_number (Some (Issue.issue_number first)) state
    | [] => state
    end
  else state.

Definition create_mentoring_plan_node (state : AgentWorkflowState) : M NodeResult :=
  let state := default_issue state in
  try_except
    (plan <- mentoring_agent (user_profile state) (selected_repo_name state)
               (selected_issue_number state) ;;
     ret (state,
          with_current_step "plan_created"
            (with_messages (messages state ++ ["Created mentoring plan"])
               (with_mentoring_plan (Some plan) state))))
    (fun e =>
       ret (state,
            with_messages (messages state ++ ["Error: " +++ e])
              (with_error (Some ("Error creating plan: " +++ e)) state))).

End Workflow.

(** ** LangGraph's [StateGraph], as far as the workflow uses it

    The library is not part of the repository; this is what the calls the
    workflow makes do.  A graph is built from named nodes, directed edges
    and an entry point, checked by [compile], and run by [ainvoke]: starting
    at the entry point, the current node is called on a dict read from the
    state channels, what it returns is written back to the channels, and the
    run follows the node's edge until it reaches [END].

    On a graph without an entry point the releases of the library differ:
    some refuse it in [compile], others compile it and run nothing.  The
    repository pins neither, so [compile] takes the behaviour of the
    installed release as its first argument. *)

Definition Node : Type := AgentWorkflowState -> M NodeResult.

Record StateGraph : Type := mkGraph {
  nodes : list (string * Node);
  entry_point : option string;
  edges : list (string * string)
}.

Definition END : string := "__end__".

Definition new_StateGraph : StateGraph := mkGraph [] None [].

Definition add_node (name : string) (action : Node) (g : StateGraph) : StateGraph :=
  mkGraph (nodes g ++ [(name, action)]) (entry_point g) (edges g).

Definition set_entry_point (name : string) (g : StateGraph) : StateGraph :=
  mkGraph (nodes g) (Some name) (edges g).

Definition add_edge (source target : string) (g : StateGraph) : StateGraph :=
  mkGraph (nodes g) (entry_point g) (edges g ++ [(source, target)]).

Fixpoint find_node (name : string) (l : list (string * Node)) : option Node :=
  match l with
  | [] => None
  | (n, action) :: rest => if String.eqb n name then Some action else find_node name rest
  end.

Fixpoint next_node (name : string) (l : list (string * string)) : option string :=
  match l with
  | [] => None
  | (source, target) :: rest =>
      if String.eqb source name then Some target else next_node name rest
  end.

Definition is_node (g : StateGraph) (name : string) : bool :=
  match find_node name (nodes g) with
  | Some _ => true
  | None => false
  end.

(** The checks of [compile]: an entry point is set and names a node, every
    edge joins a node to a node or to [END], and no node is a dead end. *)
Definition valid_edges (g : StateGraph) : bool :=
  forallb (fun e => is_node g (fst e) && (is_node g (snd e) || String.eqb (snd e) END))
          (edges g).

Definition no_dead_end (g : StateGraph) : bool :=
  forallb (fun n => match next_node (fst n) (edges g) with
                    | Some _ => true
                    | None => false
                    end)
          (nodes g).

Record CompiledGraph : Type := mkCompiled {
  graph : StateGraph;
  entry : string
}.

Definition compile (refusal : option string) (g : StateGraph) : M CompiledGraph :=
  match entry_point g with
  | None =>
      match refusal with
      | Some message => raise message
      | None => ret (mkCompiled g END)
      end
  | Some name =>
      if negb (is_node g name) then raise "Entry point is not a node of the graph"
      else if negb (valid_edges g) then raise "Found edge at unknown node"
      else if negb (no_dead_end g) then raise "Node is a dead-end"
      else ret (mkCompiled g name)
  end.

(** [StateGraph(AgentWorkflowState)] gives every key of the state a channel.
    A key annotated with a binary operator, here
    [messages: Annotated[Sequence[str], operator.add]], folds each value
    written to it into the value it holds; every other key holds the last
    value written.  The nodes of this workflow return all eleven keys. *)
Definition apply_writes (channels update : AgentWorkflowState) : AgentWorkflowState :=
  with_messages (messages channels ++ messages update) update.

(** The input dict is the first write, on a [messages] channel that holds the
    empty list. *)
Definition write_input (input : AgentWorkflowState) : AgentWorkflowState :=
  with_messages ([] ++ messages input) input.

(** The default [recursion_limit] of a run. *)
Definition recursion_limit : nat := 25.

Fixpoint run_nodes (g : StateGraph) (steps : nat) (current : string)
    (channels : AgentWorkflowState) : M AgentWorkflowState :=
  if String.eqb current END then ret channels
  else
    match steps with
    | O => raise "Recursion limit reached without hitting a stop condition"
    | S steps' =>
        match find_node current (nodes g) with
        | None => raise "Unknown node"
        | Some action =>
            emit (NodeRun current) ;;;
            result <- action channels ;;
            let channels' := apply_writes channels (snd result) in
            match next_node current (edges g) with
            | Some next => run_nodes g steps' next channels'
            | None => ret channels'
            end
        end
    end.

(** [ainvoke] reads its input and leaves it as it is; each node works on a
    dict of its own, so what a node assigns into its argument reaches the
    channels only through the dict the node returns. *)
Definition ainvoke (compiled : CompiledGraph) (input : AgentWorkflowState)
    : M AgentWorkflowState :=
  run_nodes (graph compiled) recursion_limit (entry compiled) (write_input input).

(** ** The workflow class *)

Section Orchestrator.

Variable env : Environment.

Definition _build_workflow : M CompiledGraph :=
  let workflow := new_StateGraph in
  let workflow := add_node "scout_repositories" (scout_repositories_node env) workflow in
  let workflow := add_node "prepare_onboarding" (prepare_onboarding_node env) workflow in
  let workflow := add_node "match_issues" (match_issues_node env) workflow in
  let workflow := add_node "create_mentoring_plan" (create_mentoring_plan_node env) workflow in
  let workflow := set_entry_point "scout_repositories" workflow in
  let workflow := add_edge "scout_repositories" "prepare_onboarding" workflow in
  let workflow := add_edge "prepare_onboarding" "match_issues" workflow in
  let workflow := add_edge "match_issues" "create_mentoring_plan" workflow in
  let workflow := add_edge "create_mentoring_plan" END workflow in
  compile (entrypoint_error env) workflow.

(** An instance of [CodePathfinderWorkflow]; the agents it holds are [env]. *)
Record CodePathfinderWorkflow : Type := mkWorkflow {
  workflow : CompiledGraph
}.

Definition __init__ : M CodePathfinderWorkflow :=
  workflow <- _build_workflow ;;
  ret (mkWorkflow workflow).

Definition initial_state (user_profile : UserProfile.t) : AgentWorkflowState :=
  {| user_profile := Some user_profile;
     repositories := [];
     selected_repo_name := None;
     selected_repo_url := None;
     issues := [];
     selected_issue_number := None;
     contribution_guide := None;
     mentoring_plan := None;
     messages := ["Starting CodePathfinder workflow"];
     current_step := "initializing";
     error := None |}.

Definition run_full_workflow (self : CodePathfinderWorkflow)
    (user_profile : UserProfile.t) : M AgentWorkflowState :=
  ainvoke (workflow self) (initial_state user_profile).

(** [CodePathfinderWorkflow().run_full_workflow(user_profile)], as
    [api/routes.py] and [examples/demo_workflow.py] call it. *)
Definition run (user_profile : UserProfile.t) : M AgentWorkflowState :=
  self <- __init__ ;;
  run_full_workflow self user_profile.

(** The graph [run_partial_workflow] builds for a start node: three
    branches, and no node, edge or entry point for any other name. *)
Definition partial_graph (start_node : string) : StateGraph :=
  let workflow := new_StateGraph in
  if String.eqb start_node "prepare_onboarding" then
    let workflow := add_node "prepare_onboarding" (prepare_onboarding_node env) workflow in
    let workflow := add_node "match_issues" (match_issues_node env) workflow in
    let workflow := add_node "create_mentoring_plan" (create_mentoring_plan_node env) workflow in
    let workflow := set_entry_point "prepare_onboarding" workflow in
    let workflow := add_edge "prepare_onboarding" "match_issues" workflow in
    let workflow := add_edge "match_issues" "create_mentoring_plan" workflow in
    add_edge "create_mentoring_plan" END workflow
  else if String.eqb start_node "match_issues" then
    let workflow := add_node "match_issues" (match_issues_node env) workflow in
    let workflow := add_node "create_mentoring_plan" (create_mentoring_plan_node env) workflow in
    let workflow := set_entry_point "match_issues" workflow in
    let workflow := add_edge "match_issues" "create_mentoring_plan" workflow in
    add_edge "create_mentoring_plan" END workflow
  else if String.eqb start_node "create_mentoring_plan" then
    let workflow := add_node "create_mentoring_plan" (create_mentoring_plan_node env) workflow in
    let workflow := set_entry_point "create_mentoring_plan" workflow in
    add_edge "create_mentoring_plan" END workflow
  else workflow.

(** [run_partial_workflow]: the supplied dict as the call leaves it, and
    what the call returns or raises.  The method reads [state] only to
    hand it to [ainvoke]. *)
Definition run_partial_workflow (start_node : string) (state : AgentWorkflowState)
    : AgentWorkflowState * M AgentWorkflowState :=
  (state,
   compiled_workflow <- compile (entrypoint_error env) (partial_graph start_node) ;;
   ainvoke compiled_workflow state).

End Orchestrator.

(** ** The stage transition contract, as the specification words it

    The four stages, what each owns, and the two shapes of state a
    transition is said to return.  These follow the specification; the
    theorems below compare the nodes with them. *)

Inductive Stage : Type := Scout | Preparation | IssueMatcher | Mentor.

Definition all_stages : list Stage := [Scout; Preparation; IssueMatcher; Mentor].

Definition stage_name (s : Stage) : string :=
  match s with
  | Scout => "scout_repositories"
  | Preparation => "prepare_onboarding"
  | IssueMatcher => "match_issues"
  | Mentor => "create_mentoring_plan"
  end.

Definition completion_label (s : Stage) : string :=
  match s with
  | Scout => "repositories_found"
  | Preparation => "guide_prepared"
  | IssueMatcher => "issues_matched"
  | Mentor => "plan_created"
  end.

Definition error_prefix (s : Stage) : string :=
  match s with
  | Scout => "Error scouting repositories: "
  | Preparation => "Error preparing guide: "
  | IssueMatcher => "Error matching issues: "
  | Mentor => "Error creating plan: "
  end.

(** What a stage's agent hands back: the value of the field the stage owns. *)
Inductive Owned : Type :=
| OwnedRepositories (v : list RepositoryMatch.t)
| OwnedGuide (v : ContributionGuide.t)
| OwnedIssues (v : list Issue.t)
| OwnedPlan (v : MentoringPlan.t).

Definition write_owned (v : Owned) (s : AgentWorkflowState) : AgentWorkflowState :=
  match v with
  | OwnedRepositories l => with_repositories l s
  | OwnedGuide g => with_contribution_guide (Some g) s
  | OwnedIssues l => with_issues l s
  | OwnedPlan p => with_mentoring_plan (Some p) s
  end.

Definition success_message (v : Owned) : string :=
  match v with
  | OwnedRepositories l => "Found " +++ str_len l +++ " suitable repositories"
  | OwnedGuide _ => "Prepared onboarding guide"
  | OwnedIssues l => "Found " +++ str_len l +++ " suitable issues"
  | OwnedPlan _ => "Created mentoring plan"
  end.

(** "On success: copy the input state, overwrite the field(s) this stage
    owns, append one progress message, set [current_step]." *)
Definition spec_on_success (s : Stage) (v : Owned) (state : AgentWorkflowState)
    : AgentWorkflowState :=
  with_current_step (completion_label s)
    (with_messages (messages state ++ [success_message v]) (write_owned v state)).

(** "On failure: copy the input state unchanged except: set [error] to a
    message embedding the stage name and the fault description; append one
    progress message containing the same fault description." *)
Definition spec_on_failure (s : Stage) (e : string) (state : AgentWorkflowState)
    : AgentWorkflowState :=
  with_messages (messages state ++ ["Error: " +++ e])
    (with_error (Some (error_prefix s +++ e)) state).

(** The default selection a stage makes before it calls its agent. *)
Definition stage_default (s : Stage) (state : AgentWorkflowState) : AgentWorkflowState :=
  match s with
  | Preparation => default_repository state
  | Mentor => default_issue state
  | Scout | IssueMatcher => state
  end.

Definition map_M {A B : Type} (f : A -> B) (m : M A) : M B :=
  (match fst m with
   | Return a => Return (f a)
   | Raise e => Raise e
   end, snd m).

(** The dict a node call returns, if it returns. *)
Definition node_returns (m : M NodeResult) : option AgentWorkflowState :=
  match fst m with
  | Return result => Some (snd result)
  | Raise _ => None
  end.

(** The node names among the events of a run, in the order the nodes ran. *)
Fixpoint stages_run (evs : list Event) : list string :=
  match evs with
  | [] => []
  | NodeRun name :: rest => name :: stages_run rest
  | _ :: rest => stages_run rest
  end.

(** The prompts sent to the generative model, in order. *)
Fixpoint generate_calls (evs : list Event) : list string :=
  match evs with
  | [] => []
  | GenerateContent prompt :: rest => prompt :: generate_calls rest
  | _ :: rest => generate_calls rest
  end.

(** The most recent failure of a list of attempts, [init] if none failed. *)
Definition latest (attempts : list (option string)) (init : option string)
    : option string :=
  fold_left (fun acc attempt => match attempt with
                                | Some m => Some m
                                | None => acc
                                end) attempts init.

(** The start nodes [run_partial_workflow] has a branch for, and the stages
    its graph for them holds. *)
Definition stages_from (start_node : string) : list Stage :=
  if String.eqb start_node "prepare_onboarding" then [Preparation; IssueMatcher; Mentor]
  else if String.eqb start_node "match_issues" then [IssueMatcher; Mentor]
  else if String.eqb start_node "create_mentoring_plan" then [Mentor]
  else [].

Definition accepted_start (start_node : string) : bool :=
  truthy_list (stages_from start_node).

Section Contract.

Variable env : Environment.

Definition stage_node (s : Stage) : Node :=
  match s with
  | Scout => scout_repositories_node env
  | Preparation => prepare_onboarding_node env
  | IssueMatcher => match_issues_node env
  | Mentor => create_mentoring_plan_node env
  end.

(** The agent call of a stage, on the state the stage holds when it makes
    the call. *)
Definition agent_call (s : Stage) (state : AgentWorkflowState) : M Owned :=
  let state := stage_default s state in
  match s with
  | Scout => map_M OwnedRepositories (scout_agent env (user_profile state))
  | Preparation =>
      map_M OwnedGuide
        (prepare_onboarding_guide env (user_profile state) (selected_repo_name state))
  | IssueMatcher =>
      map_M OwnedIssues
        (issue_matcher env (user_profile state) (selected_repo_name state))
  | Mentor =>
      map_M OwnedPlan
        (mentoring_agent env (user_profile state) (selected_repo_name state)
           (selected_issue_number state))
  end.

Definition agent_outcome (s : Stage) (state : AgentWorkflowState) : Outcome Owned :=
  outcome (agent_call s state).

(** What a stage returns, by the outcome of its agent call. *)
Definition stage_result (s : Stage) (state : AgentWorkflowState) : AgentWorkflowState :=
  match agent_outcome s state with
  | Return v => spec_on_success s v (stage_default s state)
  | Raise e => spec_on_failure s e (stage_default s state)
  end.

(** One step of a run: the node on the channels, its dict written back. *)
Definition transition (s : Stage) (channels : AgentWorkflowState) : AgentWorkflowState :=
  apply_writes channels (stage_result s channels).

Fixpoint run_stages (l : list Stage) (channels : AgentWorkflowState)
    : AgentWorkflowState * list Event :=
  match l with
  | [] => (channels, [])
  | s :: rest =>
      let (final, evs) := run_stages rest (transition s channels) in
      (final, NodeRun (stage_name s) :: events (agent_call s channels) ++ evs)
  end.

(** The progress message of a stage attempt. *)
Definition stage_message (s : Stage) (state : AgentWorkflowState) : string :=
  match agent_outcome s state with
  | Return v => success_message v
  | Raise e => "Error: " +++ e
  end.

(** The error message of a stage attempt that failed. *)
Definition stage_failure (s : Stage) (state : AgentWorkflowState) : option string :=
  match agent_outcome s state with
  | Return _ => None
  | Raise e => Some (error_prefix s +++ e)
  end.

Fixpoint run_failures (l : list Stage) (channels : AgentWorkflowState)
    : list (option string) :=
  match l with
  | [] => []
  | s :: rest => stage_failure s channels :: run_failures rest (transition s channels)
  end.

(** The graph [g] holds the stages [l] in a line: from the node [name]
    on, one node per stage, each with its edge to the next, the last one
    with its edge to [END]. *)
Fixpoint in_line (g : StateGraph) (name : string) (l : list Stage) : Prop :=
  match l with
  | [] => name = END
  | s :: rest =>
      name = stage_name s /\
      find_node name (nodes g) = Some (stage_node s) /\
      exists next, next_node name (edges g) = Some next /\ in_line g next rest
  end.

(** "Executes, in fixed order, the four stage transitions, passing the
    previous stage's returned state as the next stage's input.  Returns
    the state produced by the final stage." *)
Definition spec_run (user_profile : UserProfile.t) : AgentWorkflowState :=
  stage_result Mentor
    (stage_result IssueMatcher
       (stage_result Preparation
          (stage_result Scout (initial_state user_profile)))).

End Contract.

(** A state with its [messages] left out, to compare two states on the ten
    other fields. *)
Definition without_messages (state : AgentWorkflowState) : AgentWorkflowState :=
  with_messages [] state.

(** ** Sample data *)

Definition sample_profile : UserProfile.t :=
  UserProfile.Build None BEGINNER ["Python"] ["web-dev"] "5 hours" None None.

Definition sample_repository : RepositoryMatch.t :=
  RepositoryMatch.Build "octo/alpha" "https://github.com/octo/alpha"
    "A sample project" 120%Z "Python" 0.5%float "Matches the profile" BEGINNER
    0.5%float 4%Z true.

Definition sample_issue : Issue.t :=
  Issue.Build 7%Z "Fix a typo" "https://github.com/octo/alpha/issues/7"
    ["good first issue"] "A typo in the README" BEGINNER "Simple text change"
    "Edit the README" 0%Z 1%Z.

Definition sample_plan : MentoringPlan.t :=
  MentoringPlan.Build 7%Z "octo/alpha" ["Step 1: Fork the repository"]
    ["README.md"] "Edit the file" ["git add ."] "Read it again" [].

(** Every agent and provider answers. *)
Definition env_ok : Environment :=
  {| find_repositories := fun _ => Return [sample_repository];
     find_suitable_issues := fun _ _ => Return [sample_issue];
     create_mentoring_plan := fun _ _ _ => Return sample_plan;
     github_readme := fun _ => Return "## Setup: run make";
     github_contributing := fun _ => Raise "404";
     github_repository_info := fun _ => Return [("language", "Python")];
     generate_content := fun _ => Return "no JSON here";
     guide_prompt := fun _ _ _ _ _ => "You are creating a personalized onboarding guide";
     parse_guide := fun _ => Raise "Expecting value";
     repo_name_validation_error := "1 validation error for ContributionGuide";
     entrypoint_error := Some "Graph must have an entrypoint" |}.

(** The scout finds the repository, the generative model is out of quota,
    and the mentor does not find the issue. *)
Definition env_failing : Environment :=
  {| find_repositories := fun _ => Return [sample_repository];
     find_suitable_issues := fun _ _ => Return [sample_issue];
     create_mentoring_plan := fun _ _ _ => Raise "Issue #7 not found in octo/alpha";
     github_readme := fun _ => Return "## Setup: run make";
     github_contributing := fun _ => Raise "404";
     github_repository_info := fun _ => Return [("language", "Python")];
     generate_content := fun _ => Raise "429 quota exceeded";
     guide_prompt := fun _ _ _ _ _ => "You are creating a personalized onboarding guide";
     parse_guide := fun _ => Raise "Expecting value";
     repo_name_validation_error := "1 validation error for ContributionGuide";
     entrypoint_error := Some "Graph must have an entrypoint" |}.

(** The scout finds nothing; GitHub knows no repository [None]. *)
Definition env_empty : Environment :=
  {| find_repositories := fun _ => Return [];
     find_suitable_issues := fun _ _ => Return [];
     create_mentoring_plan := fun _ _ _ => Raise "Issue #None not found in None";
     github_readme := fun _ => Raise "AssertionError";
     github_contributing := fun _ => Raise "AssertionError";
     github_repository_info := fun _ => Raise "AssertionError";
     generate_content := fun _ => Return "{}";
     guide_prompt := fun _ _ _ _ _ => "You are creating a personalized onboarding guide";
     parse_guide := fun _ => Raise "KeyError: 'setup_instructions'";
     repo_name_validation_error := "1 validation error for ContributionGuide";
     entrypoint_error := Some "Graph must have an entrypoint" |}.

(** As [env_ok], under a LangGraph release that compiles a graph without an
    entry point. *)
Definition env_unchecked : Environment :=
  {| find_repositories := find_repositories env_ok;
     find_suitable_issues := find_suitable_issues env_ok;
     create_mentoring_plan := create_mentoring_plan env_ok;
     github_readme := github_readme env_ok;
     github_contributing := github_contributing env_ok;
     github_repository_info := github_repository_info env_ok;
     generate_content := generate_content env_ok;
     guide_prompt := guide_prompt env_ok;
     parse_guide := parse_guide env_ok;
     repo_name_validation_error := repo_name_validation_error env_ok;
     entrypoint_error := None |}.

(** A state after a scout that found one repository. *)
Definition scouted_state : AgentWorkflowState :=
  {| user_profile := Some sample_profile;
     repositories := [sample_repository];
     selected_repo_name := None;
     selected_repo_url := None;
     issues := [];
     selected_issue_number := None;
     contribution_guide := None;
     mentoring_plan := None;
     messages := ["Starting CodePathfinder workflow"; "Found 1 suitable repositories"];
     current_step := "repositories_found";
     error := None |}.

(** A caller pinned the falsy values: the empty name and issue [0]. *)
Definition falsy_state : AgentWorkflowState :=
  {| user_profile := Some sample_profile;
     repositories := [sample_repository];
     selected_repo_name := Some "";
     selected_repo_url := None;
     issues := [sample_issue];
     selected_issue_number := Some 0%Z;
     contribution_guide := None;
     mentoring_plan := None;
     messages := [];
     current_step := "issues_matched";
     error := None |}.

(** ** The completion labels over a run *)

Section Labels.

Variable env : Environment.

(** The completion label of a stage attempt that succeeded. *)
Definition stage_success (s : Stage) (state : AgentWorkflowState) : option string :=
  match agent_outcome env s state with
  | Return _ => Some (completion_label s)
  | Raise _ => None
  end.

Fixpoint run_successes (l : list Stage) (channels : AgentWorkflowState)
    : list (option string) :=
  match l with
  | [] => []
  | s :: rest => stage_success s channels :: run_successes rest (transition env s channels)
  end.

End Labels.

Definition is_some {A : Type} (o : option A) : bool :=
  match o with
  | Some _ => true
  | None => false
  end.

(** ** The route [POST /workflow/full] ([backend/api/routes.py])

    The handler calls [run_full_workflow] on the workflow object the module
    built when it was loaded, and answers with a dict read off the final
    state, or with a [500] when the call raises.  The [.dict()] of a payload
    is the payload. *)

Module WorkflowResponse.
Record t : Type := Build {
  status : string;
  error : option string;
  repositories : list RepositoryMatch.t;
  selected_repo : option string;
  issues : list Issue.t;
  contribution_guide : option ContributionGuide.t;
  mentoring_plan : option MentoringPlan.t;
  messages : list string;
  current_step : string
}.
End WorkflowResponse.

Inductive HTTPResult (A : Type) : Type :=
| Answer (body : A)
| HTTPException (status_code : nat) (detail : string).

Arguments Answer {A} body.
Arguments HTTPException {A} status_code detail.

Definition workflow_response (final_state : AgentWorkflowState) : WorkflowResponse.t :=
  {| WorkflowResponse.status :=
       if negb (truthy_str (error final_state)) then "completed" else "error";
     WorkflowResponse.error := error final_state;
     WorkflowResponse.repositories := repositories final_state;
     WorkflowResponse.selected_repo := selected_repo_name final_state;
     WorkflowResponse.issues := issues final_state;
     WorkflowResponse.contribution_guide := contribution_guide final_state;
     WorkflowResponse.mentoring_plan := mentoring_plan final_state;
     WorkflowResponse.messages := messages final_state;
     WorkflowResponse.current_step := current_step final_state |}.

Definition route_run_full_workflow (workflow : CodePathfinderWorkflow)
    (profile : UserProfile.t) : M (HTTPResult WorkflowResponse.t) :=
  try_except
    (final_state <- run_full_workflow workflow profile ;;
     ret (Answer (workflow_response final_state)))
    (fun e => ret (HTTPException 500 ("Error running workflow: " +++ e))).

(** ** [GitHubTools]: issues and repository search
    ([backend/tools/github_tools.py])

    Each method wraps its whole body in a [try] and answers what it has
    collected when the client faults, so what the client contributes is the
    list of the items it yielded, and the method could process, before any
    fault.  The two analyses return from inside their [try] and answer fixed
    defaults when the client faults: there the client contributes what all
    the calls of the method yield, or the fault. *)

Module RawIssue.
Record t : Type := Build {
  pull_request : bool;
  number : Z;
  title : string;
  html_url : string;
  labels : list string;
  body : option string;
  created_at : string;
  comments : Z;
  assignee : option string;
  state : string
}.
End RawIssue.

Module GithubIssue.
Record t : Type := Build {
  number : Z;
  title : string;
  url : string;
  labels : list string;
  body : string;
  created_at : string;
  comments : Z;
  assignee : option string;
  state : string
}.
End GithubIssue.

Module RepoData.
Record t : Type := Build {
  name : string;
  url : string;
  description : string;
  stars : Z;
  language : option string;
  forks : Z;
  open_issues : Z;
  topics : list string;
  created_at : string;
  updated_at : string;
  has_wiki : bool;
  has_contributing : bool
}.
End RepoData.

(** A pull request as [analyze_maintainer_activity] reads it. *)
Module RawPull.
Record t : Type := Build {
  merged : bool;
  created_at : option datetime;
  merged_at : option datetime
}.
End RawPull.

(** What the client yields to [analyze_maintainer_activity]: the closed pull
    requests and the issues, latest update first, and the two
    [totalCount]s. *)
Module RepoActivity.
Record t : Type := Build {
  closed_pulls : list RawPull.t;
  recent_issues : list RawIssue.t;
  contributors : Z;
  commits : Z
}.
End RepoActivity.

Module Activity.
Record t : Type := Build {
  average_merge_time_days : option float;
  issue_response_rate : float;
  total_contributors : Z;
  recent_commit_activity : bool
}.
End Activity.

Module EnrichedRepo.
Record t : Type := Build {
  repo : RepoData.t;
  maintainer_activity : Activity.t;
  community_friendliness : float;
  good_first_issues_count : nat
}.
End EnrichedRepo.

(** What the model's answer gives for one issue: the value under
    ["issue_number"], which may be missing ([Raise]) or equal to no issue
    number ([None]), and the other values the [Issue] constructor takes from
    the answer, which may be missing or refused. *)
Module IssueFields.
Record t : Type := Build {
  title : string;
  url : string;
  description : string;
  difficulty_rating : SkillLevel;
  estimated_complexity : string;
  approach_suggestions : string
}.
End IssueFields.

Module IssueData.
Record t : Type := Build {
  issue_number : Outcome (option Z);
  fields : Outcome IssueFields.t
}.
End IssueData.

Module PlanJson.
Record t : Type := Build {
  step_by_step_plan : list string;
  key_files_to_examine : list string;
  suggested_approach : string;
  git_commands : list string;
  testing_strategy : string;
  potential_challenges : list string
}.
End PlanJson.

(** The rest of the world the three other agents reach. *)
Record World : Type := mkWorld {
  (** the open issues of a repository with some of the given labels, as far
      as the client yields them *)
  client_issues : option string -> list string -> list RawIssue.t;
  (** the repositories a search yields, each with its [has_contributing] *)
  client_search : string -> list RepoData.t;
  (** what the client yields to [analyze_maintainer_activity], or its fault *)
  client_activity : string -> Outcome RepoActivity.t;
  (** the pull requests of a repository, latest update first, each as the
      bodies of its comments, or the fault of the client *)
  client_pull_comments : string -> Outcome (list (list string));
  (** the f-strings of the three agents *)
  scout_prompt : UserProfile.t -> list EnrichedRepo.t -> string;
  issue_prompt : UserProfile.t -> option string -> list GithubIssue.t -> string;
  plan_prompt :
    UserProfile.t -> option string -> GithubIssue.t -> option string ->
    option string -> string;
  (** from [response.text] to the values the [try] blocks build from it *)
  parse_repositories : string -> Outcome (list RepositoryMatch.t);
  parse_issues : string -> Outcome (list IssueData.t);
  parse_plan : string -> Outcome PlanJson.t;
  (** [datetime.fromisoformat] on the creation date of a GitHub issue *)
  parse_datetime : string -> Outcome datetime;
  (** [str(e)] of the [ValidationError] for [MentoringPlan(repo_name=None)] *)
  plan_validation_error : string;
  (** [datetime.utcnow()] *)
  utcnow : datetime
}.

(** [str(n)] of an integer. *)
Definition str_int (n : Z) : string := NilZero.string_of_int (Z.to_int n).

(** A decimal literal stands for the nearest binary64 value, in Python as
    here. *)
#[local] Set Warnings "-inexact-float".

(** [float(n)] of an integer [n], exact below [2^53]. *)
Definition float_of_int (n : Z) : float :=
  if (n <? 0)%Z then PrimFloat.opp (PrimFloat.of_uint63 (Uint63.of_Z (- n)))
  else PrimFloat.of_uint63 (Uint63.of_Z n).

(** Python's [a / b] on two integers below [2^53], as the counts and the
    sums of day differences of this program are. *)
Definition int_div (a b : Z) : float :=
  PrimFloat.div (float_of_int a) (float_of_int b).

(** [keyword in text] *)
Definition occurs (keyword text : string) : bool :=
  match index 0 keyword text with
  | Some _ => true
  | None => false
  end.

Module GitHubTools.

Definition default_labels : list string :=
  ["good first issue"; "help wanted"; "beginner-friendly"; "easy"].

Definition issue_dict (issue : RawIssue.t) : GithubIssue.t :=
  {| GithubIssue.number := RawIssue.number issue;
     GithubIssue.title := RawIssue.title issue;
     GithubIssue.url := RawIssue.html_url issue;
     GithubIssue.labels := RawIssue.labels issue;
     GithubIssue.body := str_or (RawIssue.body issue) "";
     GithubIssue.created_at := RawIssue.created_at issue;
     GithubIssue.comments := RawIssue.comments issue;
     GithubIssue.assignee := RawIssue.assignee issue;
     GithubIssue.state := RawIssue.state issue |}.

(** [for issue in issues[:max_results]: if issue.pull_request: continue; ...] *)
Definition get_issues (world : World) (repo_name : option string)
    (labels : option (list string)) (max_results : nat) : M (list GithubIssue.t) :=
  emit (GitHubCall "get_issues" repo_name) ;;;
  let labels := match labels with
                | None => default_labels
                | Some given => given
                end in
  ret (map issue_dict
         (filter (fun issue => negb (RawIssue.pull_request issue))
            (firstn max_results (client_issues world repo_name labels)))).

Definition search_query (languages : list string) (min_stars : Z) : string :=
  let language_query :=
    String.concat " OR " (map (fun lang => "language:" +++ lang) languages) in
  "(" +++ language_query +++ ") stars:>" +++ str_int min_stars +++
  " good-first-issues:>3".

Definition search_repositories (world : World) (languages : list string)
    (min_stars : Z) (max_results : nat) : M (list RepoData.t) :=
  let query := search_query languages min_stars in
  emit (GitHubCall "search_repositories" (Some query)) ;;;
  ret (firstn max_results (client_search world query)).

(** [for pr in ...: if pr.merged and pr.created_at and pr.merged_at:
    merge_times.append((pr.merged_at - pr.created_at).days)] *)
Fixpoint merge_times (pulls : list RawPull.t) : list Z :=
  match pulls with
  | [] => []
  | pr :: rest =>
      match RawPull.merged pr, RawPull.created_at pr, RawPull.merged_at pr with
      | true, Some created_at, Some merged_at =>
          ((merged_at - created_at) / 86400)%Z :: merge_times rest
      | _, _, _ => merge_times rest
      end
  end.

(** What the [try] block of [analyze_maintainer_activity] returns. *)
Definition activity_of (repo : RepoActivity.t) : Activity.t :=
  let merge_times := merge_times (firstn 10 (RepoActivity.closed_pulls repo)) in
  let avg_merge_time :=
    if truthy_list merge_times
    then Some (int_div (fold_right Z.add 0%Z merge_times)
                       (Z.of_nat (length merge_times)))
    else None in
  let checked := firstn 10 (RepoActivity.recent_issues repo) in
  let total_checked := length checked in
  let issues_with_responses :=
    length (filter (fun issue => (0 <? RawIssue.comments issue)%Z) checked) in
  let response_rate :=
    if (0 <? total_checked)%nat
    then int_div (Z.of_nat issues_with_responses) (Z.of_nat total_checked)
    else 0%float in
  {| Activity.average_merge_time_days := avg_merge_time;
     Activity.issue_response_rate := response_rate;
     Activity.total_contributors := RepoActivity.contributors repo;
     Activity.recent_commit_activity := (0 <? RepoActivity.commits repo)%Z |}.

Definition default_activity : Activity.t :=
  {| Activity.average_merge_time_days := None;
     Activity.issue_response_rate := 0%float;
     Activity.total_contributors := 0%Z;
     Activity.recent_commit_activity := false |}.

Definition analyze_maintainer_activity (world : World) (repo_name : string)
    : M Activity.t :=
  emit (GitHubCall "analyze_maintainer_activity" (Some repo_name)) ;;;
  ret (match client_activity world repo_name with
       | Return repo => activity_of repo
       | Raise _ => default_activity
       end).

Definition positive_keywords : list string :=
  ["thanks"; "great"; "awesome"; "excellent"; "welcome"; "good"; "nice"].

Definition negative_keywords : list string :=
  ["no"; "wrong"; "bad"; "terrible"; "reject"; "close"; "spam"].

(** The body of the inner loop of [analyze_pr_sentiment] on the three
    counters [(positive_count, negative_count, total_comments)]. *)
Definition count_comment (counts : nat * nat * nat) (body : string)
    : nat * nat * nat :=
  let '(positive_count, negative_count, total_comments) := counts in
  let comment_body := lower body in
  (if existsb (fun keyword => occurs keyword comment_body) positive_keywords
   then S positive_count else positive_count,
   if existsb (fun keyword => occurs keyword comment_body) negative_keywords
   then S negative_count else negative_count,
   S total_comments).

(** [for pr in list(recent_prs)[:5]: for comment in list(comments)[:20]: ...] *)
Definition count_comments (pulls : list (list string)) : nat * nat * nat :=
  fold_left
    (fun counts comments => fold_left count_comment (firstn 20 comments) counts)
    (firstn 5 pulls) (0, 0, 0)%nat.

(** [(positive_count - negative_count) / total_comments], and
    [(friendliness + 1) / 2]. *)
Definition friendliness (counts : nat * nat * nat) : float :=
  let '(positive_count, negative_count, total_comments) := counts in
  int_div (Z.of_nat positive_count - Z.of_nat negative_count)
          (Z.of_nat total_comments).

Definition half_up (friendliness : float) : float :=
  ((friendliness + 1) / 2)%float.

(** [max(0, min(1, x))]: Python's [min] and [max] answer their first argument
    unless the second one is strictly smaller, respectively greater. *)
Definition clamp (x : float) : float :=
  let low := if PrimFloat.ltb x 1 then x else 1%float in
  if PrimFloat.ltb 0 low then low else 0%float.

(** What the [try] block of [analyze_pr_sentiment] returns. *)
Definition sentiment_of (pulls : list (list string)) : float :=
  let counts := count_comments pulls in
  if (snd counts =? 0)%nat then 0.7%float
  else clamp (half_up (friendliness counts)).

Definition analyze_pr_sentiment (world : World) (repo_name : string) : M float :=
  emit (GitHubCall "analyze_pr_sentiment" (Some repo_name)) ;;;
  ret (match client_pull_comments world repo_name with
       | Return pulls => sentiment_of pulls
       | Raise _ => 0.7%float
       end).

(** The invariant of the two counting loops, after at most [limit]
    comments. *)
Definition counts_within (limit : nat) (counts : nat * nat * nat) : Prop :=
  let '(positive_count, negative_count, total_comments) := counts in
  (positive_count <= total_comments)%nat /\
  (negative_count <= total_comments)%nat /\
  (total_comments <= limit)%nat.

(** The score for a difference [d] of the two counts over [total] comments
    lies between 0 and 1 and is not cut by [clamp]; the table runs through
    every pair the counting loops can reach. *)
Definition score_ok (d : Z) (total : nat) : bool :=
  let x := half_up (int_div d (Z.of_nat total)) in
  PrimFloat.leb 0 (clamp x) && PrimFloat.leb (clamp x) 1 &&
  PrimFloat.eqb (clamp x) x.

Definition score_table : bool :=
  forallb
    (fun total =>
       forallb (fun k => score_ok (Z.of_nat k - Z.of_nat total) total)
               (seq 0 (2 * total + 1)))
    (seq 1 100).

(** The same for the response rate of [responded] issues out of [checked]. *)
Definition rate_ok (responded checked : nat) : bool :=
  let x := int_div (Z.of_nat responded) (Z.of_nat checked) in
  PrimFloat.leb 0 x && PrimFloat.leb x 1.

Definition rate_table : bool :=
  forallb
    (fun checked => forallb (fun responded => rate_ok responded checked)
                            (seq 0 (checked + 1)))
    (seq 1 10).

(** A pull request [analyze_maintainer_activity] takes a merge time from. *)
Definition has_merge_time (pr : RawPull.t) : bool :=
  RawPull.merged pr && is_some (RawPull.created_at pr) &&
  is_some (RawPull.merged_at pr).

End GitHubTools.

(** ** The repository scout ([backend/agents/scout/repository_scout.py]) *)

Module RepositoryScoutAgent.

(** The body of the enrichment loop, and the loop. *)
Definition enrich (world : World) (repo : RepoData.t) : M EnrichedRepo.t :=
  activity <- GitHubTools.analyze_maintainer_activity world (RepoData.name repo) ;;
  sentiment <- GitHubTools.analyze_pr_sentiment world (RepoData.name repo) ;;
  issues <- GitHubTools.get_issues world (Some (RepoData.name repo)) None 5 ;;
  ret (EnrichedRepo.Build repo activity sentiment (length issues)).

Fixpoint enrich_all (world : World) (candidates : list RepoData.t)
    : M (list EnrichedRepo.t) :=
  match candidates with
  | [] => ret []
  | repo :: rest =>
      enriched <- enrich world repo ;;
      others <- enrich_all world rest ;;
      ret (enriched :: others)
  end.

(** [_analyze_and_rank]: the model is called before the [try]; whatever goes
    wrong with its answer gives the empty list. *)
Definition _analyze_and_rank (env : Environment) (world : World)
    (user_profile : UserProfile.t) (repos : list EnrichedRepo.t)
    : M (list RepositoryMatch.t) :=
  let prompt := scout_prompt world user_profile repos in
  emit (GenerateContent prompt) ;;;
  response_text <- lift (generate_content env prompt) ;;
  try_except (lift (parse_repositories world response_text)) (fun _ => ret []).

Definition find_repositories (env : Environment) (world : World)
    (user_profile : option UserProfile.t) : M (list RepositoryMatch.t) :=
  match user_profile with
  | None => raise "'NoneType' object has no attribute 'programming_languages'"
  | Some profile =>
      candidate_repos <-
        GitHubTools.search_repositories world
          (UserProfile.programming_languages profile) 50 15 ;;
      enriched_repos <- enrich_all world candidate_repos ;;
      ranked_repos <- _analyze_and_rank env world profile enriched_repos ;;
      ret (firstn 5 ranked_repos)
  end.

End RepositoryScoutAgent.

(** ** The issue matcher ([backend/agents/issue_matcher/issue_matcher.py]) *)

Module IssueMatcherAgent.

(** [range(0, len(l), 5)] and [l[i:i+5]]. *)
Fixpoint batches_upto (fuel : nat) (l : list GithubIssue.t) : list (list GithubIssue.t) :=
  match fuel with
  | O => []
  | S fuel' =>
      match l with
      | [] => []
      | _ :: _ => firstn 5 l :: batches_upto fuel' (skipn 5 l)
      end
  end.

Definition batches (l : list GithubIssue.t) : list (list GithubIssue.t) :=
  batches_upto (length l) l.

(** [next((gi for gi in issues if gi["number"] == n), None)] *)
Definition find_github_issue (n : option Z) (issues : list GithubIssue.t)
    : option GithubIssue.t :=
  match n with
  | Some number => find (fun gi => Z.eqb (GithubIssue.number gi) number) issues
  | None => None
  end.

Definition new_Issue (number : Z) (fields : IssueFields.t) (github_issue : GithubIssue.t)
    (created_at : datetime) : Issue.t :=
  {| Issue.issue_number := number;
     Issue.title := IssueFields.title fields;
     Issue.url := IssueFields.url fields;
     Issue.labels := GithubIssue.labels github_issue;
     Issue.description := substring 0 500 (IssueFields.description fields);
     Issue.difficulty_rating := IssueFields.difficulty_rating fields;
     Issue.estimated_complexity := IssueFields.estimated_complexity fields;
     Issue.approach_suggestions := IssueFields.approach_suggestions fields;
     Issue.created_at := created_at;
     Issue.comments_count := GithubIssue.comments github_issue |}.

(** The loop inside the [try] of [_analyze_batch]: an entry of the answer
    that names no issue of the batch is skipped, and any fault ends the
    loop. *)
Fixpoint build_issues (world : World) (issues_json : list IssueData.t)
    (issues : list GithubIssue.t) : Outcome (list Issue.t) :=
  match issues_json with
  | [] => Return []
  | issue_data :: rest =>
      match IssueData.issue_number issue_data with
      | Raise e => Raise e
      | Return n =>
          match find_github_issue n issues with
          | None => build_issues world rest issues
          | Some github_issue =>
              match IssueData.fields issue_data with
              | Raise e => Raise e
              | Return fields =>
                  match parse_datetime world (GithubIssue.created_at github_issue) with
                  | Raise e => Raise e
                  | Return created_at =>
                      match build_issues world rest issues with
                      | Raise e => Raise e
                      | Return others =>
                          let number := match n with
                                        | Some number => number
                                        | None => GithubIssue.number github_issue
                                        end in
                          Return (new_Issue number fields github_issue created_at
                                    :: others)
                      end
                  end
              end
          end
      end
  end.

Definition _analyze_batch (env : Environment) (world : World)
    (user_profile : option UserProfile.t) (repo_name : option string)
    (issues : list GithubIssue.t) : M (list Issue.t) :=
  match user_profile with
  | None => raise "'NoneType' object has no attribute 'skill_level'"
  | Some profile =>
      let prompt := issue_prompt world profile repo_name issues in
      emit (GenerateContent prompt) ;;;
      response_text <- lift (generate_content env prompt) ;;
      try_except
        (issues_json <- lift (parse_issues world response_text) ;;
         lift (build_issues world issues_json issues))
        (fun _ => ret [])
  end.

Fixpoint analyze_batches (env : Environment) (world : World)
    (user_profile : option UserProfile.t) (repo_name : option string)
    (todo : list (list GithubIssue.t)) : M (list Issue.t) :=
  match todo with
  | [] => ret []
  | batch :: rest =>
      analyzed_batch <- _analyze_batch env world user_profile repo_name batch ;;
      others <- analyze_batches env world user_profile repo_name rest ;;
      ret (analyzed_batch ++ others)
  end.

Definition _analyze_issues (env : Environment) (world : World)
    (user_profile : option UserProfile.t) (repo_name : option string)
    (github_issues : list GithubIssue.t) : M (list Issue.t) :=
  analyze_batches env world user_profile repo_name (batches github_issues).

Definition difficulty_match (user rating : SkillLevel) : float :=
  match user, rating with
  | BEGINNER, BEGINNER => 1.0
  | BEGINNER, INTERMEDIATE => 0.3
  | INTERMEDIATE, BEGINNER => 0.7
  | INTERMEDIATE, INTERMEDIATE => 1.0
  | INTERMEDIATE, ADVANCED => 0.4
  | ADVANCED, INTERMEDIATE => 0.6
  | ADVANCED, ADVANCED => 1.0
  | _, _ => 0.5
  end%float.

Definition good_labels : list string :=
  ["good first issue"; "beginner-friendly"; "easy"; "help wanted"].

Definition has_good_label (labels : list string) : bool :=
  existsb (fun label => existsb (String.eqb (lower label)) (map lower labels))
          good_labels.

(** [(datetime.utcnow().replace(tzinfo=created_at.tzinfo) - created_at).days]:
    [replace] relabels the reading of the UTC clock with the time zone of
    [created_at] and converts nothing, and two datetimes of one [tzinfo] are
    subtracted by their clock readings, so this is the difference of the two
    readings, in whole days. *)
Definition days_between (now created_at : datetime) : Z :=
  ((now - created_at) / 86400)%Z.

(** [_calculate_suitability_score], in binary64 arithmetic as Python has
    it: first [score] as the four contributions leave it, *)
Definition suitability_sum (world : World) (issue : Issue.t)
    (user_profile : UserProfile.t) : float :=
  let score := 0.0%float in
  let score :=
    (score + difficulty_match (UserProfile.skill_level user_profile)
               (Issue.difficulty_rating issue) * 0.6)%float in
  let score :=
    if has_good_label (Issue.labels issue) then (score + 0.2)%float else score in
  let score :=
    if (0 <? Issue.comments_count issue)%Z && (Issue.comments_count issue <? 5)%Z
    then (score + 0.1)%float
    else if (5 <=? Issue.comments_count issue)%Z then (score + 0.05)%float
    else score in
  let score :=
    if (days_between (utcnow world) (Issue.created_at issue) <? 30)%Z
    then (score + 0.1)%float else score in
  score.

(** then [return min(score, 1.0)]. *)
Definition _calculate_suitability_score (world : World) (issue : Issue.t)
    (user_profile : UserProfile.t) : float :=
  let score := suitability_sum world issue user_profile in
  if PrimFloat.ltb 1.0 score then 1.0%float else score.

(** [sorted(l, key=key, reverse=True)]: a stable sort, largest key first. *)
Fixpoint insert_by (key : Issue.t -> float) (x : Issue.t) (l : list Issue.t)
    : list Issue.t :=
  match l with
  | [] => [x]
  | y :: rest =>
      if PrimFloat.ltb (key x) (key y) then y :: insert_by key x rest
      else x :: y :: rest
  end.

Definition sorted_reverse (key : Issue.t -> float) (l : list Issue.t) : list Issue.t :=
  fold_right (insert_by key) [] l.

(** The score depends on the issue and the profile through five things
    only: the two levels, whether a good label is there, the band the number
    of comments falls in, and whether the issue is recent. *)
Inductive CommentBand : Type := no_comments | few_comments | many_comments.

Definition band_score (level rating : SkillLevel) (label : bool)
    (band : CommentBand) (recent : bool) : float :=
  let score := 0.0%float in
  let score := (score + difficulty_match level rating * 0.6)%float in
  let score := if label then (score + 0.2)%float else score in
  let score :=
    match band with
    | few_comments => (score + 0.1)%float
    | many_comments => (score + 0.05)%float
    | no_comments => score
    end in
  let score := if recent then (score + 0.1)%float else score in
  if PrimFloat.ltb 1.0 score then 1.0%float else score.

Definition all_levels : list SkillLevel := [BEGINNER; INTERMEDIATE; ADVANCED].

(** Every score there is. *)
Definition score_bands : list float :=
  flat_map (fun level =>
  flat_map (fun rating =>
  flat_map (fun label =>
  flat_map (fun band =>
  map (fun recent => band_score level rating label band recent) [true; false])
    [no_comments; few_comments; many_comments])
    [true; false])
    all_levels)
    all_levels.

(** On the scores, [<] and [<=] behave as on numbers: what is smaller is not
    greater, of two scores one is at most the other, and [<=] is
    transitive. *)
Definition order_table : bool :=
  forallb (fun a =>
  forallb (fun b =>
    implb (PrimFloat.ltb a b) (PrimFloat.leb a b) &&
    (PrimFloat.ltb a b || PrimFloat.leb b a) &&
    forallb (fun c =>
      implb (PrimFloat.leb a b && PrimFloat.leb b c) (PrimFloat.leb a c))
      score_bands)
    score_bands)
    score_bands.

Definition find_suitable_issues (env : Environment) (world : World)
    (user_profile : option UserProfile.t) (repo_name : option string)
    : M (list Issue.t) :=
  github_issues <- GitHubTools.get_issues world repo_name None 20 ;;
  if negb (truthy_list github_issues) then ret []
  else
    analyzed_issues <- _analyze_issues env world user_profile repo_name github_issues ;;
    match user_profile with
    | None =>
        match analyzed_issues with
        | [] => ret []
        | _ :: _ => raise "'NoneType' object has no attribute 'skill_level'"
        end
    | Some profile =>
        let ranked_issues :=
          sorted_reverse
            (fun x => _calculate_suitability_score world x profile) analyzed_issues in
        ret (firstn 5 ranked_issues)
    end.

End IssueMatcherAgent.

(** ** The mentor ([backend/agents/mentoring/mentoring_agent.py]) *)

Module MentoringAgent.

(** [MentoringPlan(issue_number=..., repo_name=..., ...)]: [repo_name: str]
    refuses [None]. *)
Definition new_MentoringPlan (world : World) (issue_number : Z)
    (repo_name : option string) (fields : PlanJson.t) : M MentoringPlan.t :=
  match repo_name with
  | Some name =>
      ret (MentoringPlan.Build issue_number name
             (PlanJson.step_by_step_plan fields)
             (PlanJson.key_files_to_examine fields)
             (PlanJson.suggested_approach fields)
             (PlanJson.git_commands fields)
             (PlanJson.testing_strategy fields)
             (PlanJson.potential_challenges fields))
  | None => raise (plan_validation_error world)
  end.

Definition fallback_plan (repo_name : option string) (issue : GithubIssue.t)
    : PlanJson.t :=
  PlanJson.Build
    [ "1. Fork and clone the repository";
      "2. Read the issue description carefully";
      "3. Explore the codebase to understand the structure";
      "4. Implement your solution";
      "5. Test your changes";
      "6. Submit a pull request" ]
    ["README.md"; "CONTRIBUTING.md"]
    "Review the issue and explore the codebase to understand the problem."
    [ "git clone https://github.com/" +++ format_opt repo_name +++ ".git";
      "git checkout -b fix-issue-" +++ str_int (GithubIssue.number issue) ]
    "Run the project's test suite to verify your changes."
    ["Understanding the codebase structure"].

Definition _generate_plan_with_reasoning (env : Environment) (world : World)
    (user_profile : option UserProfile.t) (repo_name : option string)
    (issue : GithubIssue.t) (readme contributing_guide : option string)
    : M MentoringPlan.t :=
  match user_profile with
  | None => raise "'NoneType' object has no attribute 'skill_level'"
  | Some profile =>
      let prompt :=
        plan_prompt world profile repo_name issue readme contributing_guide in
      emit (GenerateContent prompt) ;;;
      response_text <- lift (generate_content env prompt) ;;
      try_except
        (plan_json <- lift (parse_plan world response_text) ;;
         new_MentoringPlan world (GithubIssue.number issue) repo_name plan_json)
        (fun _ =>
           new_MentoringPlan world (GithubIssue.number issue) repo_name
             (fallback_plan repo_name issue))
  end.

(** [f"{issue_number}"] on an optional integer. *)
Definition format_number (issue_number : option Z) : string :=
  match issue_number with
  | Some n => str_int n
  | None => "None"
  end.

Definition create_mentoring_plan (env : Environment) (world : World)
    (user_profile : option UserProfile.t) (repo_name : option string)
    (issue_number : option Z) : M MentoringPlan.t :=
  issues <- GitHubTools.get_issues world repo_name None 50 ;;
  match IssueMatcherAgent.find_github_issue issue_number issues with
  | None =>
      raise ("Issue #" +++ format_number issue_number +++ " not found in " +++
             format_opt repo_name)
  | Some target_issue =>
      readme <- get_readme env repo_name ;;
      contributing_guide <- get_contributing_guide env repo_name ;;
      _generate_plan_with_reasoning env world user_profile repo_name target_issue
        readme contributing_guide
  end.

End MentoringAgent.

(** The environment of the workflow in which the three agents are the ones
    above: a call of an agent returns or raises what the agent does. *)
Definition with_agents (env : Environment) (world : World) : Environment :=
  {| find_repositories :=
       fun profile => outcome (RepositoryScoutAgent.find_repositories env world profile);
     find_suitable_issues :=
       fun profile repo =>
         outcome (IssueMatcherAgent.find_suitable_issues env world profile repo);
     create_mentoring_plan :=
       fun profile repo issue =>
         outcome (MentoringAgent.create_mentoring_plan env world profile repo issue);
     github_readme := github_readme env;
     github_contributing := github_contributing env;
     github_repository_info := github_repository_info env;
     generate_content := generate_content env;
     guide_prompt := guide_prompt env;
     parse_guide := parse_guide env;
     repo_name_validation_error := repo_name_validation_error env;
     entrypoint_error := entrypoint_error env |}.

(** ** The progress tracker ([backend/agents/tracker/progress_tracker.py]) *)

Module ContributionOutcome.
Record t : Type := Build {
  id : option Z;
  user_id : Z;
  repo_name : string;
  issue_number : Z;
  pr_url : option string;
  status : string;
  started_at : datetime;
  completed_at : option datetime;
  user_feedback : option string
}.
End ContributionOutcome.

Module ProgressTrackerAgent.

Section Division.

(** Python's [/] on two integers, the second one not zero: the binary64
    value nearest to the quotient. *)
Variable true_div : Z -> Z -> float.

(** [len([o for o in outcomes if o.status == "merged"])] *)
Definition merged_count (outcomes : list ContributionOutcome.t) : nat :=
  length (filter (fun o => String.eqb (ContributionOutcome.status o) "merged") outcomes).

(** [[o for o in outcomes if o.completed_at]], each with its
    [(o.completed_at - o.started_at).days], the two dates being of one
    [tzinfo] (Python refuses to subtract a naive and an aware datetime). *)
Fixpoint completed_days (outcomes : list ContributionOutcome.t) : list Z :=
  match outcomes with
  | [] => []
  | o :: rest =>
      match ContributionOutcome.completed_at o with
      | Some completed_at =>
          ((completed_at - ContributionOutcome.started_at o) / 86400)%Z
          :: completed_days rest
      | None => completed_days rest
      end
  end.

Definition recommend_difficulty_adjustment (user_profile : UserProfile.t)
    (recent_outcomes : list ContributionOutcome.t) : SkillLevel :=
  let level := UserProfile.skill_level user_profile in
  if negb (truthy_list recent_outcomes) then level
  else
    let success_rate :=
      true_div (Z.of_nat (merged_count recent_outcomes))
               (Z.of_nat (length recent_outcomes)) in
    let completed := completed_days recent_outcomes in
    if truthy_list completed then
      let avg_days :=
        true_div (fold_right Z.add 0%Z completed) (Z.of_nat (length completed)) in
      if PrimFloat.leb 0.8 success_rate && PrimFloat.ltb avg_days 7 then
        match level with
        | BEGINNER => INTERMEDIATE
        | INTERMEDIATE => ADVANCED
        | ADVANCED => level
        end
      else if PrimFloat.ltb success_rate 0.3 then
        match level with
        | ADVANCED => INTERMEDIATE
        | INTERMEDIATE => BEGINNER
        | BEGINNER => level
        end
      else level
    else level.

End Division.

End ProgressTrackerAgent.

(** The place of a skill level on the scale. *)
Definition level_rank (level : SkillLevel) : Z :=
  match level with
  | BEGINNER => 0
  | INTERMEDIATE => 1
  | ADVANCED => 2
  end.

(** ** A sample world *)

Definition sample_raw_issue (number : Z) (is_pull_request : bool) : RawIssue.t :=
  RawIssue.Build is_pull_request number "Fix a typo"
    "https://github.com/octo/alpha/issues" ["good first issue"] None
    "2024-05-01T10:00:00Z" 2%Z None "open".

Definition sample_repo_data : RepoData.t :=
  RepoData.Build "octo/alpha" "https://github.com/octo/alpha" "A sample project"
    120%Z (Some "Python") 7%Z 12%Z ["web"] "2020-01-01T00:00:00"
    "2024-05-01T00:00:00" true true.

Definition sample_issue_data (number : Z) : IssueData.t :=
  IssueData.Build (Return (Some number))
    (Return (IssueFields.Build "Fix a typo" "https://github.com/octo/alpha/issues"
               "A typo in the README" BEGINNER "Simple text change" "Edit the README")).

Definition sample_world : World :=
  {| client_issues := fun _ _ =>
       [sample_raw_issue 7 false; sample_raw_issue 8 true; sample_raw_issue 9 false];
     client_search := fun _ => [sample_repo_data];
     client_activity := fun _ =>
       Return (RepoActivity.Build
                 [ RawPull.Build true (Some 1714000000%Z) (Some 1714200000%Z);
                   RawPull.Build false (Some 1714000000%Z) None ]
                 [sample_raw_issue 7 false; sample_raw_issue 8 true] 3%Z 40%Z);
     client_pull_comments := fun _ =>
       Return [["Thanks, great work!"; "I do not think this is right"]; []];
     scout_prompt := fun _ _ => "You are an expert open source mentor";
     issue_prompt := fun _ _ _ => "You are analyzing GitHub issues";
     plan_prompt := fun _ _ _ _ _ => "You are an expert mentor";
     parse_repositories := fun _ => Return [sample_repository];
     parse_issues := fun _ =>
       Return [sample_issue_data 9; sample_issue_data 41; sample_issue_data 7];
     parse_plan := fun _ => Raise "Expecting value";
     parse_datetime := fun _ => Return 1714557600%Z;
     plan_validation_error := "1 validation error for MentoringPlan";
     utcnow := 1715000000%Z |}.

(** GitHub yields no issue. *)
Definition quiet_world : World :=
  {| client_issues := fun _ _ => [];
     client_search := fun _ => [];
     client_activity := client_activity sample_world;
     client_pull_comments := fun _ => Raise "404 Not Found";
     scout_prompt := scout_prompt sample_world;
     issue_prompt := issue_prompt sample_world;
     plan_prompt := plan_prompt sample_world;
     parse_repositories := fun _ => Raise "Expecting value";
     parse_issues := parse_issues sample_world;
     parse_plan := parse_plan sample_world;
     parse_datetime := parse_datetime sample_world;
     plan_validation_error := plan_validation_error sample_world;
     utcnow := utcnow sample_world |}.

(** * Properties *)

(** ** The effect layer *)

Lemma after_nil {A : Type} (m : M A) : after [] m = m.
Proof. destruct m; reflexivity. Qed.

Lemma after_after {A : Type} (e1 e2 : list Event) (m : M A) :
  after e1 (after e2 m) = after (e1 ++ e2) m.
Proof. unfold after; simpl. now rewrite app_assoc. Qed.

Lemma bind_return {A B : Type} (a : A) (evs : list Event) (k : A -> M B) :
  bind (Return a, evs) k = after evs (k a).
Proof. reflexivity. Qed.

Lemma bind_ret {A B : Type} (a : A) (k : A -> M B) : bind (ret a) k = k a.
Proof. unfold ret. rewrite bind_return. apply after_nil. Qed.

Lemma bind_emit {B : Type} (ev : Event) (k : unit -> M B) :
  bind (emit ev) k = after [ev] (k tt).
Proof. reflexivity. Qed.

Lemma stages_run_app (e1 e2 : list Event) :
  stages_run (e1 ++ e2) = stages_run e1 ++ stages_run e2.
Proof.
  induction e1 as [|ev e1 IH]; simpl; [reflexivity|].
  destruct ev; simpl; now rewrite IH.
Qed.

Lemma generate_calls_app (e1 e2 : list Event) :
  generate_calls (e1 ++ e2) = generate_calls e1 ++ generate_calls e2.
Proof.
  induction e1 as [|ev e1 IH]; simpl; [reflexivity|].
  destruct ev; simpl; now rewrite IH.
Qed.

(** ** The preparation agent *)

Section PreparationAgent.

Variable env : Environment.

(** Whatever the providers answer, the agent makes its three GitHub calls
    and then, if there is a profile to write the prompt from, exactly one
    call of the generative model. *)
Lemma prepare_onboarding_guide_events (profile : option UserProfile.t)
    (name : option string) :
  events (prepare_onboarding_guide env profile name) =
  [GitHubCall "get_readme" name;
   GitHubCall "get_contributing_guide" name;
   GitHubCall "get_repository_info" name] ++
  match profile with
  | Some p =>
      [GenerateContent
         (guide_prompt env p name
            (match github_readme env name with
             | Return text => Some text | Raise _ => None end)
            (match github_contributing env name with
             | Return text => Some text | Raise _ => None end)
            (match github_repository_info env name with
             | Return info => info | Raise _ => [] end))]
  | None => []
  end.
Proof.
  unfold prepare_onboarding_guide, get_readme, get_contributing_guide,
    get_repository_info, _generate_guide.
  destruct profile as [p|]; simpl; [|reflexivity].
  destruct (generate_content env _) as [text|e]; simpl; [|reflexivity].
  destruct (parse_guide env text) as [fields|e]; simpl;
    destruct name; reflexivity.
Qed.

(** Without a repository name the agent cannot return: the guide it would
    build is refused for its [repo_name]. *)
Lemma prepare_onboarding_guide_None (profile : option UserProfile.t) :
  exists e, outcome (prepare_onboarding_guide env profile None) = Raise e.
Proof.
  unfold prepare_onboarding_guide, get_readme, get_contributing_guide,
    get_repository_info, _generate_guide.
  destruct profile as [p|]; simpl; [|eexists; reflexivity].
  destruct (generate_content env _) as [text|e]; simpl; [|eexists; reflexivity].
  destruct (parse_guide env text) as [fields|e]; simpl; eexists; reflexivity.
Qed.

Lemma prepare_onboarding_guide_no_node (profile : option UserProfile.t)
    (name : option string) :
  stages_run (events (prepare_onboarding_guide env profile name)) = [].
Proof.
  rewrite prepare_onboarding_guide_events.
  destruct profile; reflexivity.
Qed.

End PreparationAgent.

(** ** The nodes against the contract *)

Section Nodes.

Variable env : Environment.

Lemma try_except_node {A : Type} (m : M A) (ok : A -> AgentWorkflowState)
    (ko : string -> AgentWorkflowState) (arg : AgentWorkflowState) :
  try_except (bind m (fun a => ret (arg, ok a))) (fun e => ret (arg, ko e)) =
  (Return (arg, match fst m with Return a => ok a | Raise e => ko e end), snd m).
Proof.
  destruct m as [[a|e] evs]; unfold try_except, bind, ret, after; simpl;
    now rewrite app_nil_r.
Qed.

(** Every node returns, and returns what the contract words describe,
    taken on the state the node holds after its default selection. *)
Lemma node_total (s : Stage) (state : AgentWorkflowState) :
  stage_node env s state =
  (Return (stage_default s state, stage_result env s state),
   events (agent_call env s state)).
Proof.
  destruct s; unfold stage_node, stage_result, agent_outcome, agent_call,
    outcome, events, map_M; simpl stage_default; cbv zeta.
  - unfold scout_repositories_node. rewrite try_except_node.
    destruct (scout_agent env (user_profile state)) as [[v|e] evs]; reflexivity.
  - unfold prepare_onboarding_node. cbv zeta. rewrite try_except_node.
    destruct (prepare_onboarding_guide env (user_profile (default_repository state))
                (selected_repo_name (default_repository state))) as [[v|e] evs];
      reflexivity.
  - unfold match_issues_node. rewrite try_except_node.
    destruct (issue_matcher env (user_profile state) (selected_repo_name state))
      as [[v|e] evs]; reflexivity.
  - unfold create_mentoring_plan_node. cbv zeta. rewrite try_except_node.
    destruct (mentoring_agent env (user_profile (default_issue state))
                (selected_repo_name (default_issue state))
                (selected_issue_number (default_issue state))) as [[v|e] evs];
      reflexivity.
Qed.

Lemma agent_call_no_node (s : Stage) (state : AgentWorkflowState) :
  stages_run (events (agent_call env s state)) = [].
Proof.
  destruct s; unfold agent_call, map_M, events; simpl snd; try reflexivity.
  apply (prepare_onboarding_guide_no_node env).
Qed.

End Nodes.

(** ** Running a graph *)

Section Runs.

Variable env : Environment.

Lemma compile_checked (refusal : option string) (g : StateGraph) (name : string) :
  entry_point g = Some name ->
  is_node g name = true ->
  valid_edges g = true ->
  no_dead_end g = true ->
  compile refusal g = ret (mkCompiled g name).
Proof.
  intros He Hn Hv Hd. unfold compile. now rewrite He, Hn, Hv, Hd.
Qed.

Lemma compile_no_entry (refusal : option string) (g : StateGraph) :
  entry_point g = None ->
  compile refusal g =
  match refusal with
  | Some message => raise message
  | None => ret (mkCompiled g END)
  end.
Proof. intros He. unfold compile. now rewrite He. Qed.

Lemma run_nodes_END (g : StateGraph) (steps : nat) (channels : AgentWorkflowState) :
  run_nodes g steps END channels = ret channels.
Proof. destruct steps; reflexivity. Qed.

Lemma stage_name_not_END (s : Stage) : String.eqb (stage_name s) END = false.
Proof. destruct s; reflexivity. Qed.

(** A node of the graph runs, its dict is written to the channels, and the
    run goes on at the node its edge points to. *)
Lemma run_nodes_step (g : StateGraph) (steps : nat) (s : Stage) (next : string)
    (channels : AgentWorkflowState) :
  find_node (stage_name s) (nodes g) = Some (stage_node env s) ->
  next_node (stage_name s) (edges g) = Some next ->
  run_nodes g (S steps) (stage_name s) channels =
  after (NodeRun (stage_name s) :: events (agent_call env s channels))
        (run_nodes g steps next (transition env s channels)).
Proof.
  intros Hnode Hnext. cbn [run_nodes].
  rewrite stage_name_not_END, Hnode, Hnext, bind_emit, node_total.
  rewrite bind_return, after_after. reflexivity.
Qed.

(** A line of stages runs from its first node to [END], within the step
    limit, as [run_stages] says. *)
Lemma run_nodes_in_line (g : StateGraph) (l : list Stage) :
  forall (steps : nat) (name : string) (channels : AgentWorkflowState),
    in_line env g name l ->
    (length l <= steps)%nat ->
    run_nodes g steps name channels =
    (Return (fst (run_stages env l channels)), snd (run_stages env l channels)).
Proof.
  induction l as [|s rest IH]; intros steps name channels Hline Hsteps.
  - simpl in Hline. subst name. now rewrite run_nodes_END.
  - destruct Hline as (-> & Hnode & next & Hnext & Hrest).
    destruct steps as [|steps]; [simpl in Hsteps; lia|].
    rewrite (run_nodes_step g steps s next channels Hnode Hnext).
    rewrite (IH steps next (transition env s channels) Hrest)
      by (simpl in Hsteps; lia).
    simpl. destruct (run_stages env rest (transition env s channels)) as [final evs].
    reflexivity.
Qed.

Lemma run_is_run_stages (p : UserProfile.t) :
  run env p =
  (Return (fst (run_stages env all_stages (write_input (initial_state p)))),
   snd (run_stages env all_stages (write_input (initial_state p)))).
Proof.
  unfold run, __init__, _build_workflow. cbv zeta.
  rewrite (compile_checked _ _ "scout_repositories") by reflexivity.
  rewrite !bind_ret.
  unfold run_full_workflow, ainvoke. cbn [workflow graph entry].
  apply run_nodes_in_line; [|unfold recursion_limit; simpl; lia].
  simpl. repeat (split; [reflexivity|]). 
  eexists; split; [reflexivity|]. repeat (split; [reflexivity|]).
  eexists; split; [reflexivity|]. repeat (split; [reflexivity|]).
  eexists; split; [reflexivity|]. repeat (split; [reflexivity|]).
  eexists; split; [reflexivity|]. reflexivity.
Qed.

Lemma run_partial_is_run_stages (start_node : string) (state : AgentWorkflowState) :
  accepted_start start_node = true ->
  run_partial_workflow env start_node state =
  (state,
   (Return (fst (run_stages env (stages_from start_node) (write_input state))),
    snd (run_stages env (stages_from start_node) (write_input state)))).
Proof.
  unfold accepted_start, stages_from, run_partial_workflow, partial_graph.
  intros Hacc. f_equal.
  destruct (String.eqb start_node "prepare_onboarding").
  - rewrite (compile_checked _ _ "prepare_onboarding") by reflexivity.
    rewrite bind_ret. unfold ainvoke. cbn [graph entry].
    apply run_nodes_in_line; [|unfold recursion_limit; simpl; lia].
    simpl. repeat (split; [reflexivity|]).
    eexists; split; [reflexivity|]. repeat (split; [reflexivity|]).
    eexists; split; [reflexivity|]. repeat (split; [reflexivity|]).
    eexists; split; [reflexivity|]. reflexivity.
  - destruct (String.eqb start_node "match_issues").
    + rewrite (compile_checked _ _ "match_issues") by reflexivity.
      rewrite bind_ret. unfold ainvoke. cbn [graph entry].
      apply run_nodes_in_line; [|unfold recursion_limit; simpl; lia].
      simpl. repeat (split; [reflexivity|]).
      eexists; split; [reflexivity|]. repeat (split; [reflexivity|]).
      eexists; split; [reflexivity|]. reflexivity.
    + destruct (String.eqb start_node "create_mentoring_plan").
      * rewrite (compile_checked _ _ "create_mentoring_plan") by reflexivity.
        rewrite bind_ret. unfold ainvoke. cbn [graph entry].
        apply run_nodes_in_line; [|unfold recursion_limit; simpl; lia].
        simpl. repeat (split; [reflexivity|]).
        eexists; split; [reflexivity|]. reflexivity.
      * discriminate Hacc.
Qed.

(** Any other start node leaves the graph empty.  No node is called on it:
    either [compile] refuses it before [ainvoke] is reached, or [ainvoke]
    has nothing to run and hands the input back. *)
Lemma run_partial_refused (start_node : string) (state : AgentWorkflowState) :
  accepted_start start_node = false ->
  run_partial_workflow env start_node state =
  (state,
   match entrypoint_error env with
   | Some message => (Raise message, [])
   | None => (Return state, [])
   end).
Proof.
  unfold accepted_start, stages_from, run_partial_workflow, partial_graph.
  intros Hacc. f_equal.
  destruct (String.eqb start_node "prepare_onboarding"); [discriminate Hacc|].
  destruct (String.eqb start_node "match_issues"); [discriminate Hacc|].
  destruct (String.eqb start_node "create_mentoring_plan"); [discriminate Hacc|].
  rewrite compile_no_entry by reflexivity.
  destruct (entrypoint_error env) as [message|]; [reflexivity|].
  rewrite bind_ret. unfold ainvoke. cbn [graph entry].
  rewrite run_nodes_END. destruct state; reflexivity.
Qed.

End Runs.

(** ** What a stage leaves alone *)

Ltac split_cases :=
  repeat match goal with
         | |- context [match ?x with _ => _ end] => destruct x
         | |- context [if ?x then _ else _] => destruct x
         end.

Section Frames.

Variable env : Environment.

(** The default selection touches the selection fields only. *)
Lemma stage_default_frame (s : Stage) (state : AgentWorkflowState) :
  user_profile (stage_default s state) = user_profile state /\
  repositories (stage_default s state) = repositories state /\
  issues (stage_default s state) = issues state /\
  contribution_guide (stage_default s state) = contribution_guide state /\
  mentoring_plan (stage_default s state) = mentoring_plan state /\
  messages (stage_default s state) = messages state /\
  current_step (stage_default s state) = current_step state /\
  error (stage_default s state) = error state.
Proof.
  destruct state; destruct s; unfold stage_default, default_repository, default_issue;
    simpl; split_cases; repeat split; reflexivity.
Qed.

Lemma stage_default_selection (s : Stage) (state : AgentWorkflowState) :
  match s with
  | Preparation =>
      selected_issue_number (stage_default s state) = selected_issue_number state
  | Mentor =>
      selected_repo_name (stage_default s state) = selected_repo_name state /\
      selected_repo_url (stage_default s state) = selected_repo_url state
  | Scout | IssueMatcher => stage_default s state = state
  end.
Proof.
  destruct state; destruct s; unfold stage_default, default_repository, default_issue;
    simpl; split_cases; repeat split; reflexivity.
Qed.

(** The agent of a stage hands back the field that stage owns. *)
Lemma agent_outcome_kind (s : Stage) (state : AgentWorkflowState) (v : Owned) :
  agent_outcome env s state = Return v ->
  match s, v with
  | Scout, OwnedRepositories _ => True
  | Preparation, OwnedGuide _ => True
  | IssueMatcher, OwnedIssues _ => True
  | Mentor, OwnedPlan _ => True
  | _, _ => False
  end.
Proof.
  unfold agent_outcome, agent_call, outcome, map_M.
  destruct s; cbn [fst]; intros H;
    match type of H with
    | match ?x with _ => _ end = _ => destruct x; inversion H; exact I
    end.
Qed.

(** A stage returns the selections its default selection made. *)
Lemma stage_result_selection (s : Stage) (state : AgentWorkflowState) :
  user_profile (stage_result env s state) = user_profile state /\
  selected_repo_name (stage_result env s state) =
    selected_repo_name (stage_default s state) /\
  selected_repo_url (stage_result env s state) =
    selected_repo_url (stage_default s state) /\
  selected_issue_number (stage_result env s state) =
    selected_issue_number (stage_default s state).
Proof.
  destruct (stage_default_frame s state) as (Hp & _).
  unfold stage_result.
  destruct (agent_outcome env s state) as [[v|v|v|v]|e];
    repeat split; try exact Hp; reflexivity.
Qed.

Lemma stage_result_messages (s : Stage) (state : AgentWorkflowState) :
  messages (stage_result env s state) = messages state ++ [stage_message env s state].
Proof.
  destruct (stage_default_frame s state) as (_ & _ & _ & _ & _ & Hm & _).
  unfold stage_result, stage_message.
  destruct (agent_outcome env s state) as [[v|v|v|v]|e]; simpl; now rewrite Hm.
Qed.

Lemma stage_result_error (s : Stage) (state : AgentWorkflowState) :
  error (stage_result env s state) =
  match stage_failure env s state with
  | Some m => Some m
  | None => error state
  end.
Proof.
  destruct (stage_default_frame s state) as (_ & _ & _ & _ & _ & _ & _ & He).
  unfold stage_result, stage_failure.
  destruct (agent_outcome env s state) as [[v|v|v|v]|e]; simpl;
    try exact He; reflexivity.
Qed.

Lemma stage_result_current_step (s : Stage) (state : AgentWorkflowState) :
  current_step (stage_result env s state) =
  match agent_outcome env s state with
  | Return _ => completion_label s
  | Raise _ => current_step state
  end.
Proof.
  destruct (stage_default_frame s state) as (_ & _ & _ & _ & _ & _ & Hc & _).
  unfold stage_result.
  destruct (agent_outcome env s state) as [[v|v|v|v]|e]; simpl;
    try exact Hc; reflexivity.
Qed.

(** The owned fields: a stage writes its own on success and no other. *)
Lemma stage_result_owned (s : Stage) (state : AgentWorkflowState) :
  (s <> Scout -> repositories (stage_result env s state) = repositories state) /\
  (s <> Preparation ->
   contribution_guide (stage_result env s state) = contribution_guide state) /\
  (s <> IssueMatcher -> issues (stage_result env s state) = issues state) /\
  (s <> Mentor -> mentoring_plan (stage_result env s state) = mentoring_plan state).
Proof.
  destruct (stage_default_frame s state) as (_ & Hr & Hi & Hg & Hm & _).
  pose proof (agent_outcome_kind s state) as Hk.
  unfold stage_result.
  destruct (agent_outcome env s state) as [v|e].
  - specialize (Hk v eq_refl).
    destruct s, v; try contradiction; repeat split; intros Hs;
      try congruence; simpl; assumption.
  - repeat split; intros _; simpl; assumption.
Qed.

Lemma stage_result_failed (s : Stage) (state : AgentWorkflowState) (e : string) :
  agent_outcome env s state = Raise e ->
  repositories (stage_result env s state) = repositories state /\
  contribution_guide (stage_result env s state) = contribution_guide state /\
  issues (stage_result env s state) = issues state /\
  mentoring_plan (stage_result env s state) = mentoring_plan state /\
  current_step (stage_result env s state) = current_step state.
Proof.
  intros He.
  destruct (stage_default_frame s state) as (_ & Hr & Hi & Hg & Hm & _ & Hc & _).
  unfold stage_result. rewrite He. simpl. repeat split; assumption.
Qed.

(** Writing a dict to the channels changes its [messages] only. *)
Lemma apply_writes_frame (channels update : AgentWorkflowState) :
  user_profile (apply_writes channels update) = user_profile update /\
  repositories (apply_writes channels update) = repositories update /\
  selected_repo_name (apply_writes channels update) = selected_repo_name update /\
  selected_repo_url (apply_writes channels update) = selected_repo_url update /\
  issues (apply_writes channels update) = issues update /\
  selected_issue_number (apply_writes channels update) =
    selected_issue_number update /\
  contribution_guide (apply_writes channels update) = contribution_guide update /\
  mentoring_plan (apply_writes channels update) = mentoring_plan update /\
  current_step (apply_writes channels update) = current_step update /\
  error (apply_writes channels update) = error update /\
  messages (apply_writes channels update) = messages channels ++ messages update.
Proof. repeat split; reflexivity. Qed.

Lemma write_input_id (input : AgentWorkflowState) : write_input input = input.
Proof. destruct input; reflexivity. Qed.

End Frames.

(** ** The stage transition contract on the nodes *)

(** C2, as amended.  When the agent call of a stage raises, the node returns
    its input state, after the stage's default selection if that fires
    (Preparation: [selected_repo_name] and [selected_repo_url] from the first
    repository; Mentor: [selected_issue_number] from the first issue), with
    [error] set to the stage's prefix followed by the fault description and
    with the one entry ["Error: " + fault] appended to [messages].  The owned
    fields, [current_step] and [user_profile] are those of the input; the
    selection fields are those of the input wherever the default selection
    does not fire. *)
Theorem failure_keeps_defaulted_state (env : Environment) (s : Stage)
    (state : AgentWorkflowState) (e : string) :
  agent_outcome env s state = Raise e ->
  exists evs ret,
    stage_node env s state = (Return (stage_default s state, ret), evs) /\
    ret = spec_on_failure s e (stage_default s state) /\
    error ret = Some (error_prefix s +++ e) /\
    messages ret = messages state ++ ["Error: " +++ e] /\
    current_step ret = current_step state /\
    user_profile ret = user_profile state /\
    repositories ret = repositories state /\
    contribution_guide ret = contribution_guide state /\
    issues ret = issues state /\
    mentoring_plan ret = mentoring_plan state /\
    selected_repo_name ret = selected_repo_name (stage_default s state) /\
    selected_repo_url ret = selected_repo_url (stage_default s state) /\
    selected_issue_number ret = selected_issue_number (stage_default s state).
Proof.
  intros He.
  exists (events (agent_call env s state)), (stage_result env s state).
  split; [apply node_total|].
  destruct (stage_result_failed env s state e He) as (Hr & Hg & Hi & Hp & Hc).
  destruct (stage_result_selection env s state) as (Hu & Hn & Hl & Hk).
  pose proof (stage_result_messages env s state) as Hm.
  pose proof (stage_result_error env s state) as Herr.
  unfold stage_message in Hm. unfold stage_failure in Herr.
  rewrite He in Hm, Herr.
  repeat split; try assumption.
  unfold stage_result. now rewrite He.
Qed.

Lemma failure_keeps_defaulted_state_witness :
  agent_outcome env_failing Preparation scouted_state = Raise "429 quota exceeded" /\
  exists evs ret,
    stage_node env_failing Preparation scouted_state =
      (Return (stage_default Preparation scouted_state, ret), evs) /\
    ret = spec_on_failure Preparation "429 quota exceeded"
            (stage_default Preparation scouted_state) /\
    error ret = Some (error_prefix Preparation +++ "429 quota exceeded") /\
    messages ret = messages scouted_state ++ ["Error: " +++ "429 quota exceeded"] /\
    current_step ret = current_step scouted_state /\
    user_profile ret = user_profile scouted_state /\
    repositories ret = repositories scouted_state /\
    contribution_guide ret = contribution_guide scouted_state /\
    issues ret = issues scouted_state /\
    mentoring_plan ret = mentoring_plan scouted_state /\
    selected_repo_name ret = selected_repo_name (stage_default Preparation scouted_state) /\
    selected_repo_url ret = selected_repo_url (stage_default Preparation scouted_state) /\
    selected_issue_number ret =
      selected_issue_number (stage_default Preparation scouted_state).
Proof.
  split; [reflexivity|].
  apply (failure_keeps_defaulted_state env_failing Preparation scouted_state
           "429 quota exceeded").
  reflexivity.
Defined.

(** C2 as stated fails: the Preparation node, given a state with a
    repository and no selection, makes its default selection before the
    agent call; when the call raises, the returned state carries the
    selection, so [selected_repo_name] and [selected_repo_url] differ from the
    input's. *)
Lemma failure_changes_selection :
  agent_outcome env_failing Preparation scouted_state = Raise "429 quota exceeded" /\
  exists ret,
    node_returns (prepare_onboarding_node env_failing scouted_state) = Some ret /\
    selected_repo_name scouted_state = None /\
    selected_repo_name ret = Some "octo/alpha" /\
    selected_repo_url scouted_state = None /\
    selected_repo_url ret = Some "https://github.com/octo/alpha" /\
    ret <> spec_on_failure Preparation "429 quota exceeded" scouted_state.
Proof.
  split; [reflexivity|].
  eexists. split; [reflexivity|].
  repeat split.
  intros H. apply (f_equal selected_repo_name) in H. discriminate H.
Qed.

(** C3, as amended.  When the agent call of a stage succeeds, the node
    returns its input state, after the stage's default selection if that
    fires, with the stage's owned field overwritten by what the agent handed
    back, one progress message appended, and [current_step] set to the stage's
    completion label.  [error] is the input's, null or not; so are
    [user_profile] and the owned fields of the other stages. *)
Theorem success_writes_owned_field (env : Environment) (s : Stage)
    (state : AgentWorkflowState) (v : Owned) :
  agent_outcome env s state = Return v ->
  exists evs ret,
    stage_node env s state = (Return (stage_default s state, ret), evs) /\
    ret = spec_on_success s v (stage_default s state) /\
    error ret = error state /\
    messages ret = messages state ++ [success_message v] /\
    current_step ret = completion_label s /\
    user_profile ret = user_profile state /\
    (s <> Scout -> repositories ret = repositories state) /\
    (s <> Preparation -> contribution_guide ret = contribution_guide state) /\
    (s <> IssueMatcher -> issues ret = issues state) /\
    (s <> Mentor -> mentoring_plan ret = mentoring_plan state) /\
    selected_repo_name ret = selected_repo_name (stage_default s state) /\
    selected_repo_url ret = selected_repo_url (stage_default s state) /\
    selected_issue_number ret = selected_issue_number (stage_default s state).
Proof.
  intros Hv.
  exists (events (agent_call env s state)), (stage_result env s state).
  split; [apply node_total|].
  destruct (stage_result_owned env s state) as (Hr & Hg & Hi & Hp).
  destruct (stage_result_selection env s state) as (Hu & Hn & Hl & Hk).
  pose proof (stage_result_messages env s state) as Hm.
  pose proof (stage_result_error env s state) as Herr.
  pose proof (stage_result_current_step env s state) as Hc.
  unfold stage_message in Hm. unfold stage_failure in Herr.
  rewrite Hv in Hm, Herr, Hc.
  repeat split; try assumption.
  unfold stage_result. now rewrite Hv.
Qed.

Lemma success_writes_owned_field_witness :
  agent_outcome env_ok Scout (initial_state sample_profile) =
    Return (OwnedRepositories [sample_repository]) /\
  exists evs ret,
    stage_node env_ok Scout (initial_state sample_profile) =
      (Return (stage_default Scout (initial_state sample_profile), ret), evs) /\
    ret = spec_on_success Scout (OwnedRepositories [sample_repository])
            (stage_default Scout (initial_state sample_profile)) /\
    error ret = error (initial_state sample_profile) /\
    messages ret =
      messages (initial_state sample_profile) ++
      [success_message (OwnedRepositories [sample_repository])] /\
    current_step ret = completion_label Scout /\
    user_profile ret = user_profile (initial_state sample_profile) /\
    (Scout <> Scout -> repositories ret = repositories (initial_state sample_profile)) /\
    (Scout <> Preparation ->
     contribution_guide ret = contribution_guide (initial_state sample_profile)) /\
    (Scout <> IssueMatcher -> issues ret = issues (initial_state sample_profile)) /\
    (Scout <> Mentor -> mentoring_plan ret = mentoring_plan (initial_state sample_profile)) /\
    selected_repo_name ret =
      selected_repo_name (stage_default Scout (initial_state sample_profile)) /\
    selected_repo_url ret =
      selected_repo_url (stage_default Scout (initial_state sample_profile)) /\
    selected_issue_number ret =
      selected_issue_number (stage_default Scout (initial_state sample_profile)).
Proof.
  split; [reflexivity|].
  apply (success_writes_owned_field env_ok Scout (initial_state sample_profile)
           (OwnedRepositories [sample_repository])).
  reflexivity.
Defined.

(** C3 as stated fails: on success the Preparation node overwrites more than
    the field it owns.  Given a state with a repository and no selection it
    returns [selected_repo_name] and [selected_repo_url] set from the first
    repository, next to [contribution_guide]. *)
Lemma success_changes_selection :
  exists guide ret,
    agent_outcome env_ok Preparation scouted_state = Return (OwnedGuide guide) /\
    node_returns (prepare_onboarding_node env_ok scouted_state) = Some ret /\
    selected_repo_name scouted_state = None /\
    selected_repo_name ret = Some "octo/alpha" /\
    selected_repo_url scouted_state = None /\
    selected_repo_url ret = Some "https://github.com/octo/alpha" /\
    ret <> spec_on_success Preparation (OwnedGuide guide) scouted_state.
Proof.
  eexists. eexists. split; [reflexivity|]. split; [reflexivity|].
  repeat split.
  intros H. apply (f_equal selected_repo_name) in H. discriminate H.
Qed.

(** C10.  A selection that is set but falsy is taken for unset.  With
    [selected_issue_number = 0] and a non-empty [issues], the Mentor node
    calls its agent with the first issue's number and returns that number as
    the selection; with [selected_repo_name = ""] and a non-empty
    [repositories], the Preparation node returns the first repository's name
    (and URL) as the selection.  Both hold whether the agent call succeeds or
    raises. *)
Theorem falsy_selection_is_overwritten (env : Environment)
    (mentor_state preparation_state : AgentWorkflowState)
    (first_issue : Issue.t) (other_issues : list Issue.t)
    (first_repo : RepositoryMatch.t) (other_repos : list RepositoryMatch.t) :
  selected_issue_number mentor_state = Some 0%Z ->
  issues mentor_state = first_issue :: other_issues ->
  selected_repo_name preparation_state = Some "" ->
  repositories preparation_state = first_repo :: other_repos ->
  (exists ret,
     node_returns (create_mentoring_plan_node env mentor_state) = Some ret /\
     selected_issue_number ret = Some (Issue.issue_number first_issue) /\
     events (create_mentoring_plan_node env mentor_state) =
       [MentorCall (user_profile mentor_state) (selected_repo_name mentor_state)
          (Some (Issue.issue_number first_issue))]) /\
  (exists ret,
     node_returns (prepare_onboarding_node env preparation_state) = Some ret /\
     selected_repo_name ret = Some (RepositoryMatch.repo_name first_repo) /\
     selected_repo_url ret = Some (RepositoryMatch.repo_url first_repo)).
Proof.
  intros Hnum Hissues Hname Hrepos. split.
  - exists (stage_result env Mentor mentor_state).
    pose proof (node_total env Mentor mentor_state) as Hnode.
    simpl stage_node in Hnode. unfold node_returns, events. rewrite Hnode.
    destruct (stage_result_selection env Mentor mentor_state) as (_ & _ & _ & Hk).
    split; [reflexivity|]. rewrite Hk. simpl.
    unfold agent_call, map_M, events, mentoring_agent. simpl.
    unfold default_issue. rewrite Hnum, Hissues. simpl.
    split; [reflexivity|].
    destruct mentor_state; simpl in *; reflexivity.
  - exists (stage_result env Preparation preparation_state).
    pose proof (node_total env Preparation preparation_state) as Hnode.
    simpl stage_node in Hnode. unfold node_returns. rewrite Hnode.
    destruct (stage_result_selection env Preparation preparation_state)
      as (_ & Hn & Hl & _).
    split; [reflexivity|]. rewrite Hn, Hl. simpl.
    unfold default_repository. rewrite Hname, Hrepos. simpl.
    split; reflexivity.
Qed.

Lemma falsy_selection_is_overwritten_witness :
  (exists ret,
     node_returns (create_mentoring_plan_node env_ok falsy_state) = Some ret /\
     selected_issue_number ret = Some (Issue.issue_number sample_issue) /\
     events (create_mentoring_plan_node env_ok falsy_state) =
       [MentorCall (user_profile falsy_state) (selected_repo_name falsy_state)
          (Some (Issue.issue_number sample_issue))]) /\
  (exists ret,
     node_returns (prepare_onboarding_node env_ok falsy_state) = Some ret /\
     selected_repo_name ret = Some (RepositoryMatch.repo_name sample_repository) /\
     selected_repo_url ret = Some (RepositoryMatch.repo_url sample_repository)).
Proof.
  apply (falsy_selection_is_overwritten env_ok falsy_state falsy_state
           sample_issue [] sample_repository []); reflexivity.
Defined.

(** ** Runs of a line of stages *)

Section Lines.

Variable env : Environment.

Lemma run_stages_cons (s : Stage) (rest : list Stage) (channels : AgentWorkflowState) :
  run_stages env (s :: rest) channels =
  (fst (run_stages env rest (transition env s channels)),
   NodeRun (stage_name s) :: events (agent_call env s channels) ++
   snd (run_stages env rest (transition env s channels))).
Proof.
  simpl. destruct (run_stages env rest (transition env s channels)); reflexivity.
Qed.

(** Every stage of the line runs, in the order of the line, whatever the
    stages before it did. *)
Lemma run_stages_all_run (l : list Stage) :
  forall channels, stages_run (snd (run_stages env l channels)) = map stage_name l.
Proof.
  induction l as [|s rest IH]; intros channels; [reflexivity|].
  rewrite run_stages_cons. cbn [snd stages_run map].
  now rewrite stages_run_app, agent_call_no_node, IH.
Qed.

Lemma transition_error (s : Stage) (channels : AgentWorkflowState) :
  error (transition env s channels) =
  match stage_failure env s channels with
  | Some m => Some m
  | None => error channels
  end.
Proof. unfold transition. cbn. apply stage_result_error. Qed.

Lemma run_stages_error (l : list Stage) :
  forall channels,
    error (fst (run_stages env l channels)) =
    latest (run_failures env l channels) (error channels).
Proof.
  induction l as [|s rest IH]; intros channels; [reflexivity|].
  rewrite run_stages_cons. cbn [fst run_failures].
  rewrite IH, transition_error. unfold latest. simpl.
  destruct (stage_failure env s channels); reflexivity.
Qed.

Lemma transition_messages (s : Stage) (channels : AgentWorkflowState) :
  messages (transition env s channels) =
  messages channels ++ (messages channels ++ [stage_message env s channels]).
Proof. unfold transition. cbn. now rewrite stage_result_messages. Qed.

(** The channel never loses an entry, and every stage of the line adds at
    least one. *)
Lemma run_stages_messages (l : list Stage) :
  forall channels,
    exists more,
      messages (fst (run_stages env l channels)) = messages channels ++ more /\
      (length l <= length more)%nat.
Proof.
  induction l as [|s rest IH]; intros channels.
  - exists []. simpl. now rewrite app_nil_r.
  - rewrite run_stages_cons. cbn [fst].
    destruct (IH (transition env s channels)) as (more & Hm & Hlen).
    rewrite transition_messages in Hm.
    exists ((messages channels ++ [stage_message env s channels]) ++ more).
    split.
    + now rewrite Hm, <- !app_assoc.
    + rewrite !length_app. simpl. lia.
Qed.

Lemma transition_owned (s : Stage) (channels : AgentWorkflowState) :
  (s <> Scout -> repositories (transition env s channels) = repositories channels) /\
  (s <> Preparation ->
   contribution_guide (transition env s channels) = contribution_guide channels) /\
  (s <> IssueMatcher -> issues (transition env s channels) = issues channels) /\
  (s <> Mentor -> mentoring_plan (transition env s channels) = mentoring_plan channels).
Proof. unfold transition. cbn. apply stage_result_owned. Qed.

Lemma transition_selection (s : Stage) (channels : AgentWorkflowState) :
  user_profile (transition env s channels) = user_profile channels /\
  selected_repo_name (transition env s channels) =
    selected_repo_name (stage_default s channels) /\
  selected_repo_url (transition env s channels) =
    selected_repo_url (stage_default s channels) /\
  selected_issue_number (transition env s channels) =
    selected_issue_number (stage_default s channels).
Proof. unfold transition. cbn. apply stage_result_selection. Qed.

(** A line without the Scout and the Preparation stage leaves
    [repositories], [contribution_guide] and the selected repository as they
    were. *)
Lemma run_stages_after_preparation (l : list Stage) :
  forall channels,
    ~ In Scout l -> ~ In Preparation l ->
    repositories (fst (run_stages env l channels)) = repositories channels /\
    contribution_guide (fst (run_stages env l channels)) = contribution_guide channels /\
    selected_repo_name (fst (run_stages env l channels)) = selected_repo_name channels /\
    selected_repo_url (fst (run_stages env l channels)) = selected_repo_url channels.
Proof.
  induction l as [|s rest IH]; intros channels Hs Hp; [repeat split|].
  rewrite run_stages_cons. cbn [fst].
  assert (s <> Scout) as Hs1 by (intros ->; apply Hs; now left).
  assert (s <> Preparation) as Hp1 by (intros ->; apply Hp; now left).
  destruct (IH (transition env s channels)) as (Hr & Hg & Hn & Hu).
  { intros H; apply Hs; now right. }
  { intros H; apply Hp; now right. }
  destruct (transition_owned s channels) as (Hr' & Hg' & _).
  destruct (transition_selection s channels) as (_ & Hn' & Hu' & _).
  rewrite Hr, Hg, Hn, Hu, Hr', Hg', Hn', Hu' by assumption.
  pose proof (stage_default_selection s channels) as Hd.
  destruct s; try congruence.
  - rewrite Hd. repeat split.
  - destruct Hd as (-> & ->). repeat split.
Qed.

End Lines.

(** ** The partial run *)

(** C8, as amended.  The partial-run entry has a branch for three start
    nodes: ["prepare_onboarding"], ["match_issues"] and
    ["create_mentoring_plan"].  From each of them it runs that stage and every
    stage after it, one transition each, and returns the state the last one
    leaves.  For any other name, ["scout_repositories"] among them, it builds
    the empty graph: no stage runs and no agent is called.  The method does
    not look at the name beyond its three branches, so what the caller gets
    then is up to the installed LangGraph: the error [compile] raises for a
    graph without an entry point, or, where the release compiles that graph,
    the supplied state handed back and no error.  In every case the supplied
    state is left as it was. *)
Theorem partial_run_entry_points (env : Environment) (start_node : string)
    (state : AgentWorkflowState) :
  fst (run_partial_workflow env start_node state) = state /\
  accepted_start start_node =
    (String.eqb start_node "prepare_onboarding"
     || String.eqb start_node "match_issues"
     || String.eqb start_node "create_mentoring_plan")%bool /\
  if accepted_start start_node then
    exists final evs,
      snd (run_partial_workflow env start_node state) = (Return final, evs) /\
      (final, evs) = run_stages env (stages_from start_node) state /\
      stages_run evs = map stage_name (stages_from start_node)
  else
    snd (run_partial_workflow env start_node state) =
      match entrypoint_error env with
      | Some message => (Raise message, [])
      | None => (Return state, [])
      end.
Proof.
  split; [reflexivity|]. split.
  - unfold accepted_start, stages_from.
    destruct (String.eqb start_node "prepare_onboarding"); [reflexivity|].
    destruct (String.eqb start_node "match_issues"); [reflexivity|].
    destruct (String.eqb start_node "create_mentoring_plan"); reflexivity.
  - destruct (accepted_start start_node) eqn:Hacc.
    + rewrite (run_partial_is_run_stages env start_node state Hacc).
      rewrite write_input_id.
      eexists. eexists. split; [reflexivity|].
      split; [now destruct (run_stages env (stages_from start_node) state)|].
      apply run_stages_all_run.
    + now rewrite (run_partial_refused env start_node state Hacc).
Qed.

(** C8 as stated fails on both counts.  ["scout_repositories"], the first of
    the four stage names, is not a valid entry point of the partial run: no
    stage runs from it.  And where the installed LangGraph compiles a graph
    without an entry point, the caller is told of no error: the supplied
    state comes back. *)
Lemma partial_run_refuses_scout :
  stage_name Scout = "scout_repositories" /\
  run_partial_workflow env_ok "scout_repositories" (initial_state sample_profile) =
    (initial_state sample_profile, (Raise "Graph must have an entrypoint", [])) /\
  run_partial_workflow env_unchecked "scout_repositories" (initial_state sample_profile) =
    (initial_state sample_profile, (Return (initial_state sample_profile), [])) /\
  run_partial_workflow env_unchecked "no_such_stage" (initial_state sample_profile) =
    (initial_state sample_profile, (Return (initial_state sample_profile), [])).
Proof. repeat split. Qed.

(** ** Default selection *)

(** C7.  Given a state with a repository and no selected repository, the
    Preparation node returns the first repository's name and URL as the
    selection, and the two stages that follow in the run, Issue-Matcher and
    Mentor, keep both; the selected issue is untouched until the Mentor stage,
    and the run ends with the selection the Mentor stage's default made. *)
Theorem default_selection_persists (env : Environment) (state : AgentWorkflowState)
    (first : RepositoryMatch.t) (others : list RepositoryMatch.t) :
  repositories state = first :: others ->
  selected_repo_name state = None ->
  let name := Some (RepositoryMatch.repo_name first) in
  let url := Some (RepositoryMatch.repo_url first) in
  let after_preparation := transition env Preparation state in
  let after_matcher := transition env IssueMatcher after_preparation in
  let after_mentor := transition env Mentor after_matcher in
  (exists ret,
     node_returns (prepare_onboarding_node env state) = Some ret /\
     selected_repo_name ret = name /\ selected_repo_url ret = url) /\
  (selected_repo_name after_preparation = name /\ selected_repo_url after_preparation = url) /\
  (selected_repo_name after_matcher = name /\ selected_repo_url after_matcher = url) /\
  (selected_repo_name after_mentor = name /\ selected_repo_url after_mentor = url) /\
  selected_issue_number after_preparation = selected_issue_number state /\
  selected_issue_number after_matcher = selected_issue_number state /\
  selected_issue_number after_mentor = selected_issue_number (default_issue after_matcher) /\
  outcome (snd (run_partial_workflow env "prepare_onboarding" state)) = Return after_mentor.
Proof.
  intros Hrepos Hname name url after_preparation after_matcher after_mentor.
  assert (selected_repo_name (default_repository state) = name /\
          selected_repo_url (default_repository state) = url) as (Hn & Hu).
  { unfold default_repository. rewrite Hname, Hrepos. split; reflexivity. }
  destruct (stage_result_selection env Preparation state) as (_ & Hn0 & Hu0 & _).
  destruct (transition_selection env Preparation state) as (_ & Hn1 & Hu1 & Hk1).
  destruct (transition_selection env IssueMatcher after_preparation)
    as (_ & Hn2 & Hu2 & Hk2).
  destruct (transition_selection env Mentor after_matcher) as (_ & Hn3 & Hu3 & Hk3).
  pose proof (stage_default_selection Preparation state) as Hd1.
  destruct (stage_default_selection Mentor after_matcher) as (Hd3n & Hd3u).
  simpl stage_default in *.
  fold after_preparation in Hn1, Hu1, Hk1.
  fold after_matcher in Hn2, Hu2, Hk2.
  fold after_mentor in Hn3, Hu3, Hk3.
  split.
  { exists (stage_result env Preparation state).
    pose proof (node_total env Preparation state) as Hnode.
    simpl stage_node in Hnode. unfold node_returns. rewrite Hnode.
    split; [reflexivity|]. split; congruence. }
  split; [split; congruence|].
  split; [split; congruence|].
  split; [split; congruence|].
  split; [congruence|]. split; [congruence|]. split; [exact Hk3|].
  rewrite (run_partial_is_run_stages env "prepare_onboarding" state) by reflexivity.
  rewrite write_input_id. reflexivity.
Qed.

Lemma default_selection_persists_witness :
  let name := Some (RepositoryMatch.repo_name sample_repository) in
  let url := Some (RepositoryMatch.repo_url sample_repository) in
  let after_preparation := transition env_ok Preparation scouted_state in
  let after_matcher := transition env_ok IssueMatcher after_preparation in
  let after_mentor := transition env_ok Mentor after_matcher in
  (exists ret,
     node_returns (prepare_onboarding_node env_ok scouted_state) = Some ret /\
     selected_repo_name ret = name /\ selected_repo_url ret = url) /\
  (selected_repo_name after_preparation = name /\ selected_repo_url after_preparation = url) /\
  (selected_repo_name after_matcher = name /\ selected_repo_url after_matcher = url) /\
  (selected_repo_name after_mentor = name /\ selected_repo_url after_mentor = url) /\
  selected_issue_number after_preparation = selected_issue_number scouted_state /\
  selected_issue_number after_matcher = selected_issue_number scouted_state /\
  selected_issue_number after_mentor = selected_issue_number (default_issue after_matcher) /\
  outcome (snd (run_partial_workflow env_ok "prepare_onboarding" scouted_state)) =
    Return after_mentor.
Proof.
  apply (default_selection_persists env_ok scouted_state sample_repository []);
    reflexivity.
Defined.

(** ** The preparation stage without a repository *)

(** C6, as amended.  In a state with no repository and no selected
    repository the Preparation node does record a failure: it returns the
    input state with [error] set and one message appended, and nothing else
    changed.  There is no precondition check, though: the agent is called
    with the null repository name, makes its three GitHub calls with it and,
    whenever the state holds a user profile, sends one prompt to the
    generative model; the failure comes after that call. *)
Theorem preparation_without_repository (env : Environment)
    (state : AgentWorkflowState) :
  repositories state = [] ->
  selected_repo_name state = None ->
  exists e evs,
    prepare_onboarding_node env state =
      (Return (state, spec_on_failure Preparation e state), evs) /\
    evs =
      [GitHubCall "get_readme" None;
       GitHubCall "get_contributing_guide" None;
       GitHubCall "get_repository_info" None] ++
      match user_profile state with
      | Some p =>
          [GenerateContent
             (guide_prompt env p None
                (match github_readme env None with
                 | Return text => Some text | Raise _ => None end)
                (match github_contributing env None with
                 | Return text => Some text | Raise _ => None end)
                (match github_repository_info env None with
                 | Return info => info | Raise _ => [] end))]
      | None => []
      end /\
    length (generate_calls evs) =
      match user_profile state with
      | Some _ => 1%nat
      | None => 0%nat
      end.
Proof.
  intros Hrepos Hname.
  assert (default_repository state = state) as Hdef.
  { unfold default_repository. now rewrite Hname, Hrepos. }
  destruct (prepare_onboarding_guide_None env (user_profile state)) as (e & He).
  pose proof (node_total env Preparation state) as Hnode.
  unfold stage_result, agent_outcome, agent_call, outcome, events, map_M in Hnode.
  simpl stage_default in Hnode. simpl stage_node in Hnode. cbv zeta in Hnode.
  rewrite Hdef, Hname in Hnode. cbn [fst snd] in Hnode.
  unfold outcome in He. rewrite He in Hnode.
  exists e, (events (prepare_onboarding_guide env (user_profile state) None)).
  split; [exact Hnode|].
  rewrite prepare_onboarding_guide_events.
  split; [reflexivity|].
  destruct (user_profile state); reflexivity.
Qed.

Lemma preparation_without_repository_witness :
  exists e evs,
    prepare_onboarding_node env_empty (initial_state sample_profile) =
      (Return (initial_state sample_profile,
               spec_on_failure Preparation e (initial_state sample_profile)), evs) /\
    evs =
      [GitHubCall "get_readme" None;
       GitHubCall "get_contributing_guide" None;
       GitHubCall "get_repository_info" None] ++
      match user_profile (initial_state sample_profile) with
      | Some p =>
          [GenerateContent
             (guide_prompt env_empty p None
                (match github_readme env_empty None with
                 | Return text => Some text | Raise _ => None end)
                (match github_contributing env_empty None with
                 | Return text => Some text | Raise _ => None end)
                (match github_repository_info env_empty None with
                 | Return info => info | Raise _ => [] end))]
      | None => []
      end /\
    length (generate_calls evs) =
      match user_profile (initial_state sample_profile) with
      | Some _ => 1%nat
      | None => 0%nat
      end.
Proof.
  apply (preparation_without_repository env_empty (initial_state sample_profile));
    reflexivity.
Defined.

(** C6 as stated fails: with no repository and no selected repository, the
    Preparation node does send a prompt to the generative model, written for
    the repository name [None]. *)
Lemma preparation_invokes_model_without_repository :
  repositories (initial_state sample_profile) = [] /\
  selected_repo_name (initial_state sample_profile) = None /\
  events (prepare_onboarding_node env_empty (initial_state sample_profile)) =
    [GitHubCall "get_readme" None;
     GitHubCall "get_contributing_guide" None;
     GitHubCall "get_repository_info" None;
     GenerateContent "You are creating a personalized onboarding guide"] /\
  generate_calls
    (events (prepare_onboarding_node env_empty (initial_state sample_profile))) <> [].
Proof.
  repeat split. discriminate.
Qed.

(** ** The error field over a run *)

(** C4.  A stage that succeeds returns the [error] it was given and a stage
    that fails returns its own message, so no stage clears an error.  A full
    run executes its four stages whatever they record, and ends with the
    message of the last stage that failed, or with no error if none did. *)
Theorem error_is_sticky (env : Environment) (user_profile : UserProfile.t) :
  (forall s state,
     exists ret,
       node_returns (stage_node env s state) = Some ret /\
       error ret =
         match stage_failure env s state with
         | Some m => Some m
         | None => error state
         end) /\
  exists final evs,
    run env user_profile = (Return final, evs) /\
    stages_run evs =
      ["scout_repositories"; "prepare_onboarding"; "match_issues";
       "create_mentoring_plan"] /\
    error final =
      latest (run_failures env all_stages (initial_state user_profile)) None.
Proof.
  split.
  - intros s state. exists (stage_result env s state).
    unfold node_returns. rewrite node_total. split; [reflexivity|].
    apply stage_result_error.
  - eexists. eexists. split; [apply run_is_run_stages|].
    split; [apply (run_stages_all_run env all_stages)|].
    rewrite run_stages_error, write_input_id. reflexivity.
Qed.

(** ** The messages over a run *)

(** C5, as amended.  Every node returns the [messages] it was given with
    exactly one entry appended, whether its agent call succeeds or raises, and
    a step of the run never takes an entry away from the [messages] of the
    run.  A full run starts from the one entry
    ["Starting CodePathfinder workflow"], so it ends with that entry followed
    by at least one entry per stage attempt: more than four entries. *)
Theorem messages_grow (env : Environment) (user_profile : UserProfile.t) :
  (forall s state,
     exists ret,
       node_returns (stage_node env s state) = Some ret /\
       messages ret = messages state ++ [stage_message env s state]) /\
  (forall s channels,
     exists more,
       messages (transition env s channels) = messages channels ++ more /\
       (1 <= length more)%nat) /\
  exists final evs more,
    run env user_profile = (Return final, evs) /\
    messages final = "Starting CodePathfinder workflow" :: more /\
    (4 <= length more)%nat.
Proof.
  split; [|split].
  - intros s state. exists (stage_result env s state).
    unfold node_returns. rewrite node_total. split; [reflexivity|].
    apply stage_result_messages.
  - intros s channels. rewrite transition_messages.
    eexists. split; [reflexivity|]. rewrite length_app. simpl. lia.
  - destruct (run_stages_messages env all_stages (write_input (initial_state user_profile)))
      as (more & Hm & Hlen).
    eexists. eexists. exists more.
    split; [apply run_is_run_stages|]. split; [exact Hm|exact Hlen].
Qed.

(** C5 as stated fails: the full run, with every agent answering, makes its
    four stage attempts and ends with more than four messages. *)
Lemma full_run_messages_exceed_attempts :
  exists final evs,
    run env_ok sample_profile = (Return final, evs) /\
    length (stages_run evs) = 4%nat /\
    length (messages final) <> 4%nat /\
    (4 < length (messages final))%nat.
Proof.
  eexists. eexists. split; [vm_compute; reflexivity|].
  split; [reflexivity|]. split; [discriminate|].
  vm_compute. repeat constructor.
Qed.

(** ** The full run against the contract *)

Section FullRun.

Variable env : Environment.

Lemma with_messages_restore (state : AgentWorkflowState) :
  with_messages (messages state) (without_messages state) = state.
Proof. destruct state; reflexivity. Qed.

Lemma without_messages_with (m : list string) (state : AgentWorkflowState) :
  without_messages (with_messages m state) = without_messages state.
Proof. reflexivity. Qed.

Lemma stage_default_with_messages (s : Stage) (m : list string)
    (state : AgentWorkflowState) :
  stage_default s (with_messages m state) = with_messages m (stage_default s state).
Proof.
  destruct state; destruct s; unfold stage_default, default_repository, default_issue;
    simpl; split_cases; reflexivity.
Qed.

(** No agent is handed the messages: its call is the same whatever they are. *)
Lemma agent_call_with_messages (s : Stage) (m : list string)
    (state : AgentWorkflowState) :
  agent_call env s (with_messages m state) = agent_call env s state.
Proof.
  unfold agent_call. cbv zeta. rewrite stage_default_with_messages.
  destruct s; reflexivity.
Qed.

Lemma stage_result_with_messages (s : Stage) (m : list string)
    (state : AgentWorkflowState) :
  without_messages (stage_result env s (with_messages m state)) =
  without_messages (stage_result env s state).
Proof.
  unfold stage_result, agent_outcome.
  rewrite agent_call_with_messages, stage_default_with_messages.
  destruct (outcome (agent_call env s state)) as [[v|v|v|v]|e]; reflexivity.
Qed.

Lemma stage_result_without_messages (s : Stage) (a b : AgentWorkflowState) :
  without_messages a = without_messages b ->
  without_messages (stage_result env s a) = without_messages (stage_result env s b).
Proof.
  intros Hab.
  rewrite <- (with_messages_restore a), <- (with_messages_restore b).
  rewrite !stage_result_with_messages. now rewrite Hab.
Qed.

Lemma transition_without_messages (s : Stage) (channels : AgentWorkflowState) :
  without_messages (transition env s channels) =
  without_messages (stage_result env s channels).
Proof. reflexivity. Qed.

(** On every field but [messages], the run is the four nodes one after the
    other, each on what the one before returned, and its result is what the
    last one returned. *)
Lemma run_follows_contract_but_messages (p : UserProfile.t) :
  exists final evs,
    run env p = (Return final, evs) /\
    stages_run evs = map stage_name all_stages /\
    without_messages final = without_messages (spec_run env p).
Proof.
  eexists. eexists. split; [apply run_is_run_stages|].
  split; [apply (run_stages_all_run env all_stages)|].
  rewrite write_input_id. unfold all_stages, spec_run.
  rewrite !run_stages_cons. cbn [run_stages fst].
  rewrite transition_without_messages.
  apply stage_result_without_messages. rewrite transition_without_messages.
  apply stage_result_without_messages. rewrite transition_without_messages.
  apply stage_result_without_messages. apply transition_without_messages.
Qed.

End FullRun.

(** ** The partial run from ["match_issues"] *)

(** C9.  Started at ["match_issues"], the partial workflow executes two stage
    transitions and no other: the Issue-Matcher node is called once, on the
    supplied state, and what it returns is written to the channels; the Mentor
    node is called once, on those channels, and what it returns is written in
    turn and is the state the run returns.  The events of the run are those of
    the two calls, in that order.  Apart from [messages], where the channel
    adds what a node returns to what it holds, the returned state is the
    Mentor transition of the Issue-Matcher transition of the supplied state.
    Its [repositories] and [contribution_guide] are those of the supplied
    state, which the call leaves as it is. *)
Theorem partial_run_from_match_issues (env : Environment) (state : AgentWorkflowState) :
  exists matched planned final evs,
    node_returns (match_issues_node env state) = Some matched /\
    node_returns (create_mentoring_plan_node env (apply_writes state matched)) =
      Some planned /\
    final = apply_writes (apply_writes state matched) planned /\
    run_partial_workflow env "match_issues" state = (state, (Return final, evs)) /\
    evs =
      NodeRun "match_issues" :: events (match_issues_node env state) ++
      NodeRun "create_mentoring_plan" ::
      events (create_mentoring_plan_node env (apply_writes state matched)) /\
    stages_run evs = ["match_issues"; "create_mentoring_plan"] /\
    without_messages final =
      without_messages (stage_result env Mentor (stage_result env IssueMatcher state)) /\
    repositories final = repositories state /\
    contribution_guide final = contribution_guide state.
Proof.
  pose proof (node_total env IssueMatcher state) as Hmatch.
  pose proof (node_total env Mentor (transition env IssueMatcher state)) as Hplan.
  cbn [stage_node] in Hmatch, Hplan.
  exists (stage_result env IssueMatcher state),
         (stage_result env Mentor (transition env IssueMatcher state)),
         (transition env Mentor (transition env IssueMatcher state)),
         (snd (run_stages env [IssueMatcher; Mentor] state)).
  split; [now rewrite Hmatch|].
  fold (transition env IssueMatcher state).
  split; [now rewrite Hplan|].
  split; [reflexivity|].
  split.
  { rewrite (run_partial_is_run_stages env "match_issues" state) by reflexivity.
    rewrite write_input_id.
    change (stages_from "match_issues") with [IssueMatcher; Mentor].
    rewrite !run_stages_cons. reflexivity. }
  split.
  { rewrite !run_stages_cons. cbn [run_stages snd stage_name].
    rewrite Hmatch, Hplan. unfold events at 3 4. cbn [snd].
    now rewrite app_nil_r. }
  split; [apply (run_stages_all_run env [IssueMatcher; Mentor])|].
  split.
  { rewrite transition_without_messages.
    apply stage_result_without_messages. apply transition_without_messages. }
  destruct (transition_owned env IssueMatcher state) as (R1 & G1 & _).
  destruct (transition_owned env Mentor (transition env IssueMatcher state))
    as (R2 & G2 & _).
  rewrite R2, G2, R1, G1 by discriminate. split; reflexivity.
Qed.

(** C1, on the run with every agent answering.  The run starts from the
    initial state the claim describes and runs the four stages in order, but
    the state a stage is given is not the state the stage before returned:
    the graph adds the [messages] a node returns to the [messages] it holds,
    and the node has already copied those.  The Scout node returns two
    messages and the Preparation node is given three; the Mentor node returns
    sixteen messages and the run returns thirty-one.  On the ten other fields
    the run is as the claim says. *)
Theorem full_run_messages_diverge :
  initial_state sample_profile =
    mkState (Some sample_profile) [] None None [] None None None
      ["Starting CodePathfinder workflow"] "initializing" None /\
  exists final evs,
    run env_ok sample_profile = (Return final, evs) /\
    stages_run evs =
      ["scout_repositories"; "prepare_onboarding"; "match_issues";
       "create_mentoring_plan"] /\
    messages (stage_result env_ok Scout (initial_state sample_profile)) =
      ["Starting CodePathfinder workflow"; "Found 1 suitable repositories"] /\
    messages (transition env_ok Scout (initial_state sample_profile)) =
      ["Starting CodePathfinder workflow"; "Starting CodePathfinder workflow";
       "Found 1 suitable repositories"] /\
    messages (spec_run env_ok sample_profile) =
      ["Starting CodePathfinder workflow"; "Found 1 suitable repositories";
       "Prepared onboarding guide"; "Found 1 suitable issues";
       "Created mentoring plan"] /\
    length (messages final) = 31%nat /\
    without_messages final = without_messages (spec_run env_ok sample_profile) /\
    final <> spec_run env_ok sample_profile.
Proof.
  split; [reflexivity|].
  eexists. eexists. split; [vm_compute; reflexivity|].
  repeat (split; [vm_compute; reflexivity|]).
  intros H. apply (f_equal (fun s => length (messages s))) in H.
  vm_compute in H. discriminate H.
Qed.

(** The scout finds a repository, the guide generation fails, the issues are
    matched and the mentor fails: the four stages all run, the run ends with
    the mentor's message in [error], and [current_step] names the last stage
    that succeeded. *)
Example run_with_two_failures :
  exists final evs,
    run env_failing sample_profile = (Return final, evs) /\
    stages_run evs =
      ["scout_repositories"; "prepare_onboarding"; "match_issues";
       "create_mentoring_plan"] /\
    run_failures env_failing all_stages (initial_state sample_profile) =
      [None; Some "Error preparing guide: 429 quota exceeded"; None;
       Some "Error creating plan: Issue #7 not found in octo/alpha"] /\
    error final = Some "Error creating plan: Issue #7 not found in octo/alpha" /\
    current_step final = "issues_matched" /\
    selected_repo_name final = Some "octo/alpha" /\
    contribution_guide final = None /\
    mentoring_plan final = None.
Proof.
  eexists. eexists. split; [vm_compute; reflexivity|].
  repeat split; vm_compute; reflexivity.
Qed.

(** The scout finds nothing: the run still makes its four attempts, the
    preparation agent is called for the repository [None] and the model is
    sent a prompt, and the run ends without guide, issues or plan. *)
Example run_without_candidates :
  exists final evs,
    run env_empty sample_profile = (Return final, evs) /\
    stages_run evs =
      ["scout_repositories"; "prepare_onboarding"; "match_issues";
       "create_mentoring_plan"] /\
    generate_calls evs = ["You are creating a personalized onboarding guide"] /\
    repositories final = [] /\
    contribution_guide final = None /\
    issues final = [] /\
    mentoring_plan final = None /\
    run_failures env_empty all_stages (initial_state sample_profile) =
      [None; Some "Error preparing guide: 1 validation error for ContributionGuide";
       None; Some "Error creating plan: Issue #None not found in None"].
Proof.
  eexists. eexists. split; [vm_compute; reflexivity|].
  repeat split; vm_compute; reflexivity.
Qed.

(** * Further properties of the workflow *)

Section WorkflowObject.

Variable env : Environment.

(** The constructor returns, and the graph of the object it returns runs the
    four stages in a line. *)
Lemma init_returns :
  exists self,
    __init__ env = ret self /\
    forall p,
      run_full_workflow self p =
      (Return (fst (run_stages env all_stages (initial_state p))),
       snd (run_stages env all_stages (initial_state p))).
Proof.
  eexists. split.
  - unfold __init__, _build_workflow. cbv zeta.
    rewrite (compile_checked _ _ "scout_repositories") by reflexivity.
    rewrite bind_ret. reflexivity.
  - intros p. unfold run_full_workflow, ainvoke. cbn [workflow graph entry].
    rewrite write_input_id.
    apply run_nodes_in_line; [|unfold recursion_limit; simpl; lia].
    simpl. repeat (split; [reflexivity|]).
    eexists; split; [reflexivity|]. repeat (split; [reflexivity|]).
    eexists; split; [reflexivity|]. repeat (split; [reflexivity|]).
    eexists; split; [reflexivity|]. repeat (split; [reflexivity|]).
    eexists; split; [reflexivity|]. reflexivity.
Qed.

Lemma latest_None (attempts : list (option string)) :
  latest attempts None = None <-> existsb is_some attempts = false.
Proof.
  unfold latest.
  assert (forall l init,
            fold_left (fun acc attempt => match attempt with
                                          | Some m => Some m
                                          | None => acc
                                          end) l init = None <->
            (init = None /\ existsb (@is_some string) l = false)) as H.
  { induction l as [|a l IH]; intros init; simpl.
    - split; [intros ->; now split|now intros (-> & _)].
    - rewrite IH. destruct a; simpl; split.
      + intros (H & _). discriminate H.
      + intros (_ & H). discriminate H.
      + intros (-> & H). now split.
      + intros (-> & H). now split. }
  rewrite H. split; [now intros (_ & ?)|now split].
Qed.

Lemma stage_failure_truthy (s : Stage) (state : AgentWorkflowState) (m : string) :
  stage_failure env s state = Some m -> truthy_str (Some m) = true.
Proof.
  unfold stage_failure. destruct (agent_outcome env s state); [discriminate|].
  intros H. injection H as <-. destruct s; reflexivity.
Qed.

Lemma run_failures_truthy (l : list Stage) :
  forall channels m,
    In (Some m) (run_failures env l channels) -> truthy_str (Some m) = true.
Proof.
  induction l as [|s rest IH]; intros channels m; simpl; [contradiction|].
  intros [H|H]; [now apply (stage_failure_truthy s channels)|now apply (IH _ _ H)].
Qed.

Lemma latest_In (attempts : list (option string)) (m : string) :
  latest attempts None = Some m -> In (Some m) attempts.
Proof.
  unfold latest.
  assert (forall l init,
            fold_left (fun acc attempt => match attempt with
                                          | Some m => Some m
                                          | None => acc
                                          end) l init = Some m ->
            init = Some m \/ In (Some m) l) as H.
  { induction l as [|a l IH]; intros init Hf; simpl in *; [now left|].
    destruct (IH _ Hf) as [H|H]; [|now right; right].
    destruct a; [right; left; exact H|now left]. }
  intros Hf. destruct (H _ _ Hf) as [Hn|Hi]; [discriminate Hn|exact Hi].
Qed.

Lemma transition_current_step (s : Stage) (channels : AgentWorkflowState) :
  current_step (transition env s channels) =
  match stage_success env s channels with
  | Some label => label
  | None => current_step channels
  end.
Proof.
  unfold transition. cbn. rewrite stage_result_current_step.
  unfold stage_success. destruct (agent_outcome env s channels); reflexivity.
Qed.

Lemma run_stages_current_step (l : list Stage) :
  forall channels,
    current_step (fst (run_stages env l channels)) =
    match latest (run_successes env l channels) None with
    | Some label => label
    | None => current_step channels
    end.
Proof.
  induction l as [|s rest IH]; intros channels; [reflexivity|].
  rewrite run_stages_cons. cbn [fst run_successes].
  rewrite IH, transition_current_step. unfold latest. simpl.
  destruct (stage_success env s channels) as [label|]; [|reflexivity].
  generalize (run_successes env rest (transition env s channels)).
  intros l. clear IH.
  assert (forall init,
            match fold_left (fun acc attempt => match attempt with
                                                | Some m => Some m
                                                | None => acc
                                                end) l init with
            | Some x => Some x
            | None => Some label
            end =
            fold_left (fun acc attempt => match attempt with
                                          | Some m => Some m
                                          | None => acc
                                          end) l
                      (match init with Some x => Some x | None => Some label end)) as H.
  { induction l as [|a l IHl]; intros init; simpl; [destruct init; reflexivity|].
    rewrite IHl. destruct a, init; reflexivity. }
  specialize (H None). simpl in H. rewrite <- H.
  destruct (fold_left _ l None); reflexivity.
Qed.

(** The length of the log: a step takes [n] messages to [2n + 1]. *)
Lemma run_stages_messages_length (l : list Stage) :
  forall channels,
    (length (messages (fst (run_stages env l channels))) + 1 =
     2 ^ length l * (length (messages channels) + 1))%nat.
Proof.
  induction l as [|s rest IH]; intros channels.
  - simpl. lia.
  - rewrite run_stages_cons. cbn [fst]. rewrite IH, transition_messages.
    rewrite !length_app. cbn [length]. rewrite Nat.pow_succ_r'. lia.
Qed.

End WorkflowObject.

(** X1.  The route [POST /workflow/full] never answers [500] on account of
    the workflow: the run always returns.  Its [status] is ["error"] exactly
    when at least one stage failed, and its [error] is then the message of the
    last stage that failed; otherwise the status is ["completed"] and the
    error null. *)
Theorem route_status_reports_failures (env : Environment) :
  exists self,
    __init__ env = ret self /\
    forall profile,
      exists response evs,
        route_run_full_workflow self profile = (Return (Answer response), evs) /\
        stages_run evs = map stage_name all_stages /\
        WorkflowResponse.error response =
          latest (run_failures env all_stages (initial_state profile)) None /\
        WorkflowResponse.status response =
          (if existsb is_some (run_failures env all_stages (initial_state profile))
           then "error" else "completed").
Proof.
  destruct (init_returns env) as (self & Hinit & Hrun).
  exists self. split; [exact Hinit|]. intros profile.
  exists (workflow_response (fst (run_stages env all_stages (initial_state profile)))),
         (snd (run_stages env all_stages (initial_state profile))).
  unfold route_run_full_workflow. rewrite Hrun.
  split.
  { unfold try_except, bind, ret, after. simpl. now rewrite app_nil_r. }
  split; [apply (run_stages_all_run env all_stages)|].
  unfold workflow_response. cbn [WorkflowResponse.error WorkflowResponse.status].
  rewrite run_stages_error. cbn [error initial_state].
  split; [reflexivity|].
  destruct (latest (run_failures env all_stages (initial_state profile)) None)
    as [m|] eqn:Hl.
  - rewrite (run_failures_truthy env all_stages _ m (latest_In _ m Hl)). cbn [negb].
    destruct (existsb is_some (run_failures env all_stages (initial_state profile)))
      eqn:He; [reflexivity|].
    apply latest_None in He. congruence.
  - apply latest_None in Hl. now rewrite Hl.
Qed.

(** X2.  After a full run [current_step] is the completion label of the last
    stage whose agent call succeeded, and ["initializing"] if none did: a
    later stage that fails does not move it. *)
Theorem current_step_names_last_success (env : Environment) (profile : UserProfile.t) :
  exists final evs,
    run env profile = (Return final, evs) /\
    current_step final =
      match latest (run_successes env all_stages (initial_state profile)) None with
      | Some label => label
      | None => "initializing"
      end.
Proof.
  eexists. eexists. split; [apply run_is_run_stages|].
  rewrite run_stages_current_step, write_input_id. reflexivity.
Qed.

(** X3.  The log of a run doubles at every stage.  A full run ends with 31
    messages whatever the agents do, and a partial run from an accepted start
    node, given [m] messages, ends with [2^k (m + 1) - 1] of them, [k] being
    the number of stages it runs. *)
Theorem log_length_doubles (env : Environment) (profile : UserProfile.t)
    (start_node : string) (state : AgentWorkflowState) :
  accepted_start start_node = true ->
  (exists final evs,
     run env profile = (Return final, evs) /\
     length (messages final) = 31%nat) /\
  (exists final evs,
     snd (run_partial_workflow env start_node state) = (Return final, evs) /\
     (length (messages final) + 1 =
      2 ^ length (stages_from start_node) * (length (messages state) + 1))%nat).
Proof.
  intros Hacc. split.
  - eexists. eexists. split; [apply run_is_run_stages|].
    pose proof (run_stages_messages_length env all_stages
                  (write_input (initial_state profile))) as H.
    rewrite write_input_id in H.
    change (2 ^ length all_stages)%nat with 16%nat in H.
    change (length (messages (initial_state profile))) with 1%nat in H.
    rewrite write_input_id. lia.
  - rewrite (run_partial_is_run_stages env start_node state Hacc). cbn [snd].
    eexists. eexists. split; [reflexivity|].
    rewrite run_stages_messages_length, write_input_id. reflexivity.
Qed.

Lemma log_length_doubles_witness :
  (exists final evs,
     run env_ok sample_profile = (Return final, evs) /\
     length (messages final) = 31%nat) /\
  (exists final evs,
     snd (run_partial_workflow env_ok "match_issues" scouted_state) = (Return final, evs) /\
     (length (messages final) + 1 =
      2 ^ length (stages_from "match_issues") * (length (messages scouted_state) + 1))%nat).
Proof.
  apply (log_length_doubles env_ok sample_profile "match_issues" scouted_state).
  reflexivity.
Defined.

Lemma issue_matcher_call_events (env : Environment) (state : AgentWorkflowState) :
  events (agent_call env IssueMatcher state) =
  [IssueMatcherCall (user_profile state) (selected_repo_name state)].
Proof. reflexivity. Qed.

Lemma mentor_call_events (env : Environment) (state : AgentWorkflowState) :
  events (agent_call env Mentor state) =
  [MentorCall (user_profile (default_issue state))
     (selected_repo_name (default_issue state))
     (selected_issue_number (default_issue state))].
Proof. reflexivity. Qed.

Section FirstRepository.

Variable env : Environment.
Variable profile : UserProfile.t.

(** The name of the first repository the scout hands back, if it hands back
    any. *)
Let chosen : option string :=
  match find_repositories env (Some profile) with
  | Return (first :: _) => Some (RepositoryMatch.repo_name first)
  | _ => None
  end.

Let after_scout := transition env Scout (initial_state profile).
Let after_preparation := transition env Preparation after_scout.
Let after_matcher := transition env IssueMatcher after_preparation.

Lemma after_scout_fields :
  user_profile after_scout = Some profile /\
  selected_repo_name after_scout = None /\
  contribution_guide after_scout = None /\
  repositories after_scout =
    match find_repositories env (Some profile) with
    | Return l => l
    | Raise _ => []
    end.
Proof.
  unfold after_scout, transition, stage_result, agent_outcome, agent_call, outcome,
    map_M, scout_agent. simpl.
  destruct (find_repositories env (Some profile)); repeat split.
Qed.

Lemma after_preparation_fields :
  user_profile after_preparation = Some profile /\
  selected_repo_name after_preparation = chosen /\
  repositories after_preparation = repositories after_scout.
Proof.
  destruct after_scout_fields as (Hu & Hn & _ & Hr).
  destruct (transition_selection env Preparation after_scout) as (Hu' & Hn' & _).
  destruct (transition_owned env Preparation after_scout) as (Hr' & _).
  fold after_preparation in Hu', Hn', Hr'.
  split; [congruence|]. split; [|apply Hr'; discriminate].
  rewrite Hn'. simpl. unfold default_repository, chosen. rewrite Hn, Hr.
  destruct (find_repositories env (Some profile)) as [[|first rest]|e];
    first [exact Hn | reflexivity].
Qed.

Lemma run_with_first_repository :
  exists issue,
    fst (run_stages env all_stages (initial_state profile)) =
      transition env Mentor after_matcher /\
    selected_repo_name (transition env Mentor after_matcher) = chosen /\
    snd (run_stages env all_stages (initial_state profile)) =
      NodeRun "scout_repositories" :: events (agent_call env Scout (initial_state profile)) ++
      NodeRun "prepare_onboarding" :: events (agent_call env Preparation after_scout) ++
      NodeRun "match_issues" :: [IssueMatcherCall (Some profile) chosen] ++
      NodeRun "create_mentoring_plan" :: [MentorCall (Some profile) chosen issue] ++ [].
Proof.
  destruct after_preparation_fields as (Hu & Hn & _).
  destruct (transition_selection env IssueMatcher after_preparation) as (Hu3 & Hn3 & _).
  fold after_matcher in Hu3, Hn3. simpl stage_default in Hn3.
  destruct (transition_selection env Mentor after_matcher) as (_ & Hn4 & _).
  destruct (stage_default_selection Mentor after_matcher) as (Hd & _).
  destruct (stage_default_frame Mentor after_matcher) as (Hdu & _).
  exists (selected_issue_number (default_issue after_matcher)).
  split; [|split].
  - unfold all_stages. rewrite !run_stages_cons. reflexivity.
  - rewrite Hn4, Hd. congruence.
  - unfold all_stages. rewrite !run_stages_cons. cbn [snd run_stages stage_name].
    fold after_scout. fold after_preparation. fold after_matcher.
    rewrite issue_matcher_call_events, mentor_call_events.
    simpl stage_default in Hd, Hdu.
    rewrite Hu, Hn, Hdu, Hd, Hu3, Hn3, Hu, Hn. reflexivity.
Qed.

End FirstRepository.

(** X4.  The repository the run works on is the first one the scout hands
    back, or none if the scout fails or finds nothing: the final state selects
    it, and the issue matcher and the mentor are called with it, also when the
    guide for it could not be prepared. *)
Theorem later_agents_use_first_repository (env : Environment) (profile : UserProfile.t) :
  exists final evs issue,
    run env profile = (Return final, evs) /\
    selected_repo_name final =
      match find_repositories env (Some profile) with
      | Return (first :: _) => Some (RepositoryMatch.repo_name first)
      | _ => None
      end /\
    In (IssueMatcherCall (Some profile)
          (match find_repositories env (Some profile) with
           | Return (first :: _) => Some (RepositoryMatch.repo_name first)
           | _ => None
           end)) evs /\
    In (MentorCall (Some profile)
          (match find_repositories env (Some profile) with
           | Return (first :: _) => Some (RepositoryMatch.repo_name first)
           | _ => None
           end) issue) evs.
Proof.
  destruct (run_with_first_repository env profile) as (issue & Hf & Hn & He).
  eexists. eexists. exists issue.
  split; [apply run_is_run_stages|].
  rewrite write_input_id, Hf, He.
  split; [exact Hn|]. split.
  - right. apply in_or_app. right. right. apply in_or_app. right. right. now left.
  - right. apply in_or_app. right. right. apply in_or_app. right. right.
    right. right. now left.
Qed.

Lemma preparation_fails_without_repository (env : Environment)
    (state : AgentWorkflowState) :
  repositories state = [] ->
  selected_repo_name state = None ->
  exists e, agent_outcome env Preparation state = Raise e.
Proof.
  intros Hr Hn.
  unfold agent_outcome, agent_call, outcome, map_M. simpl stage_default. cbv zeta.
  assert (default_repository state = state) as ->.
  { unfold default_repository. now rewrite Hn, Hr. }
  rewrite Hn.
  destruct (prepare_onboarding_guide_None env (user_profile state)) as (e & He).
  exists e. unfold outcome in He. cbn [fst]. now rewrite He.
Qed.

(** X5.  When the scout raises or finds no repository, the run still makes
    its four attempts, and it cannot end well: the Preparation stage fails, so
    the final state carries an error, no repository, no selection and no
    guide. *)
Theorem run_without_candidate_fails (env : Environment) (profile : UserProfile.t) :
  match find_repositories env (Some profile) with
  | Return (_ :: _) => False
  | _ => True
  end ->
  exists final evs m,
    run env profile = (Return final, evs) /\
    stages_run evs = map stage_name all_stages /\
    nth 1 (run_failures env all_stages (initial_state profile)) None = Some m /\
    error final <> None /\
    repositories final = [] /\
    selected_repo_name final = None /\
    contribution_guide final = None.
Proof.
  intros Hnone.
  destruct (after_scout_fields env profile) as (Hu & Hn & Hg & Hr).
  set (s1 := transition env Scout (initial_state profile)) in *.
  assert (repositories s1 = []) as Hr1.
  { rewrite Hr. destruct (find_repositories env (Some profile)) as [[|? ?]|?];
      [reflexivity|contradiction|reflexivity]. }
  destruct (preparation_fails_without_repository env s1 Hr1 Hn) as (e & He).
  set (s2 := transition env Preparation s1).
  destruct (stage_result_failed env Preparation s1 e He) as (Hr2 & Hg2 & _).
  destruct (transition_selection env Preparation s1) as (_ & Hn2 & _).
  fold s2 in Hn2. simpl stage_default in Hn2.
  assert (default_repository s1 = s1) as Hd.
  { unfold default_repository. now rewrite Hn, Hr1. }
  rewrite Hd in Hn2.
  destruct (run_stages_after_preparation env [IssueMatcher; Mentor] s2)
    as (Hrf & Hgf & Hnf & _).
  { simpl. intros [H|[H|[]]]; discriminate H. }
  { simpl. intros [H|[H|[]]]; discriminate H. }
  assert (fst (run_stages env all_stages (initial_state profile)) =
          fst (run_stages env [IssueMatcher; Mentor] s2)) as Hfinal.
  { unfold all_stages. now rewrite !run_stages_cons. }
  exists (fst (run_stages env all_stages (initial_state profile))),
         (snd (run_stages env all_stages (initial_state profile))),
         (error_prefix Preparation +++ e).
  split; [rewrite run_is_run_stages, write_input_id; reflexivity|].
  split; [apply (run_stages_all_run env all_stages)|].
  assert (nth 1 (run_failures env all_stages (initial_state profile)) None =
          Some (error_prefix Preparation +++ e)) as Hnth.
  { cbn [all_stages run_failures nth]. fold s1. unfold stage_failure. now rewrite He. }
  split; [exact Hnth|]. split.
  - rewrite run_stages_error. cbn [error initial_state]. intros Hl.
    apply latest_None in Hl.
    cbn [all_stages run_failures existsb] in Hl. fold s1 in Hl.
    unfold stage_failure at 2 in Hl. rewrite He in Hl. cbn [is_some] in Hl.
    rewrite orb_true_r in Hl. discriminate Hl.
  - rewrite Hfinal, Hrf, Hgf, Hnf. unfold s2, transition. cbn.
    rewrite Hr2, Hg2. unfold s2, transition in Hn2. cbn in Hn2.
    repeat split; [exact Hr1|rewrite Hn2; exact Hn|exact Hg].
Qed.

Lemma run_without_candidate_fails_witness :
  exists final evs m,
    run env_empty sample_profile = (Return final, evs) /\
    stages_run evs = map stage_name all_stages /\
    nth 1 (run_failures env_empty all_stages (initial_state sample_profile)) None =
      Some m /\
    error final <> None /\
    repositories final = [] /\
    selected_repo_name final = None /\
    contribution_guide final = None.
Proof.
  apply (run_without_candidate_fails env_empty sample_profile). exact I.
Defined.

(** X6.  A selection that is set and truthy is honoured.  With a non-zero
    [selected_issue_number] the Mentor node calls its agent with that number
    and returns it, whatever [issues] holds; with a non-empty
    [selected_repo_name] the Preparation node calls its agent with that name
    and returns it, and it leaves [selected_repo_url] as it was: the URL is
    only ever filled in together with a defaulted name. *)
Theorem pinned_selection_is_kept (env : Environment)
    (mentor_state preparation_state : AgentWorkflowState)
    (number : Z) (name : string) :
  selected_issue_number mentor_state = Some number ->
  number <> 0%Z ->
  selected_repo_name preparation_state = Some name ->
  name <> "" ->
  (exists ret,
     node_returns (create_mentoring_plan_node env mentor_state) = Some ret /\
     selected_issue_number ret = Some number /\
     events (create_mentoring_plan_node env mentor_state) =
       [MentorCall (user_profile mentor_state) (selected_repo_name mentor_state)
          (Some number)]) /\
  (exists ret,
     node_returns (prepare_onboarding_node env preparation_state) = Some ret /\
     selected_repo_name ret = Some name /\
     selected_repo_url ret = selected_repo_url preparation_state /\
     events (prepare_onboarding_node env preparation_state) =
       events (prepare_onboarding_guide env (user_profile preparation_state)
                 (Some name))).
Proof.
  intros Hnum Hnz Hname Hne.
  assert (default_issue mentor_state = mentor_state) as Hdi.
  { unfold default_issue. rewrite Hnum. simpl.
    destruct (Z.eqb_spec number 0) as [->|_]; [contradiction|reflexivity]. }
  assert (default_repository preparation_state = preparation_state) as Hdr.
  { unfold default_repository. rewrite Hname.
    destruct name; [contradiction|reflexivity]. }
  split.
  - exists (stage_result env Mentor mentor_state).
    pose proof (node_total env Mentor mentor_state) as Hnode.
    simpl stage_node in Hnode. unfold node_returns, events. rewrite Hnode.
    destruct (stage_result_selection env Mentor mentor_state) as (_ & _ & _ & Hk).
    split; [reflexivity|]. rewrite Hk. simpl stage_default. rewrite Hdi.
    split; [exact Hnum|].
    cbn [snd]. fold (events (agent_call env Mentor mentor_state)).
    rewrite mentor_call_events, Hdi, Hnum. reflexivity.
  - exists (stage_result env Preparation preparation_state).
    pose proof (node_total env Preparation preparation_state) as Hnode.
    simpl stage_node in Hnode. unfold node_returns, events. rewrite Hnode.
    destruct (stage_result_selection env Preparation preparation_state)
      as (_ & Hn & Hl & _).
    split; [reflexivity|]. rewrite Hn, Hl. simpl stage_default. rewrite Hdr.
    split; [exact Hname|]. split; [reflexivity|].
    cbn [snd]. unfold agent_call, map_M. simpl stage_default. cbv zeta.
    rewrite Hdr, Hname. reflexivity.
Qed.

Lemma pinned_selection_is_kept_witness :
  (exists ret,
     node_returns (create_mentoring_plan_node env_ok
                     (with_selected_issue_number (Some 12%Z) falsy_state)) = Some ret /\
     selected_issue_number ret = Some 12%Z /\
     events (create_mentoring_plan_node env_ok
               (with_selected_issue_number (Some 12%Z) falsy_state)) =
       [MentorCall (user_profile (with_selected_issue_number (Some 12%Z) falsy_state))
          (selected_repo_name (with_selected_issue_number (Some 12%Z) falsy_state))
          (Some 12%Z)]) /\
  (exists ret,
     node_returns (prepare_onboarding_node env_ok
                     (with_selected_repo_name (Some "octo/beta") falsy_state)) = Some ret /\
     selected_repo_name ret = Some "octo/beta" /\
     selected_repo_url ret =
       selected_repo_url (with_selected_repo_name (Some "octo/beta") falsy_state) /\
     events (prepare_onboarding_node env_ok
               (with_selected_repo_name (Some "octo/beta") falsy_state)) =
       events (prepare_onboarding_guide env_ok
                 (user_profile (with_selected_repo_name (Some "octo/beta") falsy_state))
                 (Some "octo/beta"))).
Proof.
  apply (pinned_selection_is_kept env_ok
           (with_selected_issue_number (Some 12%Z) falsy_state)
           (with_selected_repo_name (Some "octo/beta") falsy_state)
           12%Z "octo/beta");
    first [reflexivity | discriminate].
Defined.

Section PartialRuns.

Variable env : Environment.

Lemma run_stages_user_profile (l : list Stage) :
  forall channels,
    user_profile (fst (run_stages env l channels)) = user_profile channels.
Proof.
  induction l as [|s rest IH]; intros channels; [reflexivity|].
  rewrite run_stages_cons. cbn [fst]. rewrite IH.
  apply (transition_selection env s channels).
Qed.

Lemma run_stages_repositories (l : list Stage) :
  forall channels,
    ~ In Scout l ->
    repositories (fst (run_stages env l channels)) = repositories channels.
Proof.
  induction l as [|s rest IH]; intros channels Hs; [reflexivity|].
  rewrite run_stages_cons. cbn [fst]. rewrite IH.
  - apply (transition_owned env s channels). intros ->. apply Hs. now left.
  - intros H. apply Hs. now right.
Qed.

Lemma stages_from_no_scout (start_node : string) : ~ In Scout (stages_from start_node).
Proof.
  unfold stages_from.
  destruct (String.eqb start_node "prepare_onboarding");
    [simpl; intros [H|[H|[H|[]]]]; discriminate H|].
  destruct (String.eqb start_node "match_issues");
    [simpl; intros [H|[H|[]]]; discriminate H|].
  destruct (String.eqb start_node "create_mentoring_plan");
    [simpl; intros [H|[]]; discriminate H|].
  intros [].
Qed.

End PartialRuns.

(** X7.  No partial run calls the scout: from every accepted start node the
    run returns, with the [user_profile] and the [repositories] of the state
    it was given, and ["scout_repositories"] is not among the nodes it ran. *)
Theorem partial_run_keeps_repositories (env : Environment) (start_node : string)
    (state : AgentWorkflowState) :
  accepted_start start_node = true ->
  exists final evs,
    snd (run_partial_workflow env start_node state) = (Return final, evs) /\
    user_profile final = user_profile state /\
    repositories final = repositories state /\
    ~ In "scout_repositories" (stages_run evs).
Proof.
  intros Hacc.
  rewrite (run_partial_is_run_stages env start_node state Hacc). cbn [snd].
  eexists. eexists. split; [reflexivity|].
  rewrite run_stages_user_profile, write_input_id.
  rewrite run_stages_repositories by apply stages_from_no_scout.
  split; [reflexivity|]. split; [reflexivity|].
  rewrite run_stages_all_run. intros Hin.
  apply in_map_iff in Hin. destruct Hin as (s & Hs & Hin).
  destruct s; try discriminate Hs.
  exact (stages_from_no_scout start_node Hin).
Qed.

Lemma partial_run_keeps_repositories_witness :
  exists final evs,
    snd (run_partial_workflow env_failing "create_mentoring_plan" falsy_state) =
      (Return final, evs) /\
    user_profile final = user_profile falsy_state /\
    repositories final = repositories falsy_state /\
    ~ In "scout_repositories" (stages_run evs).
Proof.
  apply (partial_run_keeps_repositories env_failing "create_mentoring_plan" falsy_state).
  reflexivity.
Defined.

(** * Further properties of the preparation agent *)

(** X8.  Given a profile and a repository name, the agent raises only when
    the call of the generative model itself raises, and then with the model's
    own message; whatever the model answers, the agent returns a guide for
    that repository: the parsed one if the answer parses, and the fallback
    guide, built from the README and the contributing guide, if it does
    not. *)
Theorem preparation_agent_outcome (env : Environment) (profile : UserProfile.t)
    (name : string) :
  let readme :=
    match github_readme env (Some name) with
    | Return text => Some text | Raise _ => None end in
  let contributing :=
    match github_contributing env (Some name) with
    | Return text => Some text | Raise _ => None end in
  let info :=
    match github_repository_info env (Some name) with
    | Return i => i | Raise _ => [] end in
  outcome (prepare_onboarding_guide env (Some profile) (Some name)) =
  match generate_content env
          (guide_prompt env profile (Some name) readme contributing info) with
  | Raise e => Raise e
  | Return text =>
      let fields :=
        match parse_guide env text with
        | Return parsed => parsed
        | Raise _ => fallback_guide (Some name) readme contributing
        end in
      Return (ContributionGuide.Build name
                (GuideJson.setup_instructions fields)
                (GuideJson.project_structure fields)
                (GuideJson.coding_conventions fields)
                (GuideJson.testing_guide fields)
                (GuideJson.contribution_workflow fields)
                (GuideJson.helpful_resources fields))
  end.
Proof.
  intros readme contributing info.
  unfold prepare_onboarding_guide, get_readme, get_contributing_guide,
    get_repository_info, _generate_guide, outcome.
  fold readme contributing info. simpl.
  destruct (generate_content env _) as [text|e]; simpl; [|reflexivity].
  destruct (parse_guide env text) as [parsed|e]; reflexivity.
Qed.

Section Sections.

Lemma substring_length_le (s : string) :
  forall n m, (String.length (substring n m s) <= m)%nat.
Proof.
  induction s as [|c s IH]; intros n m.
  - destruct n, m; simpl; lia.
  - destruct n as [|n].
    + destruct m as [|m]; simpl; [lia|]. specialize (IH 0%nat m). lia.
    + simpl. apply IH.
Qed.

Lemma lower_length (s : string) : String.length (lower s) = String.length s.
Proof. induction s as [|c s IH]; simpl; [reflexivity|now rewrite IH]. Qed.

Lemma lower_substring (s : string) :
  forall n m, lower (substring n m s) = substring n m (lower s).
Proof.
  induction s as [|c s IH]; intros n m.
  - destruct n, m; reflexivity.
  - destruct n as [|n].
    + destruct m as [|m]; simpl; [reflexivity|]. now rewrite IH.
    + simpl. apply IH.
Qed.

Lemma prefix_length (k : string) :
  forall t, prefix k t = true -> (String.length k <= String.length t)%nat.
Proof.
  induction k as [|a k IH]; intros t H; simpl; [lia|].
  destruct t as [|b t]; simpl in H; [discriminate|].
  destruct (ascii_dec a b); [|discriminate].
  specialize (IH t H). simpl. lia.
Qed.

Lemma prefix_substring (k : string) :
  forall t m,
    prefix k t = true -> (String.length k <= m)%nat ->
    prefix k (substring 0 m t) = true.
Proof.
  induction k as [|a k IH]; intros t m H Hm.
  - destruct (substring 0 m t); reflexivity.
  - destruct t as [|b t]; simpl in H; [discriminate|].
    destruct (ascii_dec a b) as [->|]; [|discriminate].
    destruct m as [|m]; simpl in Hm; [lia|].
    simpl. destruct (ascii_dec b b); [|contradiction].
    apply IH; [exact H|lia].
Qed.

(** Where [index] finds a keyword, the keyword lies within the text, and any
    long enough cut of the text from there starts with it. *)
Lemma index_occurrence (k : string) (t : string) :
  forall start,
    index 0 k t = Some start ->
    (start + String.length k <= String.length t)%nat /\
    forall m, (String.length k <= m)%nat -> prefix k (substring start m t) = true.
Proof.
  induction t as [|b t IH]; intros start H.
  - destruct k; simpl in H; [|discriminate].
    assert (start = 0%nat) as -> by congruence.
    split; [simpl; lia|]. intros m _. destruct m; reflexivity.
  - cbn [index] in H. destruct (prefix k (String b t)) eqn:Hp.
    + assert (start = 0%nat) as -> by congruence. split.
      * apply prefix_length in Hp. simpl in *. lia.
      * intros m Hm. now apply prefix_substring.
    + destruct (index 0 k t) as [n|] eqn:Hi; [|discriminate].
      assert (start = S n) as -> by congruence.
      destruct (IH n eq_refl) as (Hlen & Hpre).
      split; [simpl; lia|]. intros m Hm. simpl. now apply Hpre.
Qed.

Lemma first_keyword_In (keywords : list string) (text : string) (start : nat) :
  first_keyword keywords text = Some start ->
  exists k, In k keywords /\ index 0 k text = Some start.
Proof.
  induction keywords as [|k rest IH]; simpl; [discriminate|].
  destruct (index 0 k text) as [n|] eqn:Hi.
  - intros H. injection H as <-. exists k. split; [now left|exact Hi].
  - intros H. destruct (IH H) as (k' & Hin & Hk). exists k'. split; [now right|exact Hk].
Qed.

Lemma extract_section_bounds (keywords : list string) (span : nat)
    (text : option string) (section : string) :
  (forall k, In k keywords -> (String.length k <= span)%nat) ->
  extract_section keywords span text = Some section ->
  (String.length section <= span)%nat /\
  exists k body,
    In k keywords /\ text = Some body /\ prefix k (lower section) = true.
Proof.
  intros Hspan. unfold extract_section.
  destruct text as [body|]; [|discriminate].
  destruct body as [|c body]; [discriminate|].
  remember (String c body) as b eqn:Hb. clear Hb.
  destruct (first_keyword keywords (lower b)) as [start|] eqn:Hf; [|discriminate].
  intros H. injection H as <-.
  destruct (first_keyword_In _ _ _ Hf) as (k & Hin & Hi).
  destruct (index_occurrence k (lower b) start Hi) as (Hlen & Hpre).
  rewrite lower_length in Hlen.
  split.
  - cbv zeta. etransitivity; [apply substring_length_le|lia].
  - exists k, b. split; [exact Hin|]. split; [reflexivity|].
    rewrite lower_substring. apply Hpre.
    specialize (Hspan k Hin). lia.
Qed.

Lemma is_ascii_substring (s : string) :
  forall n m, is_ascii s = true -> is_ascii (substring n m s) = true.
Proof.
  induction s as [|c s IH]; intros n m H.
  - destruct n, m; reflexivity.
  - cbn [is_ascii] in H. apply andb_prop in H. destruct H as (Hc & Hs).
    destruct n as [|n].
    + destruct m as [|m]; [reflexivity|].
      cbn [substring is_ascii]. now rewrite Hc, (IH 0%nat m Hs).
    + cbn [substring]. now apply IH.
Qed.

Lemma extract_section_ascii (keywords : list string) (span : nat)
    (body section : string) :
  is_ascii body = true ->
  extract_section keywords span (Some body) = Some section ->
  is_ascii section = true.
Proof.
  intros Ha. unfold extract_section.
  destruct body as [|c body]; [discriminate|].
  remember (String c body) as b eqn:Hb. clear Hb.
  destruct (first_keyword keywords (lower b)) as [start|]; [|discriminate].
  intros H. assert (section = substring start
                                (Nat.min (start + span) (String.length b) - start) b)
    as -> by congruence.
  now apply is_ascii_substring.
Qed.

End Sections.

(** X9.  On ASCII text, where [lower] is Python's [str.lower()]: the section
    [_extract_setup_from_readme] cuts out of a README is at most 500
    characters long, is ASCII text itself and starts, up to case, with one of
    the four setup headings; the section [_extract_conventions] cuts out of a
    contributing guide is at most 400 characters long, is ASCII text and
    starts, up to case, with one of the three style headings.  (Outside ASCII
    lowering can lengthen the text, and the position found in the lowered
    text need not be that of the heading in the text itself.) *)
Theorem extracted_sections_are_bounded
    (readme contributing_guide setup conventions : string) :
  is_ascii readme = true ->
  is_ascii contributing_guide = true ->
  _extract_setup_from_readme (Some readme) = Some setup ->
  _extract_conventions (Some contributing_guide) = Some conventions ->
  ((String.length setup <= 500)%nat /\
   is_ascii setup = true /\
   exists k,
     In k ["## installation"; "## setup"; "## getting started"; "## quick start"] /\
     prefix k (lower setup) = true) /\
  ((String.length conventions <= 400)%nat /\
   is_ascii conventions = true /\
   exists k,
     In k ["## style"; "## coding"; "## convention"] /\
     prefix k (lower conventions) = true).
Proof.
  intros Har Hac Hs Hc. split.
  - destruct (extract_section_bounds
                ["## installation"; "## setup"; "## getting started"; "## quick start"]
                500 (Some readme) setup) as (Hl & k & b & Hin & _ & Hp);
      [|exact Hs|].
    + intros k [<-|[<-|[<-|[<-|[]]]]]; simpl; lia.
    + split; [exact Hl|].
      split; [exact (extract_section_ascii _ _ _ _ Har Hs)|].
      exists k. now split.
  - destruct (extract_section_bounds ["## style"; "## coding"; "## convention"]
                400 (Some contributing_guide) conventions)
      as (Hl & k & b & Hin & _ & Hp); [|exact Hc|].
    + intros k [<-|[<-|[<-|[]]]]; simpl; lia.
    + split; [exact Hl|].
      split; [exact (extract_section_ascii _ _ _ _ Hac Hc)|].
      exists k. now split.
Qed.

Lemma extracted_sections_are_bounded_witness :
  ((String.length "## Setup: run make" <= 500)%nat /\
   is_ascii "## Setup: run make" = true /\
   exists k,
     In k ["## installation"; "## setup"; "## getting started"; "## quick start"] /\
     prefix k (lower "## Setup: run make") = true) /\
  ((String.length "## Coding style" <= 400)%nat /\
   is_ascii "## Coding style" = true /\
   exists k,
     In k ["## style"; "## coding"; "## convention"] /\
     prefix k (lower "## Coding style") = true).
Proof.
  apply (extracted_sections_are_bounded
           "Welcome. ## Setup: run make"
           "Please read. ## Coding style"
           "## Setup: run make" "## Coding style"); reflexivity.
Defined.

(** X10.  The fallback guide is never blank where it matters: its setup
    instructions and its coding conventions are non-empty, each being either
    the section cut out of the repository's own text or the stock sentence,
    and they hold at most 500 and 400 characters. *)
Theorem fallback_guide_is_filled (repo_name readme contributing_guide : option string) :
  let guide := fallback_guide repo_name readme contributing_guide in
  GuideJson.setup_instructions guide <> "" /\
  (String.length (GuideJson.setup_instructions guide) <= 500)%nat /\
  GuideJson.coding_conventions guide <> "" /\
  (String.length (GuideJson.coding_conventions guide) <= 400)%nat /\
  length (GuideJson.helpful_resources guide) = 2%nat.
Proof.
  assert (forall x d, d <> "" -> str_or x d <> "") as Hne.
  { intros [s|] d Hd; simpl; [|exact Hd].
    destruct s; [exact Hd|discriminate]. }
  assert (forall keywords span text d,
            (forall k, In k keywords -> (String.length k <= span)%nat) ->
            (String.length d <= span)%nat ->
            (String.length (str_or (extract_section keywords span text) d) <= span)%nat)
    as Hlen.
  { intros keywords span text d Hk Hd.
    destruct (extract_section keywords span text) as [s|] eqn:He; simpl; [|exact Hd].
    destruct s; [exact Hd|].
    now destruct (extract_section_bounds keywords span text _ Hk He). }
  cbn zeta. unfold fallback_guide. cbn [GuideJson.setup_instructions
    GuideJson.coding_conventions GuideJson.helpful_resources].
  split; [apply Hne; discriminate|].
  split.
  { unfold _extract_setup_from_readme. apply Hlen; [|simpl; lia].
    intros k [<-|[<-|[<-|[<-|[]]]]]; simpl; lia. }
  split; [apply Hne; discriminate|].
  split; [|reflexivity].
  unfold _extract_conventions. apply Hlen; [|simpl; lia].
  intros k [<-|[<-|[<-|[]]]]; simpl; lia.
Qed.

(** * Properties of the GitHub tools and of the three other agents *)

Lemma get_issues_length (world : World) (repo_name : option string)
    (labels : option (list string)) (max_results : nat) :
  exists result,
    GitHubTools.get_issues world repo_name labels max_results =
      (Return result, [GitHubCall "get_issues" repo_name]) /\
    (length result <= max_results)%nat.
Proof.
  eexists. split; [reflexivity|].
  rewrite length_map.
  etransitivity; [apply filter_length_le|]. apply firstn_le_length.
Qed.

(** X11.  [get_issues] makes one call and never raises.  It answers at most
    [max_results] issues, each the dict of an issue the client yielded that is
    no pull request.  The limit is taken before pull requests are dropped:
    when everything among the first [max_results] items is a pull request the
    answer is empty, whatever follows. *)
Theorem get_issues_is_bounded (world : World) (repo_name : option string)
    (labels : option (list string)) (max_results : nat) :
  let asked := match labels with
               | None => GitHubTools.default_labels
               | Some given => given
               end in
  exists result,
    GitHubTools.get_issues world repo_name labels max_results =
      (Return result, [GitHubCall "get_issues" repo_name]) /\
    (length result <= max_results)%nat /\
    (forall issue,
       In issue result ->
       exists raw,
         In raw (client_issues world repo_name asked) /\
         RawIssue.pull_request raw = false /\
         issue = GitHubTools.issue_dict raw) /\
    (forallb RawIssue.pull_request
       (firstn max_results (client_issues world repo_name asked)) = true ->
     result = []).
Proof.
  intros asked.
  eexists. split; [reflexivity|]. fold asked.
  split; [|split].
  - rewrite length_map.
    etransitivity; [apply filter_length_le|]. apply firstn_le_length.
  - intros issue Hin. apply in_map_iff in Hin. destruct Hin as (raw & <- & Hin).
    apply filter_In in Hin. destruct Hin as (Hin & Hpr).
    exists raw. split; [|split; [|reflexivity]].
    + rewrite <- (firstn_skipn max_results (client_issues world repo_name asked)).
      apply in_or_app. now left.
    + now destruct (RawIssue.pull_request raw).
  - intros Hall.
    induction (firstn max_results (client_issues world repo_name asked)) as [|raw l IH];
      [reflexivity|].
    simpl in Hall. apply andb_prop in Hall. destruct Hall as (Hraw & Hl).
    simpl. rewrite Hraw. simpl. now apply IH.
Qed.

Section Scout.

Variable env : Environment.
Variable world : World.

Let calls_for (repo : RepoData.t) : list Event :=
  [GitHubCall "analyze_maintainer_activity" (Some (RepoData.name repo));
   GitHubCall "analyze_pr_sentiment" (Some (RepoData.name repo));
   GitHubCall "get_issues" (Some (RepoData.name repo))].

Lemma enrich_run (repo : RepoData.t) :
  exists enriched,
    RepositoryScoutAgent.enrich world repo = (Return enriched, calls_for repo) /\
    EnrichedRepo.repo enriched = repo /\
    (EnrichedRepo.good_first_issues_count enriched <= 5)%nat.
Proof.
  destruct (get_issues_length world (Some (RepoData.name repo)) None 5)
    as (issues & Hget & Hlen).
  unfold RepositoryScoutAgent.enrich, GitHubTools.analyze_maintainer_activity,
    GitHubTools.analyze_pr_sentiment.
  rewrite Hget. eexists. split; [reflexivity|]. split; [reflexivity|exact Hlen].
Qed.

Lemma enrich_all_run (candidates : list RepoData.t) :
  exists enriched,
    RepositoryScoutAgent.enrich_all world candidates =
      (Return enriched, flat_map calls_for candidates) /\
    map EnrichedRepo.repo enriched = candidates /\
    Forall (fun e => (EnrichedRepo.good_first_issues_count e <= 5)%nat) enriched.
Proof.
  induction candidates as [|repo rest IH].
  - exists []. repeat split. constructor.
  - destruct (enrich_run repo) as (e & He & Hr & Hc).
    destruct IH as (es & Hes & Hrs & Hcs).
    exists (e :: es). split; [|split].
    + cbn [RepositoryScoutAgent.enrich_all flat_map]. rewrite He, Hes.
      unfold bind, ret, after. cbn [fst snd]. now rewrite !app_nil_r.
    + simpl. now rewrite Hr, Hrs.
    + now constructor.
Qed.

Lemma calls_for_no_generate (candidates : list RepoData.t) :
  generate_calls (flat_map calls_for candidates) = [].
Proof. induction candidates as [|repo rest IH]; [reflexivity|exact IH]. Qed.

Lemma find_repositories_run (profile : UserProfile.t) :
  let query :=
    GitHubTools.search_query (UserProfile.programming_languages profile) 50 in
  let candidates := firstn 15 (client_search world query) in
  exists enriched,
    map EnrichedRepo.repo enriched = candidates /\
    Forall (fun e => (EnrichedRepo.good_first_issues_count e <= 5)%nat) enriched /\
    events (RepositoryScoutAgent.find_repositories env world (Some profile)) =
      GitHubCall "search_repositories" (Some query) ::
      flat_map calls_for candidates ++
      [GenerateContent (scout_prompt world profile enriched)] /\
    outcome (RepositoryScoutAgent.find_repositories env world (Some profile)) =
      match generate_content env (scout_prompt world profile enriched) with
      | Raise e => Raise e
      | Return text =>
          Return (firstn 5 (match parse_repositories world text with
                            | Return ranked => ranked
                            | Raise _ => []
                            end))
      end.
Proof.
  intros query candidates.
  destruct (enrich_all_run candidates) as (enriched & Hrun & Hrepo & Hcount).
  exists enriched. split; [exact Hrepo|]. split; [exact Hcount|].
  unfold RepositoryScoutAgent.find_repositories, RepositoryScoutAgent._analyze_and_rank.
  change (GitHubTools.search_repositories world
            (UserProfile.programming_languages profile) 50 15)
    with (Return candidates, [GitHubCall "search_repositories" (Some query)]).
  rewrite bind_return, Hrun, bind_return, bind_emit.
  unfold events, outcome, lift, bind, try_except, ret, after.
  destruct (generate_content env (scout_prompt world profile enriched)) as [text|e];
    cbn [fst snd]; [destruct (parse_repositories world text) as [ranked|e]|];
    cbn [fst snd app]; rewrite ?app_nil_r; split; reflexivity.
Qed.

End Scout.

(** X12.  The scout's calls.  It sends one search, capped at fifteen
    candidates, and for each candidate asks GitHub three things, in order:
    the maintainers' activity, the tone of the pull requests, and up to five
    open issues; so the issue count it reports to the model never exceeds
    five.  Then it calls the generative model exactly once, also when the
    search found nothing. *)
Theorem scout_calls (env : Environment) (world : World) (profile : UserProfile.t) :
  let query :=
    GitHubTools.search_query (UserProfile.programming_languages profile) 50 in
  let candidates := firstn 15 (client_search world query) in
  exists enriched,
    (length candidates <= 15)%nat /\
    map EnrichedRepo.repo enriched = candidates /\
    Forall (fun e => (EnrichedRepo.good_first_issues_count e <= 5)%nat) enriched /\
    events (RepositoryScoutAgent.find_repositories env world (Some profile)) =
      GitHubCall "search_repositories" (Some query) ::
      flat_map
        (fun repo =>
           [GitHubCall "analyze_maintainer_activity" (Some (RepoData.name repo));
            GitHubCall "analyze_pr_sentiment" (Some (RepoData.name repo));
            GitHubCall "get_issues" (Some (RepoData.name repo))]) candidates ++
      [GenerateContent (scout_prompt world profile enriched)] /\
    generate_calls
      (events (RepositoryScoutAgent.find_repositories env world (Some profile))) =
      [scout_prompt world profile enriched].
Proof.
  intros query candidates.
  destruct (find_repositories_run env world profile)
    as (enriched & Hrepo & Hcount & Hev & _).
  exists enriched.
  split; [apply firstn_le_length|]. split; [exact Hrepo|]. split; [exact Hcount|].
  split; [exact Hev|].
  rewrite Hev. cbn [generate_calls].
  now rewrite generate_calls_app, calls_for_no_generate.
Qed.

(** X13.  The scout's answer.  Without a profile it raises before any call.
    With one, it raises only if the call of the model raises; an answer that
    cannot be parsed gives the empty list, not an error; and it never hands
    back more than five repositories. *)
Theorem scout_answer (env : Environment) (world : World) (profile : UserProfile.t) :
  RepositoryScoutAgent.find_repositories env world None =
    (Raise "'NoneType' object has no attribute 'programming_languages'", []) /\
  exists prompt,
    generate_calls
      (events (RepositoryScoutAgent.find_repositories env world (Some profile))) =
      [prompt] /\
    outcome (RepositoryScoutAgent.find_repositories env world (Some profile)) =
      match generate_content env prompt with
      | Raise e => Raise e
      | Return text =>
          Return (firstn 5 (match parse_repositories world text with
                            | Return ranked => ranked
                            | Raise _ => []
                            end))
      end /\
    forall result,
      outcome (RepositoryScoutAgent.find_repositories env world (Some profile)) =
        Return result ->
      (length result <= 5)%nat.
Proof.
  split; [reflexivity|].
  destruct (find_repositories_run env world profile)
    as (enriched' & _ & _ & Hev & Hout).
  exists (scout_prompt world profile enriched').
  split; [|split; [exact Hout|]].
  - rewrite Hev. cbn [generate_calls].
    now rewrite generate_calls_app, calls_for_no_generate.
  - intros result Hres. rewrite Hout in Hres.
    destruct (generate_content env _) as [text|e]; [|discriminate].
    assert (result = firstn 5 (match parse_repositories world text with
                               | Return ranked => ranked
                               | Raise _ => []
                               end)) as -> by congruence.
    apply firstn_le_length.
Qed.

Section Matcher.

Variable env : Environment.
Variable world : World.

(** An issue the matcher hands back stands on an issue of GitHub: it has its
    number, its labels and its comment count, and a description cut at 500
    characters. *)
Let grounded (issues : list GithubIssue.t) (issue : Issue.t) : Prop :=
  exists github_issue,
    In github_issue issues /\
    Issue.issue_number issue = GithubIssue.number github_issue /\
    Issue.labels issue = GithubIssue.labels github_issue /\
    Issue.comments_count issue = GithubIssue.comments github_issue /\
    (String.length (Issue.description issue) <= 500)%nat.

Lemma find_github_issue_found (n : option Z) (issues : list GithubIssue.t)
    (github_issue : GithubIssue.t) :
  IssueMatcherAgent.find_github_issue n issues = Some github_issue ->
  In github_issue issues /\ n = Some (GithubIssue.number github_issue).
Proof.
  destruct n as [number|]; simpl; [|discriminate].
  intros H. apply find_some in H. destruct H as (Hin & Heq).
  apply Z.eqb_eq in Heq. split; [exact Hin|now rewrite Heq].
Qed.

Lemma build_issues_grounded (issues : list GithubIssue.t) (issues_json : list IssueData.t) :
  forall result,
    IssueMatcherAgent.build_issues world issues_json issues = Return result ->
    Forall (grounded issues) result.
Proof.
  induction issues_json as [|issue_data rest IH]; intros result Hb; simpl in Hb.
  - assert (result = []) as -> by congruence. constructor.
  - destruct (IssueData.issue_number issue_data) as [n|e]; [|discriminate].
    destruct (IssueMatcherAgent.find_github_issue n issues) as [github_issue|] eqn:Hf;
      [|now apply IH].
    destruct (IssueData.fields issue_data) as [fields|e]; [|discriminate].
    destruct (parse_datetime world (GithubIssue.created_at github_issue))
      as [created_at|e]; [|discriminate].
    destruct (IssueMatcherAgent.build_issues world rest issues) as [others|e];
      [|discriminate].
    destruct (find_github_issue_found n issues github_issue Hf) as (Hin & ->).
    assert (result =
            IssueMatcherAgent.new_Issue (GithubIssue.number github_issue) fields
              github_issue created_at :: others) as -> by congruence.
    constructor; [|now apply IH].
    exists github_issue. repeat split; try assumption.
    apply substring_length_le.
Qed.

Lemma analyze_batch_run (profile : UserProfile.t) (repo_name : option string)
    (issues : list GithubIssue.t) :
  IssueMatcherAgent._analyze_batch env world (Some profile) repo_name issues =
  (match generate_content env (issue_prompt world profile repo_name issues) with
   | Raise e => Raise e
   | Return text =>
       Return (match parse_issues world text with
               | Return issues_json =>
                   match IssueMatcherAgent.build_issues world issues_json issues with
                   | Return built => built
                   | Raise _ => []
                   end
               | Raise _ => []
               end)
   end,
   [GenerateContent (issue_prompt world profile repo_name issues)]).
Proof.
  unfold IssueMatcherAgent._analyze_batch, lift, bind, try_except, emit, ret, after.
  destruct (generate_content env _) as [text|e]; cbn [fst snd app]; [|reflexivity].
  destruct (parse_issues world text) as [issues_json|e]; cbn [fst snd app];
    [|reflexivity].
  destruct (IssueMatcherAgent.build_issues world issues_json issues); reflexivity.
Qed.

Lemma analyze_batch_grounded (profile : UserProfile.t) (repo_name : option string)
    (issues : list GithubIssue.t) (result : list Issue.t) :
  outcome (IssueMatcherAgent._analyze_batch env world (Some profile) repo_name issues) =
    Return result ->
  Forall (grounded issues) result.
Proof.
  rewrite analyze_batch_run. unfold outcome. cbn [fst].
  destruct (generate_content env _) as [text|e]; [|discriminate].
  intros H.
  destruct (parse_issues world text) as [issues_json|e];
    [|assert (result = []) as -> by congruence; constructor].
  destruct (IssueMatcherAgent.build_issues world issues_json issues) as [built|e] eqn:Hb;
    [|assert (result = []) as -> by congruence; constructor].
  assert (result = built) as -> by congruence.
  now apply (build_issues_grounded issues issues_json).
Qed.

Lemma grounded_incl (small large : list GithubIssue.t) (issue : Issue.t) :
  incl small large -> grounded small issue -> grounded large issue.
Proof.
  intros Hincl (gi & Hin & H). exists gi. split; [now apply Hincl|exact H].
Qed.

(** The batches are run in order; a batch whose model call raises ends the
    run, and every batch run so far has cost one call. *)
Lemma analyze_batches_run (profile : UserProfile.t) (repo_name : option string)
    (todo : list (list GithubIssue.t)) :
  (length (generate_calls
             (events (IssueMatcherAgent.analyze_batches env world (Some profile)
                        repo_name todo))) <= length todo)%nat /\
  forall result,
    outcome (IssueMatcherAgent.analyze_batches env world (Some profile) repo_name todo) =
      Return result ->
    Forall (grounded (concat todo)) result /\
    length (generate_calls
              (events (IssueMatcherAgent.analyze_batches env world (Some profile)
                         repo_name todo))) = length todo.
Proof.
  induction todo as [|batch rest IH].
  - split; [simpl; lia|]. intros result H. simpl in H.
    assert (result = []) as -> by (unfold outcome, ret in H; simpl in H; congruence).
    split; [constructor|reflexivity].
  - destruct IH as (IHle & IHret).
    cbn [IssueMatcherAgent.analyze_batches].
    pose proof (analyze_batch_grounded profile repo_name batch) as Hg.
    rewrite analyze_batch_run in *. unfold outcome in Hg. cbn [fst] in Hg.
    destruct (generate_content env (issue_prompt world profile repo_name batch))
      as [text|e].
    + set (built := match parse_issues world text with
                    | Return issues_json =>
                        match IssueMatcherAgent.build_issues world issues_json batch with
                        | Return b => b
                        | Raise _ => []
                        end
                    | Raise _ => []
                    end) in *.
      specialize (Hg built eq_refl).
      rewrite bind_return.
      destruct (IssueMatcherAgent.analyze_batches env world (Some profile) repo_name rest)
        as [[others|e] evs] eqn:Hrest; unfold events, outcome in *; cbn [fst snd] in *.
      * unfold bind, ret, after. cbn [fst snd generate_calls app].
        rewrite app_nil_r. cbn [length]. split; [lia|].
        intros result H. assert (result = built ++ others) as -> by congruence.
        destruct (IHret others eq_refl) as (Hgo & Hlen).
        split; [|lia].
        apply Forall_app. split.
        -- eapply Forall_impl; [|exact Hg]. intros issue.
           apply grounded_incl. cbn [concat]. apply incl_appl, incl_refl.
        -- eapply Forall_impl; [|exact Hgo]. intros issue.
           apply grounded_incl. cbn [concat]. apply incl_appr, incl_refl.
      * unfold bind, after. cbn [fst snd generate_calls app length].
        split; [lia|]. intros result H. discriminate H.
    + unfold bind, events, outcome. cbn [fst snd generate_calls length].
      split; [lia|]. intros result H. discriminate H.
Qed.

Lemma batches_upto_concat (fuel : nat) :
  forall l, (length l <= fuel)%nat -> concat (IssueMatcherAgent.batches_upto fuel l) = l.
Proof.
  induction fuel as [|fuel IH]; intros l Hl.
  - destruct l; [reflexivity|simpl in Hl; lia].
  - destruct l as [|x l]; [reflexivity|].
    cbn [IssueMatcherAgent.batches_upto concat]. rewrite IH.
    + apply firstn_skipn.
    + rewrite length_skipn. simpl in *. lia.
Qed.

Lemma batches_upto_length (fuel : nat) :
  forall l,
    (length l <= fuel)%nat ->
    (length l <= 5 * length (IssueMatcherAgent.batches_upto fuel l) <= length l + 4)%nat.
Proof.
  induction fuel as [|fuel IH]; intros l Hl.
  - destruct l; simpl in *; lia.
  - destruct l as [|x l]; [simpl; lia|].
    cbn [IssueMatcherAgent.batches_upto length].
    specialize (IH (skipn 5 (x :: l))). rewrite length_skipn in IH.
    cbn [length] in *. lia.
Qed.

Lemma batches_count (l : list GithubIssue.t) :
  length (IssueMatcherAgent.batches l) = ((length l + 4) / 5)%nat.
Proof.
  pose proof (batches_upto_length (length l) l (le_n _)) as H.
  fold (IssueMatcherAgent.batches l) in H.
  apply (Nat.div_unique _ 5 _ (length l + 4 - 5 * length (IssueMatcherAgent.batches l)));
    lia.
Qed.

Lemma insert_by_In (key : Issue.t -> float) (x y : Issue.t) (l : list Issue.t) :
  In y (IssueMatcherAgent.insert_by key x l) -> y = x \/ In y l.
Proof.
  induction l as [|z l IH]; simpl.
  - intros [<-|[]]. now left.
  - destruct (PrimFloat.ltb (key x) (key z)); simpl.
    + intros [<-|H]; [right; now left|].
      destruct (IH H) as [->|Hin]; [now left|right; now right].
    + intros [<-|H]; [now left|now right].
Qed.

Lemma sorted_reverse_In (key : Issue.t -> float) (y : Issue.t) (l : list Issue.t) :
  In y (IssueMatcherAgent.sorted_reverse key l) -> In y l.
Proof.
  induction l as [|x l IH]; simpl; [easy|].
  intros H. apply insert_by_In in H. destruct H as [->|H]; [now left|right; now apply IH].
Qed.

Lemma find_suitable_issues_grounded (profile : option UserProfile.t)
    (repo_name : option string) (result : list Issue.t) :
  let fetched :=
    map GitHubTools.issue_dict
      (filter (fun issue => negb (RawIssue.pull_request issue))
         (firstn 20 (client_issues world repo_name GitHubTools.default_labels))) in
  outcome (IssueMatcherAgent.find_suitable_issues env world profile repo_name) =
    Return result ->
  (length result <= 5)%nat /\ Forall (grounded fetched) result.
Proof.
  intros fetched.
  unfold IssueMatcherAgent.find_suitable_issues.
  change (GitHubTools.get_issues world repo_name None 20)
    with (Return fetched, [GitHubCall "get_issues" repo_name]).
  rewrite bind_return. unfold outcome, after. cbn [fst].
  destruct fetched as [|gi others] eqn:Hfetched; cbn [truthy_list negb].
  - intros H. assert (result = []) as -> by (unfold ret in H; simpl in H; congruence).
    split; [simpl; lia|constructor].
  - rewrite <- Hfetched. unfold IssueMatcherAgent._analyze_issues.
    destruct profile as [profile|].
    + destruct (analyze_batches_run profile repo_name (IssueMatcherAgent.batches fetched))
        as (_ & Hret).
      destruct (IssueMatcherAgent.analyze_batches env world (Some profile) repo_name
                  (IssueMatcherAgent.batches fetched)) as [[analyzed|e] evs];
        unfold bind, ret, after, outcome in *; cbn [fst snd] in *; [|discriminate].
      intros H.
      destruct (Hret analyzed eq_refl) as (Hg & _).
      unfold IssueMatcherAgent.batches in Hg.
      rewrite batches_upto_concat in Hg by apply le_n.
      assert (result =
              firstn 5 (IssueMatcherAgent.sorted_reverse
                          (fun x => IssueMatcherAgent._calculate_suitability_score
                                      world x profile) analyzed)) as -> by congruence.
      split; [apply firstn_le_length|].
      apply Forall_forall. intros issue Hin.
      rewrite Forall_forall in Hg. apply Hg.
      apply (sorted_reverse_In
               (fun x => IssueMatcherAgent._calculate_suitability_score world x profile)
               issue analyzed).
      rewrite <- (firstn_skipn 5
                    (IssueMatcherAgent.sorted_reverse
                       (fun x => IssueMatcherAgent._calculate_suitability_score
                                   world x profile) analyzed)).
      apply in_or_app. now left.
    + rewrite Hfetched. cbn [IssueMatcherAgent.batches length
        IssueMatcherAgent.batches_upto IssueMatcherAgent.analyze_batches
        IssueMatcherAgent._analyze_batch].
      intros H. discriminate H.
Qed.

End Matcher.

(** X14.  When GitHub yields no issue for the repository (none at all, or
    only pull requests among the first twenty), the matcher answers the empty
    list after its one GitHub call and does not call the model, whatever the
    profile, even a missing one. *)
Theorem matcher_without_issues (env : Environment) (world : World)
    (profile : option UserProfile.t) (repo_name : option string) :
  filter (fun issue => negb (RawIssue.pull_request issue))
    (firstn 20 (client_issues world repo_name GitHubTools.default_labels)) = [] ->
  IssueMatcherAgent.find_suitable_issues env world profile repo_name =
    (Return [], [GitHubCall "get_issues" repo_name]).
Proof.
  intros Hnone.
  unfold IssueMatcherAgent.find_suitable_issues, GitHubTools.get_issues.
  cbv zeta. rewrite Hnone. reflexivity.
Qed.

Lemma matcher_without_issues_witness :
  IssueMatcherAgent.find_suitable_issues env_ok quiet_world None (Some "octo/alpha") =
    (Return [], [GitHubCall "get_issues" (Some "octo/alpha")]).
Proof.
  apply (matcher_without_issues env_ok quiet_world None (Some "octo/alpha")).
  reflexivity.
Defined.

(** X15.  The matcher never hands back more than five issues, and every
    issue it hands back stands on an issue GitHub yielded among the first
    twenty, no pull request: it carries that issue's number, labels and
    comment count, whatever the model wrote, and a description of at most 500
    characters.  An issue the model invents is dropped. *)
Theorem matcher_issues_are_grounded (env : Environment) (world : World)
    (profile : option UserProfile.t) (repo_name : option string)
    (result : list Issue.t) :
  outcome (IssueMatcherAgent.find_suitable_issues env world profile repo_name) =
    Return result ->
  (length result <= 5)%nat /\
  forall issue,
    In issue result ->
    exists raw,
      In raw (firstn 20 (client_issues world repo_name GitHubTools.default_labels)) /\
      RawIssue.pull_request raw = false /\
      Issue.issue_number issue = RawIssue.number raw /\
      Issue.labels issue = RawIssue.labels raw /\
      Issue.comments_count issue = RawIssue.comments raw /\
      (String.length (Issue.description issue) <= 500)%nat.
Proof.
  intros Hres.
  destruct (find_suitable_issues_grounded env world profile repo_name result Hres)
    as (Hlen & Hg).
  split; [exact Hlen|]. intros issue Hin.
  rewrite Forall_forall in Hg.
  destruct (Hg issue Hin) as (gi & Hgi & Hn & Hl & Hc & Hd).
  apply in_map_iff in Hgi. destruct Hgi as (raw & <- & Hraw).
  apply filter_In in Hraw. destruct Hraw as (Hraw & Hpr).
  exists raw. split; [exact Hraw|]. split; [now destruct (RawIssue.pull_request raw)|].
  repeat split; assumption.
Qed.

Lemma matcher_issues_are_grounded_witness :
  exists result,
    outcome (IssueMatcherAgent.find_suitable_issues env_ok sample_world
               (Some sample_profile) (Some "octo/alpha")) = Return result /\
    map Issue.issue_number result = [9%Z; 7%Z] /\
    (length result <= 5)%nat /\
    forall issue,
      In issue result ->
      exists raw,
        In raw (firstn 20 (client_issues sample_world (Some "octo/alpha")
                             GitHubTools.default_labels)) /\
        RawIssue.pull_request raw = false /\
        Issue.issue_number issue = RawIssue.number raw /\
        Issue.labels issue = RawIssue.labels raw /\
        Issue.comments_count issue = RawIssue.comments raw /\
        (String.length (Issue.description issue) <= 500)%nat.
Proof.
  eexists. split; [vm_compute; reflexivity|]. split; [reflexivity|].
  apply (matcher_issues_are_grounded env_ok sample_world (Some sample_profile)
           (Some "octo/alpha")).
  vm_compute. reflexivity.
Defined.

(** X16.  The matcher calls the model once per batch of five issues and no
    more: with [n] issues fetched it makes at most [(n + 4) / 5] calls, which
    is at most four, and exactly that many whenever it returns. *)
Theorem matcher_model_calls (env : Environment) (world : World)
    (profile : UserProfile.t) (repo_name : option string) :
  let fetched :=
    filter (fun issue => negb (RawIssue.pull_request issue))
      (firstn 20 (client_issues world repo_name GitHubTools.default_labels)) in
  let calls :=
    length (generate_calls
              (events (IssueMatcherAgent.find_suitable_issues env world (Some profile)
                         repo_name))) in
  (calls <= (length fetched + 4) / 5)%nat /\
  ((length fetched + 4) / 5 <= 4)%nat /\
  forall result,
    outcome (IssueMatcherAgent.find_suitable_issues env world (Some profile) repo_name) =
      Return result ->
    calls = ((length fetched + 4) / 5)%nat.
Proof.
  intros fetched calls. subst calls.
  assert (length fetched <= 20)%nat as Hlen.
  { unfold fetched. etransitivity; [apply filter_length_le|]. apply firstn_le_length. }
  assert ((length fetched + 4) / 5 <= 4)%nat as Hfour.
  { transitivity (24 / 5)%nat; [apply Nat.Div0.div_le_mono; lia|].
    apply Nat.eq_le_incl. reflexivity. }
  unfold IssueMatcherAgent.find_suitable_issues.
  change (GitHubTools.get_issues world repo_name None 20)
    with (Return (map GitHubTools.issue_dict fetched),
          [GitHubCall "get_issues" repo_name]).
  rewrite bind_return. unfold events, outcome, after. cbn [fst snd].
  destruct (map GitHubTools.issue_dict fetched) as [|gi others] eqn:Hmap;
    cbn [truthy_list negb].
  - apply map_eq_nil in Hmap. rewrite Hmap. cbn.
    split; [lia|]. split; [lia|]. reflexivity.
  - rewrite <- Hmap. unfold IssueMatcherAgent._analyze_issues.
    destruct (analyze_batches_run env world profile repo_name
                (IssueMatcherAgent.batches (map GitHubTools.issue_dict fetched)))
      as (Hle & Hret).
    rewrite batches_count, length_map in Hle, Hret.
    destruct (IssueMatcherAgent.analyze_batches env world (Some profile) repo_name
                (IssueMatcherAgent.batches (map GitHubTools.issue_dict fetched)))
      as [[analyzed|e] evs]; unfold bind, ret, after, events, outcome in *;
      cbn [fst snd generate_calls app] in *; rewrite ?app_nil_r.
    + split; [exact Hle|]. split; [exact Hfour|]. intros result _.
      now destruct (Hret analyzed eq_refl).
    + split; [exact Hle|]. split; [exact Hfour|]. intros result H. discriminate H.
Qed.

(** X17.  The suitability score of an issue lies above 0 and is at most 1.
    So does [score] before the final [min(score, 1.0)]: in binary64
    arithmetic the four contributions never add up to more than 1, the
    comparison [1.0 < score] is never true, and the score returned is the sum
    itself. *)
Theorem suitability_score_range (world : World) (issue : Issue.t)
    (profile : UserProfile.t) :
  PrimFloat.ltb 0 (IssueMatcherAgent._calculate_suitability_score world issue profile)
    = true /\
  PrimFloat.leb (IssueMatcherAgent._calculate_suitability_score world issue profile) 1
    = true /\
  PrimFloat.leb (IssueMatcherAgent.suitability_sum world issue profile) 1 = true /\
  PrimFloat.ltb 1 (IssueMatcherAgent.suitability_sum world issue profile) = false /\
  IssueMatcherAgent._calculate_suitability_score world issue profile =
    IssueMatcherAgent.suitability_sum world issue profile.
Proof.
  unfold IssueMatcherAgent._calculate_suitability_score,
    IssueMatcherAgent.suitability_sum.
  destruct (UserProfile.skill_level profile), (Issue.difficulty_rating issue),
    (IssueMatcherAgent.has_good_label (Issue.labels issue)),
    (0 <? Issue.comments_count issue)%Z, (Issue.comments_count issue <? 5)%Z,
    (5 <=? Issue.comments_count issue)%Z,
    (IssueMatcherAgent.days_between (utcnow world) (Issue.created_at issue) <? 30)%Z;
    repeat split; vm_compute; reflexivity.
Qed.

Lemma get_issues_run (world : World) (repo_name : option string) (max_results : nat) :
  GitHubTools.get_issues world repo_name None max_results =
  (Return (map GitHubTools.issue_dict
             (filter (fun issue => negb (RawIssue.pull_request issue))
                (firstn max_results
                   (client_issues world repo_name GitHubTools.default_labels)))),
   [GitHubCall "get_issues" repo_name]).
Proof. reflexivity. Qed.

(** X18.  The mentor checks its precondition before it spends a model call:
    when the issue number is not among the issues GitHub yields (up to fifty,
    pull requests dropped), it raises ["Issue #<n> not found in <repo>"]
    after its one GitHub call.  With no issue number at all this is always
    the case. *)
Theorem mentor_issue_not_found (env : Environment) (world : World)
    (profile : option UserProfile.t) (repo_name : option string)
    (issue_number : option Z) :
  IssueMatcherAgent.find_github_issue issue_number
    (map GitHubTools.issue_dict
       (filter (fun issue => negb (RawIssue.pull_request issue))
          (firstn 50 (client_issues world repo_name GitHubTools.default_labels))))
    = None ->
  MentoringAgent.create_mentoring_plan env world profile repo_name issue_number =
    (Raise ("Issue #" +++ MentoringAgent.format_number issue_number +++
            " not found in " +++ format_opt repo_name),
     [GitHubCall "get_issues" repo_name]) /\
  MentoringAgent.create_mentoring_plan env world profile repo_name None =
    (Raise ("Issue #None not found in " +++ format_opt repo_name),
     [GitHubCall "get_issues" repo_name]).
Proof.
  intros Hnone.
  unfold MentoringAgent.create_mentoring_plan.
  rewrite !get_issues_run, !bind_return, Hnone.
  split; [reflexivity|]. cbn [IssueMatcherAgent.find_github_issue]. reflexivity.
Qed.

Lemma mentor_issue_not_found_witness :
  MentoringAgent.create_mentoring_plan env_ok sample_world (Some sample_profile)
    (Some "octo/alpha") (Some 8%Z) =
    (Raise ("Issue #" +++ MentoringAgent.format_number (Some 8%Z) +++
            " not found in " +++ format_opt (Some "octo/alpha")),
     [GitHubCall "get_issues" (Some "octo/alpha")]) /\
  MentoringAgent.create_mentoring_plan env_ok sample_world (Some sample_profile)
    (Some "octo/alpha") None =
    (Raise ("Issue #None not found in " +++ format_opt (Some "octo/alpha")),
     [GitHubCall "get_issues" (Some "octo/alpha")]).
Proof.
  apply (mentor_issue_not_found env_ok sample_world (Some sample_profile)
           (Some "octo/alpha") (Some 8%Z)).
  reflexivity.
Defined.

(** X19.  When the issue is among those GitHub yields, the mentor, given a
    profile and a repository name, fetches the README and the contributing
    guide and calls the model once.  It raises only if that call raises;
    whatever the model answers it returns a plan for that issue number and
    that repository, with the stock plan in place of an answer that does not
    parse. *)
Theorem mentor_plan_for_found_issue (env : Environment) (world : World)
    (profile : UserProfile.t) (name : string) (number : Z)
    (target : GithubIssue.t) :
  IssueMatcherAgent.find_github_issue (Some number)
    (map GitHubTools.issue_dict
       (filter (fun issue => negb (RawIssue.pull_request issue))
          (firstn 50 (client_issues world (Some name) GitHubTools.default_labels))))
    = Some target ->
  let readme :=
    match github_readme env (Some name) with
    | Return text => Some text | Raise _ => None end in
  let contributing :=
    match github_contributing env (Some name) with
    | Return text => Some text | Raise _ => None end in
  let prompt := plan_prompt world profile (Some name) target readme contributing in
  events (MentoringAgent.create_mentoring_plan env world (Some profile) (Some name)
            (Some number)) =
    [GitHubCall "get_issues" (Some name);
     GitHubCall "get_readme" (Some name);
     GitHubCall "get_contributing_guide" (Some name);
     GenerateContent prompt] /\
  outcome (MentoringAgent.create_mentoring_plan env world (Some profile) (Some name)
             (Some number)) =
    match generate_content env prompt with
    | Raise e => Raise e
    | Return text =>
        let fields :=
          match parse_plan world text with
          | Return parsed => parsed
          | Raise _ => MentoringAgent.fallback_plan (Some name) target
          end in
        Return (MentoringPlan.Build number name
                  (PlanJson.step_by_step_plan fields)
                  (PlanJson.key_files_to_examine fields)
                  (PlanJson.suggested_approach fields)
                  (PlanJson.git_commands fields)
                  (PlanJson.testing_strategy fields)
                  (PlanJson.potential_challenges fields))
    end.
Proof.
  intros Hfound. cbv zeta.
  destruct (find_github_issue_found _ _ _ Hfound) as (_ & Hnum).
  assert (GithubIssue.number target = number) as Hn by congruence.
  unfold MentoringAgent.create_mentoring_plan.
  rewrite get_issues_run, bind_return, Hfound.
  unfold get_readme, get_contributing_guide,
    MentoringAgent._generate_plan_with_reasoning, MentoringAgent.new_MentoringPlan.
  rewrite Hn.
  unfold events, outcome, lift, bind, try_except, emit, ret, after.
  cbn [fst snd app].
  destruct (generate_content env _) as [text|e]; cbn [fst snd app];
    [|rewrite ?app_nil_r; split; reflexivity].
  destruct (parse_plan world text) as [parsed|e]; cbn [fst snd app];
    rewrite ?app_nil_r; split; reflexivity.
Qed.

Lemma mentor_plan_for_found_issue_witness :
  let readme :=
    match github_readme env_ok (Some "octo/alpha") with
    | Return text => Some text | Raise _ => None end in
  let contributing :=
    match github_contributing env_ok (Some "octo/alpha") with
    | Return text => Some text | Raise _ => None end in
  let prompt :=
    plan_prompt sample_world sample_profile (Some "octo/alpha")
      (GitHubTools.issue_dict (sample_raw_issue 9 false)) readme contributing in
  events (MentoringAgent.create_mentoring_plan env_ok sample_world (Some sample_profile)
            (Some "octo/alpha") (Some 9%Z)) =
    [GitHubCall "get_issues" (Some "octo/alpha");
     GitHubCall "get_readme" (Some "octo/alpha");
     GitHubCall "get_contributing_guide" (Some "octo/alpha");
     GenerateContent prompt] /\
  outcome (MentoringAgent.create_mentoring_plan env_ok sample_world (Some sample_profile)
             (Some "octo/alpha") (Some 9%Z)) =
    match generate_content env_ok prompt with
    | Raise e => Raise e
    | Return text =>
        let fields :=
          match parse_plan sample_world text with
          | Return parsed => parsed
          | Raise _ =>
              MentoringAgent.fallback_plan (Some "octo/alpha")
                (GitHubTools.issue_dict (sample_raw_issue 9 false))
          end in
        Return (MentoringPlan.Build 9%Z "octo/alpha"
                  (PlanJson.step_by_step_plan fields)
                  (PlanJson.key_files_to_examine fields)
                  (PlanJson.suggested_approach fields)
                  (PlanJson.git_commands fields)
                  (PlanJson.testing_strategy fields)
                  (PlanJson.potential_challenges fields))
    end.
Proof.
  apply (mentor_plan_for_found_issue env_ok sample_world sample_profile "octo/alpha"
           9%Z (GitHubTools.issue_dict (sample_raw_issue 9 false))).
  reflexivity.
Defined.

(** * The workflow with the agents in place *)

Lemma create_mentoring_plan_without_number (env : Environment) (world : World)
    (profile : option UserProfile.t) (repo_name : option string) :
  MentoringAgent.create_mentoring_plan env world profile repo_name None =
  (Raise ("Issue #None not found in " +++ format_opt repo_name),
   [GitHubCall "get_issues" repo_name]).
Proof.
  unfold MentoringAgent.create_mentoring_plan.
  rewrite get_issues_run, bind_return. reflexivity.
Qed.

Section NoIssue.

Variable env : Environment.
Variable world : World.
Variable profile : UserProfile.t.

Let agents := with_agents env world.
Let s1 := transition agents Scout (initial_state profile).
Let s2 := transition agents Preparation s1.
Let s3 := transition agents IssueMatcher s2.

Lemma before_mentor_fields :
  selected_issue_number s3 = None /\ mentoring_plan s3 = None.
Proof.
  destruct (transition_selection agents Scout (initial_state profile)) as (_ & _ & _ & H1).
  destruct (transition_selection agents Preparation s1) as (_ & _ & _ & H2).
  destruct (transition_selection agents IssueMatcher s2) as (_ & _ & _ & H3).
  pose proof (stage_default_selection Preparation s1) as Hd.
  destruct (transition_owned agents Scout (initial_state profile)) as (_ & _ & _ & P1).
  destruct (transition_owned agents Preparation s1) as (_ & _ & _ & P2).
  destruct (transition_owned agents IssueMatcher s2) as (_ & _ & _ & P3).
  fold s1 in H1, P1. fold s2 in H2, P2. fold s3 in H3, P3.
  simpl stage_default in *.
  split.
  - rewrite H3, H2, Hd, H1. reflexivity.
  - rewrite P3, P2, P1 by discriminate. reflexivity.
Qed.

Lemma mentor_fails_without_issue :
  issues s3 = [] ->
  stage_result agents Mentor s3 =
  spec_on_failure Mentor
    ("Issue #None not found in " +++ format_opt (selected_repo_name s3)) s3.
Proof.
  intros Hissues. destruct before_mentor_fields as (Hnum & _).
  assert (default_issue s3 = s3) as Hd.
  { unfold default_issue. now rewrite Hnum, Hissues. }
  unfold stage_result, agent_outcome, agent_call, outcome, map_M, mentoring_agent.
  simpl stage_default. cbv zeta. rewrite Hd, Hnum.
  unfold bind, emit, lift, after. cbn [fst snd].
  unfold agents at 1. cbn [create_mentoring_plan with_agents].
  rewrite create_mentoring_plan_without_number. reflexivity.
Qed.

End NoIssue.

(** X20.  In the workflow with the agents in place, a run that ends without
    issues cannot produce a plan: no issue was selected, so the mentor is
    called without an issue number and fails its own check.  The run ends
    with ["Error creating plan: Issue #None not found in <repo>"] as its
    error, [<repo>] being the selected repository or [None]. *)
Theorem run_without_issues_fails_in_mentor (env : Environment) (world : World)
    (profile : UserProfile.t) (final : AgentWorkflowState) (evs : list Event) :
  run (with_agents env world) profile = (Return final, evs) ->
  issues final = [] ->
  error final =
    Some ("Error creating plan: Issue #None not found in " +++
          format_opt (selected_repo_name final)) /\
  mentoring_plan final = None /\
  selected_issue_number final = None.
Proof.
  intros Hrun Hissues.
  rewrite run_is_run_stages, write_input_id in Hrun.
  assert (final = fst (run_stages (with_agents env world) all_stages
                         (initial_state profile))) as -> by congruence.
  clear Hrun. unfold all_stages in *. rewrite !run_stages_cons in *.
  cbn [run_stages fst] in *.
  set (s3 := transition (with_agents env world) IssueMatcher
               (transition (with_agents env world) Preparation
                  (transition (with_agents env world) Scout (initial_state profile))))
    in *.
  destruct (before_mentor_fields env world profile) as (Hnum & Hplan).
  fold s3 in Hnum, Hplan.
  assert (issues s3 = []) as Hi.
  { destruct (transition_owned (with_agents env world) Mentor s3) as (_ & _ & Hkeep & _).
    rewrite <- Hkeep by discriminate. exact Hissues. }
  pose proof (mentor_fails_without_issue env world profile Hi) as Hfail.
  fold s3 in Hfail.
  unfold transition. rewrite Hfail.
  split; [reflexivity|]. split; [exact Hplan|exact Hnum].
Qed.

Lemma run_without_issues_fails_in_mentor_witness :
  exists final evs,
    run (with_agents env_ok quiet_world) sample_profile = (Return final, evs) /\
    issues final = [] /\
    error final =
      Some ("Error creating plan: Issue #None not found in " +++
            format_opt (selected_repo_name final)) /\
    mentoring_plan final = None /\
    selected_issue_number final = None.
Proof.
  eexists. eexists. split; [vm_compute; reflexivity|].
  split; [reflexivity|].
  apply (run_without_issues_fails_in_mentor env_ok quiet_world sample_profile
           _ _ ltac:(vm_compute; reflexivity)).
  reflexivity.
Defined.

(** * Properties of the progress tracker *)

(** X21.  [recommend_difficulty_adjustment] moves the skill level by at most
    one step, whatever the outcomes and however the two averages round.  It
    leaves the level alone when there is no outcome, and also when no outcome
    has a completion date: a user none of whose contributions was completed is
    never moved down, however few were merged. *)
Theorem difficulty_moves_one_step (true_div : Z -> Z -> float)
    (profile : UserProfile.t) (outcomes : list ContributionOutcome.t) :
  let level := UserProfile.skill_level profile in
  let recommended :=
    ProgressTrackerAgent.recommend_difficulty_adjustment true_div profile outcomes in
  (-1 <= level_rank recommended - level_rank level <= 1)%Z /\
  (outcomes = [] -> recommended = level) /\
  (Forall (fun o => ContributionOutcome.completed_at o = None) outcomes ->
   recommended = level).
Proof.
  cbv zeta. unfold ProgressTrackerAgent.recommend_difficulty_adjustment.
  split; [|split].
  - destruct (negb (truthy_list outcomes)); [lia|].
    destruct (truthy_list (ProgressTrackerAgent.completed_days outcomes)); [|lia].
    destruct (PrimFloat.leb _ _ && PrimFloat.ltb _ _)%bool.
    + destruct (UserProfile.skill_level profile); simpl; lia.
    + destruct (PrimFloat.ltb _ _); [|lia].
      destruct (UserProfile.skill_level profile); simpl; lia.
  - intros ->. reflexivity.
  - intros Hnone.
    assert (ProgressTrackerAgent.completed_days outcomes = []) as ->.
    { induction Hnone as [|o rest Ho _ IH]; [reflexivity|].
      simpl. now rewrite Ho. }
    destruct (negb (truthy_list outcomes)); reflexivity.
Qed.

(** ** The two analyses of [GitHubTools] *)

Lemma score_table_holds : GitHubTools.score_table = true.
Proof. vm_compute. reflexivity. Qed.

Lemma rate_table_holds : GitHubTools.rate_table = true.
Proof. vm_compute. reflexivity. Qed.

Lemma score_ok_reached (positive_count negative_count total_comments : nat) :
  GitHubTools.counts_within 100 (positive_count, negative_count, total_comments) ->
  total_comments <> 0%nat ->
  GitHubTools.score_ok (Z.of_nat positive_count - Z.of_nat negative_count)
    total_comments = true.
Proof.
  intros (Hp & Hn & Ht) H0.
  pose proof score_table_holds as Htable. unfold GitHubTools.score_table in Htable.
  rewrite forallb_forall in Htable.
  specialize (Htable total_comments). rewrite forallb_forall in Htable.
  specialize (Htable ltac:(apply in_seq; lia)
                (positive_count + total_comments - negative_count)%nat
                ltac:(apply in_seq; lia)).
  replace (Z.of_nat (positive_count + total_comments - negative_count) -
           Z.of_nat total_comments)%Z
    with (Z.of_nat positive_count - Z.of_nat negative_count)%Z in Htable by lia.
  exact Htable.
Qed.

Lemma rate_ok_reached (responded checked : nat) :
  (responded <= checked)%nat -> (0 < checked <= 10)%nat ->
  GitHubTools.rate_ok responded checked = true.
Proof.
  intros Hr Hc.
  pose proof rate_table_holds as Htable. unfold GitHubTools.rate_table in Htable.
  rewrite forallb_forall in Htable.
  specialize (Htable checked). rewrite forallb_forall in Htable.
  apply Htable; apply in_seq; lia.
Qed.

Lemma counts_within_le (limit limit' : nat) (counts : nat * nat * nat) :
  (limit <= limit')%nat ->
  GitHubTools.counts_within limit counts -> GitHubTools.counts_within limit' counts.
Proof.
  destruct counts as [[p n] t]. unfold GitHubTools.counts_within. lia.
Qed.

Lemma count_comment_within (limit : nat) (counts : nat * nat * nat) (body : string) :
  GitHubTools.counts_within limit counts ->
  GitHubTools.counts_within (S limit) (GitHubTools.count_comment counts body).
Proof.
  destruct counts as [[p n] t]. unfold GitHubTools.counts_within, GitHubTools.count_comment.
  destruct (existsb _ GitHubTools.positive_keywords),
           (existsb _ GitHubTools.negative_keywords); lia.
Qed.

Lemma fold_count_comment_within (comments : list string) (limit : nat)
    (counts : nat * nat * nat) :
  GitHubTools.counts_within limit counts ->
  GitHubTools.counts_within (limit + length comments)
    (fold_left GitHubTools.count_comment comments counts).
Proof.
  revert limit counts. induction comments as [|body rest IH]; intros limit counts H.
  - simpl. now rewrite Nat.add_0_r.
  - cbn [fold_left length]. rewrite Nat.add_succ_r, <- Nat.add_succ_l.
    apply IH. now apply count_comment_within.
Qed.

Lemma fold_pulls_within (pulls : list (list string)) (limit : nat)
    (counts : nat * nat * nat) :
  GitHubTools.counts_within limit counts ->
  GitHubTools.counts_within (limit + 20 * length pulls)
    (fold_left
       (fun counts comments =>
          fold_left GitHubTools.count_comment (firstn 20 comments) counts)
       pulls counts).
Proof.
  revert limit counts. induction pulls as [|comments rest IH]; intros limit counts H.
  - simpl. now rewrite Nat.add_0_r.
  - cbn [fold_left length].
    replace (limit + 20 * S (length rest))%nat
      with ((limit + 20) + 20 * length rest)%nat by lia.
    apply IH.
    apply (counts_within_le (limit + length (firstn 20 comments))).
    + pose proof (firstn_le_length 20 comments). lia.
    + now apply fold_count_comment_within.
Qed.

Lemma count_comments_within (pulls : list (list string)) :
  GitHubTools.counts_within 100 (GitHubTools.count_comments pulls).
Proof.
  unfold GitHubTools.count_comments.
  apply (counts_within_le (0 + 20 * length (firstn 5 pulls))).
  - pose proof (firstn_le_length 5 pulls). lia.
  - apply fold_pulls_within. unfold GitHubTools.counts_within. lia.
Qed.

Lemma merge_times_nil (pulls : list RawPull.t) :
  GitHubTools.merge_times pulls = [] <->
  forallb (fun pr => negb (GitHubTools.has_merge_time pr)) pulls = true.
Proof.
  induction pulls as [|pr rest IH]; [simpl; tauto|].
  cbn [GitHubTools.merge_times forallb]. unfold GitHubTools.has_merge_time at 1.
  destruct (RawPull.merged pr), (RawPull.created_at pr), (RawPull.merged_at pr);
    cbn [is_some andb negb]; try exact IH; split; discriminate.
Qed.

(** X22.  [analyze_pr_sentiment] makes one call and never raises, and its
    docstring holds in binary64 arithmetic: the score lies between 0 and 1.
    It reads at most 100 comments (20 of each of 5 pull requests); neither
    count exceeds their number, so the score is [(friendliness + 1) / 2] as
    computed and [max(0, min(1, ...))] never cuts.  Without a comment, and
    when the client faults, the score is 0.7. *)
Theorem pr_sentiment_in_range (world : World) (repo_name : string) :
  exists score,
    GitHubTools.analyze_pr_sentiment world repo_name =
      (Return score, [GitHubCall "analyze_pr_sentiment" (Some repo_name)]) /\
    PrimFloat.leb 0 score = true /\
    PrimFloat.leb score 1 = true /\
    match client_pull_comments world repo_name with
    | Raise _ => score = 0.7%float
    | Return pulls =>
        let counts := GitHubTools.count_comments pulls in
        GitHubTools.counts_within 100 counts /\
        (snd counts = 0%nat -> score = 0.7%float) /\
        (snd counts <> 0%nat ->
         PrimFloat.eqb score
           (GitHubTools.half_up (GitHubTools.friendliness counts)) = true)
    end.
Proof.
  unfold GitHubTools.analyze_pr_sentiment.
  destruct (client_pull_comments world repo_name) as [pulls|e].
  2:{ eexists. split; [reflexivity|]. repeat split; vm_compute; reflexivity. }
  eexists. split; [reflexivity|].
  pose proof (count_comments_within pulls) as Hwithin.
  unfold GitHubTools.sentiment_of. cbv zeta.
  destruct (GitHubTools.count_comments pulls) as [[p n] t] eqn:Hcounts.
  cbn [snd].
  destruct (Nat.eqb_spec t 0) as [->|Hne].
  - split; [vm_compute; reflexivity|]. split; [vm_compute; reflexivity|].
    split; [exact Hwithin|]. split; [reflexivity|]. intros H; now elim H.
  - pose proof (score_ok_reached p n t Hwithin Hne) as Hok.
    unfold GitHubTools.score_ok in Hok. cbv zeta in Hok.
    apply andb_prop in Hok. destruct Hok as (Hok & Heq).
    apply andb_prop in Hok. destruct Hok as (Hlow & Hhigh).
    unfold GitHubTools.friendliness.
    split; [exact Hlow|]. split; [exact Hhigh|].
    split; [exact Hwithin|]. split; [intros H; now elim Hne|]. intros _. exact Heq.
Qed.

(** X23.  [analyze_maintainer_activity] makes one call and never raises.  The
    response rate it reports lies between 0 and 1 in binary64 arithmetic: it
    is taken over at most ten issues.  The average merge time is [None]
    exactly when none of the first ten closed pull requests is merged with
    both dates, and the answer is the fixed default when the client
    faults. *)
Theorem maintainer_activity_is_bounded (world : World) (repo_name : string) :
  exists activity,
    GitHubTools.analyze_maintainer_activity world repo_name =
      (Return activity, [GitHubCall "analyze_maintainer_activity" (Some repo_name)]) /\
    PrimFloat.leb 0 (Activity.issue_response_rate activity) = true /\
    PrimFloat.leb (Activity.issue_response_rate activity) 1 = true /\
    match client_activity world repo_name with
    | Raise _ => activity = GitHubTools.default_activity
    | Return repo =>
        Activity.total_contributors activity = RepoActivity.contributors repo /\
        (Activity.average_merge_time_days activity = None <->
         forallb (fun pr => negb (GitHubTools.has_merge_time pr))
           (firstn 10 (RepoActivity.closed_pulls repo)) = true)
    end.
Proof.
  unfold GitHubTools.analyze_maintainer_activity.
  destruct (client_activity world repo_name) as [repo|e].
  2:{ eexists. split; [reflexivity|]. repeat split; vm_compute; reflexivity. }
  eexists. split; [reflexivity|].
  unfold GitHubTools.activity_of. cbv zeta.
  cbn [Activity.issue_response_rate Activity.average_merge_time_days
       Activity.total_contributors].
  set (checked := firstn 10 (RepoActivity.recent_issues repo)).
  assert (length checked <= 10)%nat as Hchecked by apply firstn_le_length.
  assert (length (filter (fun issue => (0 <? RawIssue.comments issue)%Z) checked)
          <= length checked)%nat as Hresponded by apply filter_length_le.
  assert (PrimFloat.leb 0
            (if (0 <? length checked)%nat
             then int_div
                    (Z.of_nat (length (filter (fun issue =>
                                                 (0 <? RawIssue.comments issue)%Z) checked)))
                    (Z.of_nat (length checked))
             else 0%float) = true /\
          PrimFloat.leb
            (if (0 <? length checked)%nat
             then int_div
                    (Z.of_nat (length (filter (fun issue =>
                                                 (0 <? RawIssue.comments issue)%Z) checked)))
                    (Z.of_nat (length checked))
             else 0%float) 1 = true) as Hrate.
  { destruct (Nat.ltb_spec 0 (length checked)) as [Hpos|_].
    - pose proof (rate_ok_reached _ _ Hresponded (conj Hpos Hchecked)) as Hok.
      unfold GitHubTools.rate_ok in Hok. cbv zeta in Hok.
      now apply andb_prop in Hok.
    - split; vm_compute; reflexivity. }
  destruct Hrate as (Hlow & Hhigh).
  split; [exact Hlow|]. split; [exact Hhigh|]. split; [reflexivity|].
  rewrite <- merge_times_nil.
  destruct (GitHubTools.merge_times (firstn 10 (RepoActivity.closed_pulls repo)));
    cbn [truthy_list]; split; intros H; try reflexivity; discriminate.
Qed.

(** ** The ranking of the issue matcher *)

Lemma order_table_holds : IssueMatcherAgent.order_table = true.
Proof. vm_compute. reflexivity. Qed.

Lemma band_score_listed (level rating : SkillLevel) (label : bool)
    (band : IssueMatcherAgent.CommentBand) (recent : bool) :
  In (IssueMatcherAgent.band_score level rating label band recent)
     IssueMatcherAgent.score_bands.
Proof.
  unfold IssueMatcherAgent.score_bands.
  apply in_flat_map. exists level. split; [destruct level; simpl; tauto|].
  apply in_flat_map. exists rating. split; [destruct rating; simpl; tauto|].
  apply in_flat_map. exists label. split; [destruct label; simpl; tauto|].
  apply in_flat_map. exists band. split; [destruct band; simpl; tauto|].
  apply in_map_iff. exists recent. split; [reflexivity|destruct recent; simpl; tauto].
Qed.

Lemma score_listed (world : World) (issue : Issue.t) (profile : UserProfile.t) :
  In (IssueMatcherAgent._calculate_suitability_score world issue profile)
     IssueMatcherAgent.score_bands.
Proof.
  unfold IssueMatcherAgent._calculate_suitability_score,
    IssueMatcherAgent.suitability_sum.
  destruct (0 <? Issue.comments_count issue)%Z, (Issue.comments_count issue <? 5)%Z,
    (5 <=? Issue.comments_count issue)%Z; cbn [andb];
    first
      [ exact (band_score_listed _ _ _ IssueMatcherAgent.few_comments _)
      | exact (band_score_listed _ _ _ IssueMatcherAgent.many_comments _)
      | exact (band_score_listed _ _ _ IssueMatcherAgent.no_comments _) ].
Qed.

Lemma scores_ordered (a b c : float) :
  In a IssueMatcherAgent.score_bands ->
  In b IssueMatcherAgent.score_bands ->
  In c IssueMatcherAgent.score_bands ->
  (PrimFloat.ltb a b = true -> PrimFloat.leb a b = true) /\
  (PrimFloat.ltb a b = false -> PrimFloat.leb b a = true) /\
  (PrimFloat.leb a b = true -> PrimFloat.leb b c = true -> PrimFloat.leb a c = true).
Proof.
  intros Ha Hb Hc.
  pose proof order_table_holds as Htable. unfold IssueMatcherAgent.order_table in Htable.
  rewrite forallb_forall in Htable. specialize (Htable a Ha).
  rewrite forallb_forall in Htable. specialize (Htable b Hb).
  apply andb_prop in Htable. destruct Htable as (H12 & H3).
  apply andb_prop in H12. destruct H12 as (H1 & H2).
  rewrite forallb_forall in H3. specialize (H3 c Hc).
  destruct (PrimFloat.ltb a b), (PrimFloat.leb a b), (PrimFloat.leb b a),
    (PrimFloat.leb b c), (PrimFloat.leb a c); simpl in *;
    repeat split; intros; congruence.
Qed.

Section Ranking.

Variable world : World.
Variable profile : UserProfile.t.

Let score (issue : Issue.t) : float :=
  IssueMatcherAgent._calculate_suitability_score world issue profile.

(** [a] may stand before [b] in the ranking. *)
Let before (a b : Issue.t) : Prop := PrimFloat.leb (score b) (score a) = true.

Lemma insert_by_Forall (P : Issue.t -> Prop) (x : Issue.t) (l : list Issue.t) :
  P x -> Forall P l -> Forall P (IssueMatcherAgent.insert_by score x l).
Proof.
  intros Hx Hl. apply Forall_forall. intros y Hy.
  apply insert_by_In in Hy. destruct Hy as [->|Hy]; [exact Hx|].
  rewrite Forall_forall in Hl. now apply Hl.
Qed.

Lemma insert_by_sorted (x : Issue.t) (l : list Issue.t) :
  StronglySorted before l ->
  StronglySorted before (IssueMatcherAgent.insert_by score x l).
Proof.
  induction 1 as [|y rest Hsorted IH Hy].
  - simpl. constructor; constructor.
  - cbn [IssueMatcherAgent.insert_by].
    destruct (scores_ordered (score x) (score y) (score x)
                (score_listed world x profile) (score_listed world y profile)
                (score_listed world x profile)) as (Hlt & Hge & _).
    destruct (PrimFloat.ltb (score x) (score y)) eqn:Hcmp.
    + constructor; [exact IH|].
      apply insert_by_Forall; [exact (Hlt eq_refl)|exact Hy].
    + constructor; [constructor; assumption|].
      constructor; [exact (Hge eq_refl)|].
      apply Forall_forall. intros z Hz.
      rewrite Forall_forall in Hy. specialize (Hy z Hz).
      destruct (scores_ordered (score z) (score y) (score x)
                  (score_listed world z profile) (score_listed world y profile)
                  (score_listed world x profile)) as (_ & _ & Htrans).
      exact (Htrans Hy (Hge eq_refl)).
Qed.

Lemma insert_by_Permutation (x : Issue.t) (l : list Issue.t) :
  Permutation (IssueMatcherAgent.insert_by score x l) (x :: l).
Proof.
  induction l as [|y rest IH]; [reflexivity|].
  cbn [IssueMatcherAgent.insert_by].
  destruct (PrimFloat.ltb (score x) (score y)); [|reflexivity].
  etransitivity; [apply perm_skip, IH|apply perm_swap].
Qed.

Lemma sorted_reverse_sorted (l : list Issue.t) :
  StronglySorted before (IssueMatcherAgent.sorted_reverse score l) /\
  Permutation (IssueMatcherAgent.sorted_reverse score l) l.
Proof.
  induction l as [|x rest (Hsorted & Hperm)]; [split; constructor|].
  cbn [IssueMatcherAgent.sorted_reverse fold_right].
  fold (IssueMatcherAgent.sorted_reverse score rest).
  split; [now apply insert_by_sorted|].
  etransitivity; [apply insert_by_Permutation|now apply perm_skip].
Qed.

End Ranking.

(** X24.  The matcher returns the most suitable issues, best first: what it
    returns, followed by what it leaves out, is a rearrangement of the issues
    the analysis produced in which no issue stands before one of strictly
    higher suitability score (compared in binary64 arithmetic), and it leaves
    an issue out only when five are returned. *)
Theorem matcher_returns_best_first (env : Environment) (world : World)
    (profile : UserProfile.t) (repo_name : option string) (result : list Issue.t) :
  let score := fun issue =>
    IssueMatcherAgent._calculate_suitability_score world issue profile in
  let fetched :=
    map GitHubTools.issue_dict
      (filter (fun issue => negb (RawIssue.pull_request issue))
         (firstn 20 (client_issues world repo_name GitHubTools.default_labels))) in
  outcome (IssueMatcherAgent.find_suitable_issues env world (Some profile) repo_name) =
    Return result ->
  exists analyzed rest,
    outcome (IssueMatcherAgent._analyze_issues env world (Some profile) repo_name
               fetched) = Return analyzed /\
    Permutation (result ++ rest) analyzed /\
    StronglySorted (fun a b => PrimFloat.leb (score b) (score a) = true)
      (result ++ rest) /\
    length result = Nat.min 5 (length analyzed).
Proof.
  intros score fetched.
  unfold IssueMatcherAgent.find_suitable_issues.
  change (GitHubTools.get_issues world repo_name None 20)
    with (Return fetched, [GitHubCall "get_issues" repo_name]).
  rewrite bind_return. unfold outcome, after. cbn [fst].
  destruct fetched as [|gi others] eqn:Hfetched; cbn [truthy_list negb].
  - intros H. assert (result = []) as -> by (unfold ret in H; simpl in H; congruence).
    exists [], []. split; [reflexivity|]. split; [constructor|].
    split; [constructor|reflexivity].
  - rewrite <- Hfetched.
    destruct (IssueMatcherAgent._analyze_issues env world (Some profile) repo_name fetched)
      as [[analyzed|e] evs];
      unfold bind, ret, after in *; cbn [fst snd] in *; [|discriminate].
    intros H.
    assert (result = firstn 5 (IssueMatcherAgent.sorted_reverse score analyzed))
      as -> by (unfold score; congruence).
    destruct (sorted_reverse_sorted world profile analyzed) as (Hsorted & Hperm).
    exists analyzed, (skipn 5 (IssueMatcherAgent.sorted_reverse score analyzed)).
    rewrite firstn_skipn.
    split; [reflexivity|]. split; [exact Hperm|]. split; [exact Hsorted|].
    rewrite length_firstn. f_equal. now apply Permutation_length.
Qed.

Lemma matcher_returns_best_first_witness :
  exists result analyzed rest,
    outcome (IssueMatcherAgent.find_suitable_issues env_ok sample_world
               (Some sample_profile) (Some "octo/alpha")) = Return result /\
    map Issue.issue_number result = [9%Z; 7%Z] /\
    Permutation (result ++ rest) analyzed /\
    StronglySorted
      (fun a b =>
         PrimFloat.leb
           (IssueMatcherAgent._calculate_suitability_score sample_world b sample_profile)
           (IssueMatcherAgent._calculate_suitability_score sample_world a sample_profile)
         = true)
      (result ++ rest) /\
    length result = Nat.min 5 (length analyzed).
Proof.
  destruct (matcher_returns_best_first env_ok sample_world sample_profile
              (Some "octo/alpha")
              (match outcome (IssueMatcherAgent.find_suitable_issues env_ok sample_world
                                (Some sample_profile) (Some "octo/alpha")) with
               | Return result => result
               | Raise _ => []
               end))
    as (analyzed & rest & _ & Hperm & Hsorted & Hlen).
  - vm_compute. reflexivity.
  - eexists _, analyzed, rest.
    split; [vm_compute; reflexivity|].
    split; [vm_compute; reflexivity|].
    split; [exact Hperm|]. split; [exact Hsorted|exact Hlen].
Defined.

(** ** What the final state of a full run holds *)

Lemma prepare_onboarding_guide_named (env : Environment)
    (profile : option UserProfile.t) (repo_name : option string)
    (guide : ContributionGuide.t) :
  outcome (prepare_onboarding_guide env profile repo_name) = Return guide ->
  repo_name = Some (ContributionGuide.repo_name guide).
Proof.
  destruct repo_name as [name|].
  2:{ destruct (prepare_onboarding_guide_None env profile) as (e & He).
      rewrite He. discriminate. }
  unfold prepare_onboarding_guide, get_readme, get_contributing_guide,
    get_repository_info, _generate_guide.
  destruct profile as [profile|]; [|discriminate].
  unfold bind, emit, ret, lift, after, outcome. cbn [fst snd].
  destruct (generate_content env _) as [text|e]; cbn [fst snd]; [|discriminate].
  unfold try_except, new_ContributionGuide, bind, ret, lift, after.
  destruct (parse_guide env text) as [fields|e]; cbn [fst snd];
    intros H; injection H as <-; reflexivity.
Qed.

Lemma create_mentoring_plan_named (env : Environment) (world : World)
    (profile : option UserProfile.t) (repo_name : option string)
    (issue_number : option Z) (plan : MentoringPlan.t) :
  outcome (MentoringAgent.create_mentoring_plan env world profile repo_name
             issue_number) = Return plan ->
  repo_name = Some (MentoringPlan.repo_name plan) /\
  issue_number = Some (MentoringPlan.issue_number plan).
Proof.
  unfold MentoringAgent.create_mentoring_plan.
  rewrite get_issues_run, bind_return.
  destruct (IssueMatcherAgent.find_github_issue issue_number _) as [target|] eqn:Hfind;
    [|discriminate].
  apply find_github_issue_found in Hfind. destruct Hfind as (_ & ->).
  unfold get_readme, get_contributing_guide, MentoringAgent._generate_plan_with_reasoning.
  destruct profile as [profile|]; [|discriminate].
  unfold bind, emit, ret, lift, after, outcome. cbn [fst snd].
  destruct (generate_content env _) as [text|e]; cbn [fst snd]; [|discriminate].
  unfold try_except, MentoringAgent.new_MentoringPlan, bind, ret, raise, lift, after.
  destruct repo_name as [name|];
    destruct (parse_plan world text) as [fields|e]; cbn [fst snd];
    try discriminate; intros H; injection H as <-; split; reflexivity.
Qed.

Section Consistency.

Variable env : Environment.
Variable world : World.
Variable profile : UserProfile.t.

Let agents := with_agents env world.
Let s1 := transition agents Scout (initial_state profile).
Let s2 := transition agents Preparation s1.
Let s3 := transition agents IssueMatcher s2.
Let s4 := transition agents Mentor s3.

Lemma full_run_states :
  fst (run_stages agents all_stages (initial_state profile)) = s4.
Proof.
  unfold all_stages. rewrite !run_stages_cons. reflexivity.
Qed.

Lemma repository_is_settled :
  selected_repo_name s4 = selected_repo_name (default_repository s1) /\
  selected_repo_name s3 = selected_repo_name (default_repository s1) /\
  selected_repo_name s2 = selected_repo_name (default_repository s1).
Proof.
  destruct (transition_selection agents Preparation s1) as (_ & H2 & _).
  destruct (transition_selection agents IssueMatcher s2) as (_ & H3 & _).
  destruct (transition_selection agents Mentor s3) as (_ & H4 & _).
  destruct (stage_default_selection Mentor s3) as (Hd & _).
  fold s2 in H2, H3. fold s3 in H3, H4. fold s4 in H4.
  cbn [stage_default] in *.
  split; [|split]; congruence.
Qed.

Lemma guide_is_for_selected_repository (guide : ContributionGuide.t) :
  contribution_guide s4 = Some guide ->
  selected_repo_name s4 = Some (ContributionGuide.repo_name guide).
Proof.
  destruct (transition_owned agents Scout (initial_state profile)) as (_ & G1 & _).
  destruct (transition_owned agents IssueMatcher s2) as (_ & G3 & _).
  destruct (transition_owned agents Mentor s3) as (_ & G4 & _).
  fold s1 in G1. fold s3 in G3, G4. fold s4 in G4.
  rewrite G4, G3 by discriminate.
  destruct repository_is_settled as (-> & _ & _).
  destruct (apply_writes_frame s1 (stage_result agents Preparation s1))
    as (_ & _ & _ & _ & _ & _ & Hg & _).
  fold (transition agents Preparation s1) in Hg. fold s2 in Hg. rewrite Hg.
  destruct (stage_default_frame Preparation s1) as (_ & _ & _ & Hd & _).
  cbn [stage_default] in Hd.
  unfold stage_result, agent_outcome, agent_call, map_M, outcome.
  cbn [stage_default fst].
  destruct (fst (prepare_onboarding_guide agents
                   (user_profile (default_repository s1))
                   (selected_repo_name (default_repository s1))))
    as [g|e] eqn:Hcall.
  - cbn. intros H. assert (g = guide) as -> by congruence.
    now apply (prepare_onboarding_guide_named agents) in Hcall.
  - cbn. rewrite Hd, G1 by discriminate. discriminate.
Qed.

Lemma plan_is_for_selected_issue (plan : MentoringPlan.t) :
  mentoring_plan s4 = Some plan ->
  selected_repo_name s4 = Some (MentoringPlan.repo_name plan) /\
  selected_issue_number s4 = Some (MentoringPlan.issue_number plan) /\
  exists first rest,
    issues s4 = first :: rest /\
    Issue.issue_number first = MentoringPlan.issue_number plan.
Proof.
  destruct (before_mentor_fields env world profile) as (Hnum & Hplan).
  fold agents s1 s2 s3 in Hnum, Hplan.
  destruct (transition_selection agents Mentor s3) as (_ & Hname & _ & Hsel).
  destruct (transition_owned agents Mentor s3) as (_ & _ & Hissues & _).
  fold s4 in Hname, Hsel, Hissues. cbn [stage_default] in Hname, Hsel.
  rewrite Hname, Hsel, Hissues by discriminate.
  destruct (apply_writes_frame s3 (stage_result agents Mentor s3))
    as (_ & _ & _ & _ & _ & _ & _ & Hp & _).
  fold (transition agents Mentor s3) in Hp. fold s4 in Hp. rewrite Hp.
  destruct (stage_default_frame Mentor s3) as (_ & _ & _ & _ & Hd & _).
  cbn [stage_default] in Hd. clearbody s3 s4.
  unfold stage_result, agent_outcome, agent_call, map_M, outcome, mentoring_agent.
  cbn [stage_default fst bind emit lift after].
  unfold agents at 1. cbn [create_mentoring_plan with_agents].
  destruct (outcome (MentoringAgent.create_mentoring_plan env world
                       (user_profile (default_issue s3))
                       (selected_repo_name (default_issue s3))
                       (selected_issue_number (default_issue s3))))
    as [p|e] eqn:Hcall.
  - cbn. intros H. assert (p = plan) as -> by congruence.
    apply create_mentoring_plan_named in Hcall. destruct Hcall as (Hr & Hn).
    split; [exact Hr|]. split; [exact Hn|].
    revert Hn. unfold default_issue. rewrite Hnum. cbn [truthy_int negb andb].
    destruct (issues s3) as [|first rest]; cbn [truthy_list].
    + rewrite Hnum. discriminate.
    + cbn. intros Hn. exists first, rest. split; [reflexivity|congruence].
  - cbn. rewrite Hd, Hplan. discriminate.
Qed.

Lemma issues_are_of_selected_repository (issue : Issue.t) :
  In issue (issues s4) ->
  exists raw,
    In raw (firstn 20 (client_issues world (selected_repo_name s4)
                         GitHubTools.default_labels)) /\
    RawIssue.pull_request raw = false /\
    Issue.issue_number issue = RawIssue.number raw.
Proof.
  destruct (transition_owned agents Scout (initial_state profile)) as (_ & _ & I1 & _).
  destruct (transition_owned agents Preparation s1) as (_ & _ & I2 & _).
  destruct (transition_owned agents Mentor s3) as (_ & _ & I4 & _).
  fold s1 in I1, I2. fold s2 in I2. fold s4 in I4.
  rewrite I4 by discriminate.
  destruct repository_is_settled as (-> & _ & Hname).
  destruct (apply_writes_frame s2 (stage_result agents IssueMatcher s2))
    as (_ & _ & _ & _ & Hi & _).
  fold (transition agents IssueMatcher s2) in Hi. fold s3 in Hi. rewrite Hi.
  rewrite I1 in I2 by discriminate. specialize (I2 ltac:(discriminate)).
  clear I1 I4. clearbody s1 s2 s3 s4.
  unfold stage_result, agent_outcome, agent_call, map_M, outcome, issue_matcher.
  cbn [stage_default fst bind emit lift after].
  unfold agents at 1. cbn [find_suitable_issues with_agents].
  rewrite Hname.
  destruct (outcome (IssueMatcherAgent.find_suitable_issues env world (user_profile s2)
                       (selected_repo_name (default_repository s1))))
    as [l|e] eqn:Hcall.
  - cbn. intros Hin.
    destruct (find_suitable_issues_grounded env world _ _ _ Hcall) as (_ & Hg).
    rewrite Forall_forall in Hg.
    destruct (Hg issue Hin) as (gi & Hgi & Hn & _).
    apply in_map_iff in Hgi. destruct Hgi as (raw & <- & Hraw).
    apply filter_In in Hraw. destruct Hraw as (Hraw & Hpr).
    exists raw. split; [exact Hraw|].
    split; [now destruct (RawIssue.pull_request raw)|exact Hn].
  - cbn. rewrite I2. intros [].
Qed.

End Consistency.

(** X25.  What a full run with the agents in place leaves in the final state
    fits together.  A contribution guide is a guide for the selected
    repository.  A mentoring plan is a plan for the selected repository and
    the selected issue, which is the first of the issues in the state.  And
    every issue in the state has the number of an issue (no pull request)
    among the first twenty GitHub yields for the selected repository. *)
Theorem final_state_is_consistent (env : Environment) (world : World)
    (profile : UserProfile.t) (final : AgentWorkflowState) (evs : list Event) :
  run (with_agents env world) profile = (Return final, evs) ->
  (forall guide,
     contribution_guide final = Some guide ->
     selected_repo_name final = Some (ContributionGuide.repo_name guide)) /\
  (forall plan,
     mentoring_plan final = Some plan ->
     selected_repo_name final = Some (MentoringPlan.repo_name plan) /\
     selected_issue_number final = Some (MentoringPlan.issue_number plan) /\
     exists first rest,
       issues final = first :: rest /\
       Issue.issue_number first = MentoringPlan.issue_number plan) /\
  (forall issue,
     In issue (issues final) ->
     exists raw,
       In raw (firstn 20 (client_issues world (selected_repo_name final)
                            GitHubTools.default_labels)) /\
       RawIssue.pull_request raw = false /\
       Issue.issue_number issue = RawIssue.number raw).
Proof.
  intros Hrun.
  rewrite run_is_run_stages, write_input_id in Hrun.
  assert (final = fst (run_stages (with_agents env world) all_stages
                         (initial_state profile))) as -> by congruence.
  rewrite full_run_states.
  split; [|split].
  - apply guide_is_for_selected_repository.
  - apply plan_is_for_selected_issue.
  - apply issues_are_of_selected_repository.
Qed.

Lemma final_state_is_consistent_witness :
  exists final evs plan,
    run (with_agents env_ok sample_world) sample_profile = (Return final, evs) /\
    mentoring_plan final = Some plan /\
    MentoringPlan.issue_number plan = 9%Z /\
    (forall guide,
       contribution_guide final = Some guide ->
       selected_repo_name final = Some (ContributionGuide.repo_name guide)) /\
    (forall plan,
       mentoring_plan final = Some plan ->
       selected_repo_name final = Some (MentoringPlan.repo_name plan) /\
       selected_issue_number final = Some (MentoringPlan.issue_number plan) /\
       exists first rest,
         issues final = first :: rest /\
         Issue.issue_number first = MentoringPlan.issue_number plan) /\
    (forall issue,
       In issue (issues final) ->
       exists raw,
         In raw (firstn 20 (client_issues sample_world (selected_repo_name final)
                              GitHubTools.default_labels)) /\
         RawIssue.pull_request raw = false /\
         Issue.issue_number issue = RawIssue.number raw).
Proof.
  eexists. eexists. eexists. split; [vm_compute; reflexivity|].
  split; [reflexivity|]. split; [reflexivity|].
  apply (final_state_is_consistent env_ok sample_world sample_profile _ _
           ltac:(vm_compute; reflexivity)).
Defined.
